(** * The realtime core of the collaborative document editor

    A shallow embedding of [src/components/DocumentEditor.tsx]: the React
    function component [DocumentEditor], its state cells, its three effects,
    its event handlers and the asynchronous functions they start.

    How the component is read here.

    - Every [useState] cell is a field of [View].  A handler runs on the view of
      the latest render; after it, the component renders again and React runs
      the effects whose dependency list changed ([commit]).
    - A function created by a render closes over the values of THAT render.  The
      debounce timer calls the [saveDocument] of the render that scheduled it,
      so what it reads ([user], [isSaving], [documentTitle], [documentContent])
      is a snapshot, kept in [Closure.t].  The channel handlers registered by
      [setupRealtime] close over the [user] of the render that ran the effect.
    - An [async] function runs up to its first [await] and is then suspended;
      the suspended rest is a [Task].  The answer of the store or of the channel
      is an event of its own ([Settle]) that runs the continuation.
    - Every call that leaves the component (store, channel, console) is
      appended to [log], oldest first.
    - The browser is the environment: the clock ([now]), the pending timers,
      the window's selection, and the HTML parser, which is a parameter
      ([parseHTML]).  Times are milliseconds; a [Date] and its ISO string are
      carried as the instant they denote.  String lengths are counted in the
      characters of the Rocq string. *)

From Stdlib Require Import String Ascii List Bool Arith Lia.
From Stdlib Require Import DecimalString DecimalNat.
Import ListNotations.
Open Scope string_scope.

(** ** JavaScript values *)

(** A string is truthy unless it is empty. *)
Definition truthy (s : string) : bool := negb (s =? "").

(** [x || d] where [x] is a string that may be undefined. *)
Definition orDefault (x : option string) (d : string) : string :=
  match x with
  | Some s => if truthy s then s else d
  | None => d
  end.

(** ['' + n] for a non-negative integer. *)
Definition decimal (n : nat) : string :=
  NilEmpty.string_of_uint (Nat.to_uint n).

Definition isWhite (a : ascii) : bool :=
  let n := nat_of_ascii a in
  ((n =? 32) || ((9 <=? n) && (n <=? 13)))%nat.

Fixpoint trimStart (s : string) : string :=
  match s with
  | EmptyString => EmptyString
  | String a s' => if isWhite a then trimStart s' else s
  end.

Fixpoint trimEnd (s : string) : string :=
  match s with
  | EmptyString => EmptyString
  | String a s' =>
      let r := trimEnd s' in
      if isWhite a && (r =? "") then EmptyString else String a r
  end.

(** [s.trim()] *)
Definition trim (s : string) : string := trimStart (trimEnd s).

(** [s.split('@')[0]] *)
Fixpoint beforeAt (s : string) : string :=
  match s with
  | EmptyString => EmptyString
  | String a s' => if (a =? "@")%char then EmptyString else String a (beforeAt s')
  end.

(** ** Data model *)

Module User.
(** The identity the auth provider delivers ([state.user]). *)
Record t := mk { id : string; email : option string }.

Definition option_string_eqb (a b : option string) : bool :=
  match a, b with
  | Some x, Some y => x =? y
  | None, None => true
  | _, _ => false
  end.

Definition eqb (a b : t) : bool :=
  (id a =? id b) && option_string_eqb (email a) (email b).
End User.

Module Comment.
Record author := mkAuthor { email : option string; name : option string }.

Record t := mk {
  id : string;
  documentId : string;
  userId : string;
  content : string;
  positionStart : nat;
  positionEnd : nat;
  createdAt : nat;
  resolved : bool;
  user : option author
}.

(** [{ ...comment, user: { email: user.email } }] *)
Definition withAuthor (c : t) (u : User.t) : t :=
  mk (id c) (documentId c) (userId c) (content c) (positionStart c)
     (positionEnd c) (createdAt c) (resolved c)
     (Some (mkAuthor (User.email u) None)).
End Comment.

Module CollaborativeUser.
Record metadata := mkMetadata {
  displayName : string;
  email : string;
  cursor : option nat
}.

Record t := mk { userId : string; meta : metadata; lastSeen : nat }.
End CollaborativeUser.

Module Document.
(** A record of the [documents] table, as [upsert] takes it and [list] returns
    it.  [handleTitleSave] upserts without [content]. *)
Record t := mk {
  id : string;
  title : option string;
  content : option string;
  userId : string;
  updatedAt : nat
}.
End Document.

(** The payload of a channel message (wire contract of the three types). *)
Inductive Payload :=
| ContentUpdate (content : string) (updatedBy : string)
| TitleUpdate (title : string) (updatedBy : string)
| CommentAdded (comment : Comment.t).

Module Message.
(** A message as [channel.onMessage] delivers it: [userId] is the sender. *)
Record t := mk { userId : string; data : Payload }.

Definition type (m : t) : string :=
  match data m with
  | ContentUpdate _ _ => "content-update"
  | TitleUpdate _ _ => "title-update"
  | CommentAdded _ => "comment-added"
  end.
End Message.

(** ** The editing surface and the selection *)

Set Warnings "-register-all".

Inductive Node :=
| Text (data : string)
| Element (tag : string) (children : list Node)
| CommentNode (data : string).

(** [node.textContent] *)
Fixpoint nodeText (n : Node) : string :=
  match n with
  | Text d => d
  | CommentNode _ => ""
  | Element _ cs =>
      (fix all (l : list Node) : string :=
         match l with
         | [] => ""
         | c :: l' => nodeText c ++ all l'
         end) cs
  end.

(** [element.textContent] of an element with these children. *)
Definition textContent (children : list Node) : string :=
  nodeText (Element "div" children).

(** The length of a node in the sense of DOM ranges: the data of a text or
    comment node, the number of children of an element. *)
Definition nodeLength (n : Node) : nat :=
  match n with
  | Text d => String.length d
  | CommentNode d => String.length d
  | Element _ cs => List.length cs
  end.

(** Where a range boundary lies, as far as the component can tell. *)
Inductive Container :=
| EditorElement       (* the contenteditable element itself *)
| EditorFirstChild    (* [editorRef.current.firstChild] *)
| EditorDescendant    (* any other node below the editor *)
| Outside.            (* a node that is not in the editor *)

Module Range.
Record t := mk {
  startContainer : Container;
  startOffset : nat;
  endContainer : Container;
  endOffset : nat
}.

Definition collapsedAt (c : Container) (k : nat) : t := mk c k c k.

Definition inEditor (c : Container) : bool :=
  match c with Outside => false | _ => true end.

(** What the DOM does to a live range when all children of the editor are
    replaced: a boundary in or below the editor moves to (editor, 0). *)
Definition afterReplace (r : t) : t :=
  mk (if inEditor (startContainer r) then EditorElement else startContainer r)
     (if inEditor (startContainer r) then 0 else startOffset r)
     (if inEditor (endContainer r) then EditorElement else endContainer r)
     (if inEditor (endContainer r) then 0 else endOffset r).
End Range.

(** [window.getSelection()]: null, or a selection with no range, or with one. *)
Inductive Selection :=
| SelNull
| SelEmpty
| SelRange (r : Range.t).

(** A browser that shows the serialized content as one text node; used to run
    the model on concrete inputs. *)
Definition plainText (html : string) : list Node :=
  if truthy html then [Text html] else [].

(** A browser that wraps the content in one paragraph element: the first
    child of the editor is then an element with a single child. *)
Definition paragraph (html : string) : list Node :=
  if truthy html then [Element "p" [Text html]] else [].

(** ** Calls that leave the component *)

Inductive Effect :=
| DocumentsList (whereId : string) (limit : nat)
| DocumentsUpsert (r : Document.t)
| CommentsList (whereDocumentId : string)
| CommentsCreate (c : Comment.t)
| ChannelSubscribe (topic : string) (userId : string)
    (meta : CollaborativeUser.metadata)
| Publish (topic : string) (type : string) (payload : Payload)
| ConsoleError (message : string)
| Uncaught (exn : string).

(** How an awaited call ends. *)
Inductive Response :=
| Fulfilled
| FulfilledDocs (docs : list Document.t)
| FulfilledComments (cs : list Comment.t)
| Rejected.

Module Closure.
(** What the [saveDocument] of one render reads. *)
Record t := mk {
  user : option User.t;
  isSaving : bool;
  documentTitle : string;
  documentContent : string
}.
End Closure.

Module Timer.
Record t := mk { id : nat; deadline : nat; closure : Closure.t }.
End Timer.

(** A suspended [async] function: what it is waiting for and what it closed
    over. *)
Inductive Task :=
| LoadDocumentList
| LoadCommentsList
| SetupSubscribe (u : User.t)
| SaveUpsert (cl : Closure.t) (u : User.t)
| SavePublish
| TitleUpsert (title : string) (u : User.t)
| TitlePublish
| CommentCreate (c : Comment.t) (u : User.t)
| CommentPublish.

Definition isSave (t : Task) : bool :=
  match t with
  | SaveUpsert _ _ | SavePublish => true
  | _ => false
  end.

(** ** Component state *)

Record View := mkView {
  documentTitle : string;
  documentContent : string;
  isEditing : bool;
  user : option User.t;
  isLoading : bool;
  isSaving : bool;
  lastSaved : option nat;
  collaborators : list CollaborativeUser.t;
  comments : list Comment.t;
  selectedText : string
}.

(** The dependency values React remembers from the last commit. *)
Record Deps := mkDeps {
  depUser : option User.t;
  depContent : string;
  depLoading : bool
}.

Record State := mkState {
  view : View;
  rendered : Deps;
  editorRef : option string;        (* innerHTML of [editorRef.current] *)
  selection : Selection;
  saveTimeoutRef : option nat;
  timers : list Timer.t;            (* timers the browser still holds *)
  nextId : nat;
  tasks : list (nat * Task);
  handlers : list User.t;           (* channel handlers, by captured user *)
  now : nat;
  log : list Effect
}.

Definition withView (f : View -> View) (s : State) : State :=
  mkState (f (view s)) (rendered s) (editorRef s) (selection s)
    (saveTimeoutRef s) (timers s) (nextId s) (tasks s) (handlers s) (now s)
    (log s).

Definition setDocumentTitle (x : string) : State -> State :=
  withView (fun v => mkView x (documentContent v) (isEditing v) (user v)
    (isLoading v) (isSaving v) (lastSaved v) (collaborators v) (comments v)
    (selectedText v)).

Definition setDocumentContent (x : string) : State -> State :=
  withView (fun v => mkView (documentTitle v) x (isEditing v) (user v)
    (isLoading v) (isSaving v) (lastSaved v) (collaborators v) (comments v)
    (selectedText v)).

Definition setIsEditing (x : bool) : State -> State :=
  withView (fun v => mkView (documentTitle v) (documentContent v) x (user v)
    (isLoading v) (isSaving v) (lastSaved v) (collaborators v) (comments v)
    (selectedText v)).

Definition setUser (x : option User.t) : State -> State :=
  withView (fun v => mkView (documentTitle v) (documentContent v) (isEditing v)
    x (isLoading v) (isSaving v) (lastSaved v) (collaborators v) (comments v)
    (selectedText v)).

Definition setIsLoading (x : bool) : State -> State :=
  withView (fun v => mkView (documentTitle v) (documentContent v) (isEditing v)
    (user v) x (isSaving v) (lastSaved v) (collaborators v) (comments v)
    (selectedText v)).

Definition setIsSaving (x : bool) : State -> State :=
  withView (fun v => mkView (documentTitle v) (documentContent v) (isEditing v)
    (user v) (isLoading v) x (lastSaved v) (collaborators v) (comments v)
    (selectedText v)).

Definition setLastSaved (x : option nat) : State -> State :=
  withView (fun v => mkView (documentTitle v) (documentContent v) (isEditing v)
    (user v) (isLoading v) (isSaving v) x (collaborators v) (comments v)
    (selectedText v)).

Definition setCollaborators (x : list CollaborativeUser.t) : State -> State :=
  withView (fun v => mkView (documentTitle v) (documentContent v) (isEditing v)
    (user v) (isLoading v) (isSaving v) (lastSaved v) x (comments v)
    (selectedText v)).

Definition setComments (x : list Comment.t) : State -> State :=
  withView (fun v => mkView (documentTitle v) (documentContent v) (isEditing v)
    (user v) (isLoading v) (isSaving v) (lastSaved v) (collaborators v) x
    (selectedText v)).

Definition setSelectedText (x : string) : State -> State :=
  withView (fun v => mkView (documentTitle v) (documentContent v) (isEditing v)
    (user v) (isLoading v) (isSaving v) (lastSaved v) (collaborators v)
    (comments v) x).

Definition setRendered (x : Deps) (s : State) : State :=
  mkState (view s) x (editorRef s) (selection s) (saveTimeoutRef s) (timers s)
    (nextId s) (tasks s) (handlers s) (now s) (log s).

Definition setEditorRef (x : option string) (s : State) : State :=
  mkState (view s) (rendered s) x (selection s) (saveTimeoutRef s) (timers s)
    (nextId s) (tasks s) (handlers s) (now s) (log s).

Definition setSelection (x : Selection) (s : State) : State :=
  mkState (view s) (rendered s) (editorRef s) x (saveTimeoutRef s) (timers s)
    (nextId s) (tasks s) (handlers s) (now s) (log s).

Definition setSaveTimeoutRef (x : option nat) (s : State) : State :=
  mkState (view s) (rendered s) (editorRef s) (selection s) x (timers s)
    (nextId s) (tasks s) (handlers s) (now s) (log s).

Definition setTimers (x : list Timer.t) (s : State) : State :=
  mkState (view s) (rendered s) (editorRef s) (selection s) (saveTimeoutRef s)
    x (nextId s) (tasks s) (handlers s) (now s) (log s).

Definition setNextId (x : nat) (s : State) : State :=
  mkState (view s) (rendered s) (editorRef s) (selection s) (saveTimeoutRef s)
    (timers s) x (tasks s) (handlers s) (now s) (log s).

Definition setTasks (x : list (nat * Task)) (s : State) : State :=
  mkState (view s) (rendered s) (editorRef s) (selection s) (saveTimeoutRef s)
    (timers s) (nextId s) x (handlers s) (now s) (log s).

Definition setHandlers (x : list User.t) (s : State) : State :=
  mkState (view s) (rendered s) (editorRef s) (selection s) (saveTimeoutRef s)
    (timers s) (nextId s) (tasks s) x (now s) (log s).

Definition setNow (x : nat) (s : State) : State :=
  mkState (view s) (rendered s) (editorRef s) (selection s) (saveTimeoutRef s)
    (timers s) (nextId s) (tasks s) (handlers s) x (log s).

Definition setLog (x : list Effect) (s : State) : State :=
  mkState (view s) (rendered s) (editorRef s) (selection s) (saveTimeoutRef s)
    (timers s) (nextId s) (tasks s) (handlers s) (now s) x.

(** A call that leaves the component. *)
Definition emit (e : Effect) (s : State) : State := setLog (log s ++ [e]) s.

(** [await call]: the call is made and the rest of the function is parked
    under a fresh number. *)
Definition await (t : Task) (call : Effect) (s : State) : State :=
  setNextId (S (nextId s)) (setTasks (tasks s ++ [(nextId s, t)]) (emit call s)).

(** [saveTimeoutRef.current = setTimeout(callback, delay)].  A timer id is
    a handle the browser never gives as 0, so a ref that holds one is
    truthy. *)
Definition setTimeout (cl : Closure.t) (delay : nat) (s : State) : State :=
  setNextId (S (nextId s))
    (setSaveTimeoutRef (Some (nextId s))
       (setTimers (timers s ++ [Timer.mk (nextId s) (now s + delay) cl]) s)).

(** [clearTimeout(id)] *)
Definition clearTimeout (id : nat) (s : State) : State :=
  setTimers (filter (fun t => negb (Timer.id t =? id)%nat) (timers s)) s.

(** The state after the first render and its effects: no identity yet, the
    auth state still loading, nothing scheduled. *)
Definition initial : State :=
  mkState
    (mkView "Untitled document" "" false None true false None [] [] "")
    (mkDeps None "" true)
    None SelEmpty None [] 0 [] [] 0 [].

(** How a handler ends: it returns, or an exception leaves it. *)
Inductive Completion :=
| Normal (s : State)
| Throw (exn : string) (s : State).

Inductive Event :=
| AuthStateChanged (u : option User.t) (loading : bool)
| Input (html : string)
| TitleEdit
| TitleInput (value : string)
| TitleCommit
| Select (sel : Selection) (text : string)
| ClickComment (answer : option string)
| Elapse (ms : nat)
| Settle (task : nat) (r : Response)
| Deliver (m : Message.t)
| Presence (users : list CollaborativeUser.t).

Fixpoint findTask (id : nat) (l : list (nat * Task)) : option Task :=
  match l with
  | [] => None
  | (i, t) :: l' => if (i =? id)%nat then Some t else findTask id l'
  end.

Fixpoint dropTask (id : nat) (l : list (nat * Task)) : list (nat * Task) :=
  match l with
  | [] => []
  | (i, t) :: l' => if (i =? id)%nat then l' else (i, t) :: dropTask id l'
  end.

Definition optionUser_eqb (a b : option User.t) : bool :=
  match a, b with
  | Some x, Some y => User.eqb x y
  | None, None => true
  | _, _ => false
  end.

Definition quote : string := String (ascii_of_nat 34) EmptyString.

(** The children the JSX gives the editor when it is mounted. *)
Definition placeholder : string :=
  "<div class=" ++ quote ++ "text-gray-400" ++ quote
    ++ ">Start typing your document...</div>".

Section Component.

(** The [documentId] prop, as the parent passes it. *)
Variable documentId : string.

(** The browser's HTML fragment parser: the children the editor has after
    [innerHTML] is assigned. *)
Variable parseHTML : string -> list Node.

Definition topic : string := "document-" ++ documentId.

(** *** The editing surface *)

(** [editorRef.current.innerHTML = html] *)
Definition setInnerHTML (html : string) (s : State) : State :=
  setSelection
    (match selection s with
     | SelRange r => SelRange (Range.afterReplace r)
     | sel => sel
     end)
    (setEditorRef (Some html) s).

(** The [try] block of the content-update handler, entered with the range
    captured before the replacement. *)
Definition restoreCaret (html : string) (startOffset : nat) (s : State) : State :=
  match selection s, parseHTML html with
  | SelRange _, firstChild :: _ =>
      let offset :=
        Nat.min startOffset (String.length (textContent (parseHTML html))) in
      if (offset <=? nodeLength firstChild)%nat then
        (* range.setStart; range.collapse(true); removeAllRanges; addRange *)
        setSelection (SelRange (Range.collapsedAt EditorFirstChild offset)) s
      else
        (* setStart throws IndexSizeError; the catch block ignores it *)
        s
  | _, _ => s
  end.

(** *** loadDocument, loadComments, setupRealtime *)

Definition loadDocument (s : State) : State :=
  await LoadDocumentList (DocumentsList documentId 1) s.

Definition loadDocumentResume (r : Response) (s : State) : option State :=
  match r with
  | FulfilledDocs (doc :: _) =>
      let s := setDocumentTitle (orDefault (Document.title doc) "Untitled document") s in
      let s := setDocumentContent (orDefault (Document.content doc) "") s in
      Some match editorRef s with
           | Some _ =>
               setInnerHTML
                 (orDefault (Document.content doc)
                    "<div>Start typing your document...</div>") s
           | None => s
           end
  | FulfilledDocs [] => Some s
  | Rejected => Some (emit (ConsoleError "Failed to load document:") s)
  | _ => None
  end.

Definition loadComments (s : State) : State :=
  await LoadCommentsList (CommentsList documentId) s.

Definition loadCommentsResume (r : Response) (s : State) : option State :=
  match r with
  | FulfilledComments commentsList => Some (setComments commentsList s)
  | Rejected => Some (emit (ConsoleError "Failed to load comments:") s)
  | _ => None
  end.

Definition displayNameOf (u : User.t) : string :=
  match User.email u with
  | Some e => if truthy (beforeAt e) then beforeAt e else "Anonymous"
  | None => "Anonymous"
  end.

(** [setupRealtime] of a render whose [user] is [user0]. *)
Definition setupRealtime (user0 : option User.t) (s : State) : State :=
  match user0 with
  | None => s
  | Some u =>
      await (SetupSubscribe u)
        (ChannelSubscribe topic (User.id u)
           (CollaborativeUser.mkMetadata (displayNameOf u)
              (orDefault (User.email u) "") (Some 0)))
        s
  end.

Definition setupRealtimeResume (u : User.t) (r : Response) (s : State)
  : option State :=
  match r with
  | Fulfilled => Some (setHandlers (handlers s ++ [u]) s)
  | Rejected => Some (emit (ConsoleError "Failed to setup realtime:") s)
  | _ => None
  end.

(** *** The channel handlers of a [setupRealtime] that captured [u] *)

(** The body of the content-update branch once both guards have passed. *)
Definition applyRemoteContent (content : string) (s : State) : Completion :=
  match selection s with
  | SelEmpty =>
      (* selection.getRangeAt(0) with rangeCount = 0 *)
      Throw "IndexSizeError" s
  | SelNull =>
      Normal (restoreCaret content 0
                (setDocumentContent content (setInnerHTML content s)))
  | SelRange range =>
      let startOffset := Range.startOffset range in
      Normal (restoreCaret content startOffset
                (setDocumentContent content (setInnerHTML content s)))
  end.

Definition onMessage (u : User.t) (m : Message.t) (s : State) : Completion :=
  match Message.data m with
  | ContentUpdate content _ =>
      if negb (Message.userId m =? User.id u) then
        match editorRef s with
        | Some _ => if truthy content then applyRemoteContent content s else Normal s
        | None => Normal s
        end
      else Normal s
  | TitleUpdate title _ =>
      if negb (Message.userId m =? User.id u) then Normal (setDocumentTitle title s)
      else Normal s
  | CommentAdded comment =>
      Normal (setComments (comment :: comments (view s)) s)
  end.

Definition onPresence (u : User.t) (users : list CollaborativeUser.t)
  (s : State) : State :=
  setCollaborators
    (filter (fun x => negb (CollaborativeUser.userId x =? User.id u)) users) s.

(** *** saveDocument *)

Definition saveDocument (cl : Closure.t) (s : State) : State :=
  match Closure.user cl with
  | None => s
  | Some u =>
      if Closure.isSaving cl then s
      else
        await (SaveUpsert cl u)
          (DocumentsUpsert
             (Document.mk documentId (Some (Closure.documentTitle cl))
                (Some (Closure.documentContent cl)) (User.id u) (now s)))
          (setIsSaving true s)
  end.

Definition saveUpsertResume (cl : Closure.t) (u : User.t) (r : Response)
  (s : State) : option State :=
  match r with
  | Rejected =>
      Some (setIsSaving false (emit (ConsoleError "Failed to save document:") s))
  | _ =>
      Some (await SavePublish
              (Publish topic "content-update"
                 (ContentUpdate (Closure.documentContent cl) (User.id u)))
              (setLastSaved (Some (now s)) s))
  end.

Definition savePublishResume (r : Response) (s : State) : option State :=
  match r with
  | Rejected =>
      Some (setIsSaving false (emit (ConsoleError "Failed to save document:") s))
  | _ => Some (setIsSaving false s)
  end.

(** *** Title *)

(** The zero-delay timer that focuses the title input touches no state and
    is left out. *)
Definition handleTitleEdit (s : State) : State := setIsEditing true s.

Definition handleTitleSave (s : State) : State :=
  let s := setIsEditing false s in
  match user (view s) with
  | Some u =>
      await (TitleUpsert (documentTitle (view s)) u)
        (DocumentsUpsert
           (Document.mk documentId (Some (documentTitle (view s))) None
              (User.id u) (now s)))
        s
  | None => s
  end.

(** The continuation closes over the title and the user of the render that
    handled the commit. *)
Definition titleUpsertResume (title : string) (u : User.t) (r : Response)
  (s : State) : option State :=
  match r with
  | Rejected => Some (emit (ConsoleError "Failed to save title:") s)
  | _ =>
      Some (await TitlePublish
              (Publish topic "title-update" (TitleUpdate title (User.id u))) s)
  end.

Definition titlePublishResume (r : Response) (s : State) : option State :=
  match r with
  | Rejected => Some (emit (ConsoleError "Failed to save title:") s)
  | _ => Some s
  end.

(** *** Content and selection *)

Definition handleContentChange (s : State) : State :=
  match editorRef s with
  | Some content => setDocumentContent content s
  | None => s
  end.

(** [text] is [selection.toString()]. *)
Definition handleTextSelection (text : string) (s : State) : State :=
  match selection s with
  | SelNull => setSelectedText "" s
  | _ => if truthy (trim text) then setSelectedText (trim text) s
         else setSelectedText "" s
  end.

(** *** Comments *)

(** [answer] is what [prompt('Add a comment:')] returns. *)
Definition addComment (answer : option string) (s : State) : State :=
  match user (view s) with
  | None => s
  | Some u =>
      if negb (truthy (selectedText (view s))) then s
      else
        match selection s with
        | SelNull => s
        | SelEmpty => s
        | SelRange range =>
            let startOffset := Range.startOffset range in
            let endOffset := Range.endOffset range in
            match answer with
            | None => s
            | Some commentContent =>
                if negb (truthy commentContent) then s
                else
                  let comment :=
                    Comment.mk ("comment-" ++ decimal (now s)) documentId
                      (User.id u) commentContent startOffset endOffset (now s)
                      false None in
                  await (CommentCreate comment u) (CommentsCreate comment) s
            end
        end
  end.

Definition commentCreateResume (comment : Comment.t) (u : User.t)
  (r : Response) (s : State) : option State :=
  match r with
  | Rejected => Some (emit (ConsoleError "Failed to add comment:") s)
  | _ =>
      let s := setComments (Comment.withAuthor comment u :: comments (view s)) s in
      Some (await CommentPublish
              (Publish topic "comment-added"
                 (CommentAdded (Comment.withAuthor comment u))) s)
  end.

Definition commentPublishResume (r : Response) (s : State) : option State :=
  match r with
  | Rejected => Some (emit (ConsoleError "Failed to add comment:") s)
  | _ => Some (setSelectedText "" s)
  end.

(** *** Effects *)

(** The effect with dependencies [[user, documentId]]. *)
Definition loadEffect (s : State) : State :=
  match user (view s) with
  | Some _ =>
      if truthy documentId then
        setupRealtime (user (view s)) (loadComments (loadDocument s))
      else s
  | None => s
  end.

(** The [saveDocument] the current render creates. *)
Definition closureOf (s : State) : Closure.t :=
  Closure.mk (user (view s)) (isSaving (view s)) (documentTitle (view s))
    (documentContent (view s)).

(** The effect with dependencies [[documentContent, user, isLoading]]. *)
Definition autoSaveEffect (s : State) : State :=
  match user (view s) with
  | Some _ =>
      if truthy (documentContent (view s)) && negb (isLoading (view s)) then
        let s :=
          match saveTimeoutRef s with
          | Some id => clearTimeout id s
          | None => s
          end in
        setTimeout (closureOf s) 1000 s
      else s
  | None => s
  end.

Definition depsOf (s : State) : Deps :=
  mkDeps (user (view s)) (documentContent (view s)) (isLoading (view s)).

(** The editor element exists exactly in the render that reaches the last
    [return]: not loading, and a user. *)
Definition editorShown (s : State) : bool :=
  negb (isLoading (view s))
  && match user (view s) with Some _ => true | None => false end.

Definition attachRefs (s : State) : State :=
  if editorShown s then
    match editorRef s with
    | Some _ => s
    | None => setEditorRef (Some placeholder) s
    end
  else setEditorRef None s.

(** Render, then the effects whose dependencies changed, in source order.
    Two users are the same dependency when they are equal as values. *)
Definition commit (s : State) : State :=
  let old := rendered s in
  let s := attachRefs s in
  let userChanged := negb (optionUser_eqb (depUser old) (user (view s))) in
  let contentChanged := negb (depContent old =? documentContent (view s)) in
  let loadingChanged := negb (Bool.eqb (depLoading old) (isLoading (view s))) in
  let s := if userChanged then loadEffect s else s in
  let s := if contentChanged || userChanged || loadingChanged
           then autoSaveEffect s else s in
  setRendered (depsOf s) s.

(** *** Events *)

Definition resume (t : Task) (r : Response) (s : State) : option State :=
  match t with
  | LoadDocumentList => loadDocumentResume r s
  | LoadCommentsList => loadCommentsResume r s
  | SetupSubscribe u => setupRealtimeResume u r s
  | SaveUpsert cl u => saveUpsertResume cl u r s
  | SavePublish => savePublishResume r s
  | TitleUpsert title u => titleUpsertResume title u r s
  | TitlePublish => titlePublishResume r s
  | CommentCreate c u => commentCreateResume c u r s
  | CommentPublish => commentPublishResume r s
  end.

(** The awaited call [id] ends with [r].  An answer of a kind the call
    cannot give changes nothing. *)
Definition settle (id : nat) (r : Response) (s : State) : State :=
  match findTask id (tasks s) with
  | Some t =>
      match resume t r (setTasks (dropTask id (tasks s)) s) with
      | Some s' => s'
      | None => s
      end
  | None => s
  end.

Definition isDue (target : nat) (t : Timer.t) : bool :=
  (Timer.deadline t <=? target)%nat.

(** A timer fires at its deadline and runs the callback it was given. *)
Definition fire (s : State) (t : Timer.t) : State :=
  commit (saveDocument (Timer.closure t)
            (setNow (Nat.max (now s) (Timer.deadline t)) s)).

(** [ms] milliseconds pass in which nothing else happens. *)
Definition elapse (ms : nat) (s : State) : State :=
  let target := now s + ms in
  let due := filter (isDue target) (timers s) in
  let s := setTimers (filter (fun t => negb (isDue target t)) (timers s)) s in
  setNow target (fold_left fire due s).

(** The channel calls every registered message handler; an exception that
    leaves a handler is reported and the next handler still runs. *)
Definition deliver (m : Message.t) (s : State) : State :=
  fold_left
    (fun s u =>
       match onMessage u m s with
       | Normal s' => s'
       | Throw exn s' => emit (Uncaught exn) s'
       end)
    (handlers s) s.

Definition presence (users : list CollaborativeUser.t) (s : State) : State :=
  fold_left (fun s u => onPresence u users s) (handlers s) s.

Definition handle (e : Event) (s : State) : State :=
  match e with
  | AuthStateChanged u loading => setIsLoading loading (setUser u s)
  | Input html =>
      (* the browser has changed the editor; onInput or formatText follows *)
      match editorRef s with
      | Some _ => handleContentChange (setEditorRef (Some html) s)
      | None => s
      end
  | TitleEdit => handleTitleEdit s
  | TitleInput value => setDocumentTitle value s
  | TitleCommit => handleTitleSave s
  | Select sel text => handleTextSelection text (setSelection sel s)
  | ClickComment answer => addComment answer s
  | Elapse ms => elapse ms s
  | Settle id r => settle id r s
  | Deliver m => deliver m s
  | Presence users => presence users s
  end.

Definition step (s : State) (e : Event) : State := commit (handle e s).

Definition run (es : list Event) (s : State) : State := fold_left step es s.

Definition reachable (s : State) : Prop := exists es, s = run es initial.

End Component.

(** ** Vocabulary of the properties *)

(** The flushes ([saveDocument] calls) that have not finished. *)
Definition savesInFlight (s : State) : list (nat * Task) :=
  filter (fun p => isSave (snd p)) (tasks s).

(** The document content a call carries to the store or to the channel. *)
Definition contentOfEffect (e : Effect) : option string :=
  match e with
  | DocumentsUpsert d => Document.content d
  | Publish _ _ (ContentUpdate c _) => Some c
  | _ => None
  end.

(** Store writes, publishes and channel joins: what an inactive session must
    not attempt. *)
Definition isOutbound (e : Effect) : bool :=
  match e with
  | DocumentsUpsert _ | CommentsCreate _ | Publish _ _ _
  | ChannelSubscribe _ _ _ => true
  | _ => false
  end.

(** What was logged between [s] and a later state [s']. *)
Definition newEffects (s s' : State) : list Effect :=
  skipn (List.length (log s)) (log s').

(** A burst of edits: a first edit, then edits each preceded by the time
    since the edit before it. *)
Definition burstEvents (first : string) (rest : list (nat * string))
  : list Event :=
  Input first :: flat_map (fun p => [Elapse (fst p); Input (snd p)]) rest.

Definition burstSpan (rest : list (nat * string)) : nat :=
  list_sum (map fst rest).

Definition lastEdit (first : string) (rest : list (nat * string)) : string :=
  last (map snd rest) first.

(** The whole burst falls within one second, some edit changes the content
    the burst found, and the last edit leaves content that is not empty. *)
Definition withinOneSecond (before first : string)
  (rest : list (nat * string)) : Prop :=
  burstSpan rest < 1000
  /\ lastEdit first rest <> ""
  /\ exists c, In c (first :: map snd rest) /\ c <> before.

(** Every edit comes less than a second after the edit before it and
    changes the content to something that is not empty. *)
Fixpoint eachEditResets (previous : string) (rest : list (nat * string))
  : Prop :=
  match rest with
  | [] => True
  | (gap, c) :: rest' =>
      gap < 1000 /\ c <> "" /\ c <> previous /\ eachEditResets c rest'
  end.

Definition resettingBurst (before first : string)
  (rest : list (nat * string)) : Prop :=
  first <> "" /\ first <> before /\ eachEditResets first rest.

(** What follows a burst in [s] that ended with content [content], seen in
    the state [s1] reached when the quiet period is over: one upsert, then,
    when it succeeds, one publish, and nothing more. *)
Definition flushedOnce (documentId : string)
  (parseHTML : string -> list Node) (s : State) (u : User.t)
  (content : string) (s1 : State) : Prop :=
  exists id t,
    let upsert :=
      DocumentsUpsert
        (Document.mk documentId (Some (documentTitle (view s)))
           (Some content) (User.id u) t) in
    let publish :=
      Publish (topic documentId) "content-update"
        (ContentUpdate content (User.id u)) in
    let s2 := step documentId parseHTML s1 (Settle id Fulfilled) in
    now s + 1000 <= t
    /\ newEffects s s1 = [upsert]
    /\ timers s1 = []
    /\ newEffects s s2 = [upsert; publish]
    /\ timers s2 = []
    /\ forall r,
         filter isOutbound
           (newEffects s (step documentId parseHTML s2 (Settle (S id) r)))
         = [upsert; publish]
         /\ timers (step documentId parseHTML s2 (Settle (S id) r)) = []
         /\ isSaving (view (step documentId parseHTML s2 (Settle (S id) r)))
            = false.

(** The burst property read literally: whatever the edits are, one upsert of
    the last edit's content is all that happens when the quiet period ends. *)
Definition oneFlushPerBurst (documentId : string)
  (parseHTML : string -> list Node) : Prop :=
  forall (s : State) (u : User.t) (first : string)
         (rest : list (nat * string)),
    reachable documentId parseHTML s ->
    user (view s) = Some u ->
    isLoading (view s) = false ->
    timers s = [] ->
    burstSpan rest < 1000 ->
    exists t,
      newEffects s
        (run documentId parseHTML
           (burstEvents first rest ++ [Elapse 1000]) s)
      = [DocumentsUpsert
           (Document.mk documentId (Some (documentTitle (view s)))
              (Some (lastEdit first rest)) (User.id u) t)].

(** The load property read literally: the local title and content are the
    fields of the record that was found. *)
Definition loadCopiesRecord : Prop :=
  forall (s : State) (doc : Document.t) (others : list Document.t)
         (title content : string),
    Document.title doc = Some title ->
    Document.content doc = Some content ->
    exists s',
      loadDocumentResume (FulfilledDocs (doc :: others)) s = Some s'
      /\ documentTitle (view s') = title
      /\ documentContent (view s') = content.

(** ** A sample session *)

Definition ann : User.t := User.mk "u1" (Some "ann@example.org").

Definition session (es : list Event) : State := run "doc-1" plainText es initial.

(** Ann has signed in. *)
Definition signedIn : State := session [AuthStateChanged (Some ann) false].

(** Ann has typed "a" and nothing has happened since. *)
Definition typedA : State :=
  session [AuthStateChanged (Some ann) false; Input "a"].

(** The flush of "a" is in flight and Ann has typed on. *)
Definition busy : State :=
  session [AuthStateChanged (Some ann) false; Input "a"; Elapse 1000;
           Input "ab"].

(** Ann has selected the characters 10 to 14 of the first child. *)
Definition selecting : State :=
  session [AuthStateChanged (Some ann) false;
           Select (SelRange (Range.mk EditorFirstChild 10 EditorFirstChild 14))
             "text"].

(** Ann typed "a" and signed out half a second later. *)
Definition signedOut : State :=
  session [AuthStateChanged (Some ann) false; Input "a"; Elapse 500;
           AuthStateChanged None false].

(** ** Invariant of the reachable states *)

Definition timerSound (s : State) (t : Timer.t) : Prop :=
  Closure.user (Timer.closure t) <> None
  /\ Closure.documentContent (Timer.closure t) <> ""
  /\ (Closure.isSaving (Timer.closure t) = false -> savesInFlight s = []).

(** The part of the invariant that speaks of timers, suspended calls and
    the log. *)
Record Core (s : State) : Prop := mkCore {
  core_timer :
    timers s = []
    \/ exists t, timers s = [t] /\ saveTimeoutRef s = Some (Timer.id t);
  core_closure : forall t, In t (timers s) -> timerSound s t;
  core_ids : forall i t, In (i, t) (tasks s) -> i < nextId s;
  core_flight :
    (isSaving (view s) = false /\ List.length (savesInFlight s) = 0)
    \/ (isSaving (view s) = true /\ List.length (savesInFlight s) = 1);
  core_tasks :
    forall i cl u, In (i, SaveUpsert cl u) (tasks s) ->
                   Closure.documentContent cl <> "";
  core_log : forall e, In e (log s) -> contentOfEffect e <> Some ""
}.

(** The state is the one the last commit left: the remembered dependencies
    are the current ones and the editor is attached exactly when shown. *)
Record Inv (s : State) : Prop := mkInv {
  inv_rendered : rendered s = depsOf s;
  inv_editor : editorRef s = None <-> editorShown s = false;
  inv_core : Core s
}.

(** [s'] differs from [s] in nothing the debounce and the flushes look at,
    and logs no document content. *)
Definition quiet (s s' : State) : Prop :=
  timers s' = timers s
  /\ saveTimeoutRef s' = saveTimeoutRef s
  /\ tasks s' = tasks s
  /\ nextId s' = nextId s
  /\ isSaving (view s') = isSaving (view s)
  /\ (forall e, In e (log s') -> In e (log s) \/ contentOfEffect e = None).

(** The states a burst of edits passes through when it starts in [s0] with a
    user [u], loaded, no flush in flight and no timer pending.  [changed]
    tells whether some edit so far differed from the content of [s0]. *)
Record Burst (s0 : State) (u : User.t) (changed : bool) (s : State)
  : Prop := mkBurst {
  burst_inv : Inv s;
  burst_title : documentTitle (view s) = documentTitle (view s0);
  burst_user : user (view s) = Some u;
  burst_loaded : isLoading (view s) = false;
  burst_idle : isSaving (view s) = false;
  burst_log : log s = log s0;
  burst_tasks : tasks s = tasks s0;
  burst_next : nextId s0 <= nextId s;
  burst_now : now s0 <= now s;
  burst_timers :
    forall t, In t (timers s) ->
      Closure.user (Timer.closure t) = Some u
      /\ Closure.isSaving (Timer.closure t) = false
      /\ Closure.documentTitle (Timer.closure t) = documentTitle (view s0)
      /\ now s0 + 1000 <= Timer.deadline t <= now s + 1000;
  burst_pending :
    if changed then
      documentContent (view s) <> "" ->
      exists t,
        timers s = [t]
        /\ Closure.documentContent (Timer.closure t) = documentContent (view s)
    else timers s = [] /\ documentContent (view s) = documentContent (view s0)
}.

(** The states of a burst in which every edit resets the timer: [since]
    milliseconds after the latest edit, the one pending timer holds the
    current content and is due a second after that edit. *)
Record Chain (s0 : State) (u : User.t) (since : nat) (s : State)
  : Prop := mkChain {
  chain_inv : Inv s;
  chain_title : documentTitle (view s) = documentTitle (view s0);
  chain_user : user (view s) = Some u;
  chain_loaded : isLoading (view s) = false;
  chain_idle : isSaving (view s) = false;
  chain_log : log s = log s0;
  chain_now : now s0 + since <= now s;
  chain_timer :
    exists t,
      timers s = [t]
      /\ Timer.closure t
         = Closure.mk (Some u) false (documentTitle (view s0))
             (documentContent (view s))
      /\ Timer.deadline t + since = now s + 1000
}.

(** ** The rest of the component *)

(** *** What the header and the sidebar show *)

(** The author line of a comment in the sidebar:
    [comment.user?.email?.split('@')[0] || 'Anonymous']. *)
Definition commentAuthorName (c : Comment.t) : string :=
  match Comment.user c with
  | Some a =>
      match Comment.email a with
      | Some e => if truthy (beforeAt e) then beforeAt e else "Anonymous"
      | None => "Anonymous"
      end
  | None => "Anonymous"
  end.



(** The save status in the header: [isSaving && ...] shows "Saving...",
    [lastSaved && !isSaving && ...] shows "Saved" with the time. *)
Inductive SaveStatus :=
| ShowsSaving
| ShowsSaved (time : nat)
| ShowsNothing.

Definition saveStatus (v : View) : SaveStatus :=
  if isSaving v then ShowsSaving
  else match lastSaved v with
       | Some t => ShowsSaved t
       | None => ShowsNothing
       end.



(** *** The share dialog *)

Inductive Permission := CanView | CanEdit.

Module Collaborator.
(** A record of [documentCollaborators]. *)
Record t := mk {
  id : string;
  documentId : string;
  userId : string;
  permission : Permission
}.
End Collaborator.

Module ShareDialog.
(** The three state cells of the dialog. *)
Record t := mk {
  shareEmail : string;
  sharePermission : Permission;
  isShareDialogOpen : bool
}.
End ShareDialog.

(** [shareDocument] up to its [await]: the record it sends to the store, if
    it passes the guard.  [user] and the clock are those of the click. *)
Definition shareDocument (documentId : string) (user0 : option User.t)
  (clock : nat) (d : ShareDialog.t) : option Collaborator.t :=
  if negb (truthy (ShareDialog.shareEmail d)) then None
  else
    match user0 with
    | None => None
    | Some _ =>
        Some (Collaborator.mk ("collab-" ++ decimal clock) documentId
                (ShareDialog.shareEmail d) (ShareDialog.sharePermission d))
    end.

(** The rest of [shareDocument], run on the dialog as it is when the store
    answers; the second component is what goes to the console. *)
Definition shareDocumentResume (r : Response) (d : ShareDialog.t)
  : ShareDialog.t * list Effect :=
  match r with
  | Rejected => (d, [ConsoleError "Failed to share document:"])
  | _ => (ShareDialog.mk "" (ShareDialog.sharePermission d) false, [])
  end.

(** *** Vocabulary of the further properties *)

(** The events that can change the comment list. *)
Definition touchesComments (e : Event) : bool :=
  match e with
  | Settle _ _ => true
  | Deliver m =>
      match Message.data m with
      | CommentAdded _ => true
      | _ => false
      end
  | _ => false
  end.

(** The events whose handler runs in the current render (all but timers
    and answers to calls made earlier, and but the auth notification). *)
Definition handledNow (e : Event) : bool :=
  match e with
  | AuthStateChanged _ _ | Elapse _ | Settle _ _ => false
  | _ => true
  end.

Definition isPublish (e : Effect) : bool :=
  match e with
  | Publish _ _ _ => true
  | _ => false
  end.

(** A publish is backed by what was logged before it when the store was
    sent the same state first: the same content or title by the same user,
    or the comment without its author line. *)
Definition backedBy (before : list Effect) (e : Effect) : Prop :=
  match e with
  | Publish _ _ (ContentUpdate c sender) =>
      exists d, In (DocumentsUpsert d) before
                /\ Document.content d = Some c /\ Document.userId d = sender
  | Publish _ _ (TitleUpdate t sender) =>
      exists d, In (DocumentsUpsert d) before
                /\ Document.title d = Some t /\ Document.userId d = sender
  | Publish _ _ (CommentAdded c) =>
      exists c0 u, In (CommentsCreate c0) before
                   /\ c = Comment.withAuthor c0 u
                   /\ Comment.userId c0 = User.id u
  | _ => True
  end.

(** Every publish of the log comes after the store write that backs it. *)
Definition persistedFirst (l : list Effect) : Prop :=
  forall before e after, l = (before ++ e :: after)%list -> backedBy before e.

(** The call a suspended write is waiting for has been logged. *)
Definition logged (l : list Effect) (t : Task) : Prop :=
  match t with
  | SaveUpsert cl u =>
      exists d, In (DocumentsUpsert d) l
                /\ Document.content d = Some (Closure.documentContent cl)
                /\ Document.userId d = User.id u
  | TitleUpsert title u =>
      exists d, In (DocumentsUpsert d) l
                /\ Document.title d = Some title
                /\ Document.userId d = User.id u
  | CommentCreate c u =>
      In (CommentsCreate c) l /\ Comment.userId c = User.id u
  | _ => True
  end.

(** The second invariant of the reachable states: what is waiting has been
    sent, what was published had been written, and the time of the last
    save is the time of a write that succeeded. *)
Record Ledger (s : State) : Prop := mkLedger {
  led_tasks : forall i t, In (i, t) (tasks s) -> logged (log s) t;
  led_log : persistedFirst (log s);
  led_saved :
    forall t, lastSaved (view s) = Some t ->
      t <= now s
      /\ exists d, In (DocumentsUpsert d) (log s) /\ Document.content d <> None
}.

(** What the debounce, the calls and the commit look at. *)
Definition footprint (s : State) :=
  (rendered s, depsOf s, editorRef s, log s, tasks s, timers s).

(** Bob, a collaborator. *)
Definition bob : User.t := User.mk "u2" (Some "bob@example.org").

(** Ann's channel handlers are registered and her caret is at the start of
    the editor. *)
Definition joined : State :=
  session [AuthStateChanged (Some ann) false; Settle 2 Fulfilled;
           Select (SelRange (Range.mk EditorFirstChild 0 EditorFirstChild 0)) ""].

(** Ann typed "a" and the flush that followed has finished. *)
Definition saved : State :=
  session [AuthStateChanged (Some ann) false; Input "a"; Elapse 1000;
           Settle 4 Fulfilled; Settle 5 Fulfilled].

(** A comment as Bob's client publishes it. *)
Definition remark : Comment.t :=
  Comment.mk "comment-7" "doc-1" "u2" "why?" 0 4 7 false
    (Some (Comment.mkAuthor (Some "bob@example.org") None)).


(** The calls of the load effect and the functions they suspend. *)
Definition isLoadCall (e : Effect) : bool :=
  match e with
  | DocumentsList _ _ | CommentsList _ | ChannelSubscribe _ _ _ => true
  | _ => false
  end.

Definition isLoadTask (t : Task) : bool :=
  match t with
  | LoadDocumentList | LoadCommentsList | SetupSubscribe _ => true
  | _ => false
  end.

(** A component whose load effect has never passed its guard. *)
Record Unloaded (s : State) : Prop := mkUnloaded {
  unl_handlers : handlers s = [];
  unl_tasks : forall i t, In (i, t) (tasks s) -> isLoadTask t = false;
  unl_log : forall e, In e (log s) -> isLoadCall e = false
}.

(** The auth state reports Ann while it is still loading. *)
Definition loading : State := session [AuthStateChanged (Some ann) true].

(** The stored document of the sample session. *)
Definition stored : Document.t :=
  Document.mk "doc-1" (Some "Plan") (Some "body") "u1" 0.

(** Ann's session in a component that was given an empty [documentId]. *)
Definition unnamed : State :=
  run "" plainText
    [AuthStateChanged (Some ann) false; Input "a"; Elapse 1000] initial.

(** * Properties *)

Section Properties.

Variable documentId : string.
Variable parseHTML : string -> list Node.

Local Abbreviation commit' := (commit documentId).
Local Abbreviation step' := (step documentId parseHTML).
Local Abbreviation run' := (run documentId parseHTML).
Local Abbreviation reachable' := (reachable documentId parseHTML).

(** ** Basic facts *)

Lemma truthy_true (s : string) : truthy s = true <-> s <> "".
Proof.
  unfold truthy. destruct (String.eqb_spec s ""); simpl; split; congruence.
Qed.

Lemma truthy_false (s : string) : truthy s = false <-> s = "".
Proof.
  unfold truthy. destruct (String.eqb_spec s ""); simpl; split; congruence.
Qed.

Lemma User_eqb_refl (u : User.t) : User.eqb u u = true.
Proof.
  destruct u as [i [e|]]; unfold User.eqb; simpl;
    rewrite ?String.eqb_refl; reflexivity.
Qed.

Lemma optionUser_eqb_refl (o : option User.t) : optionUser_eqb o o = true.
Proof. destruct o; simpl; trivial. apply User_eqb_refl. Qed.

Lemma setRendered_same (s : State) :
  rendered s = depsOf s -> setRendered (depsOf s) s = s.
Proof.
  intros H. unfold setRendered. rewrite <- H. destruct s; reflexivity.
Qed.

Lemma attachRefs_fixed (s : State) :
  (editorRef s = None <-> editorShown s = false) -> attachRefs s = s.
Proof.
  intros [H1 H2]. unfold attachRefs.
  destruct (editorShown s) eqn:E.
  - destruct (editorRef s) eqn:R; trivial.
    specialize (H1 eq_refl). discriminate.
  - unfold setEditorRef. rewrite <- (H2 eq_refl). destruct s; reflexivity.
Qed.

Lemma commit_fixed (s : State) :
  rendered s = depsOf s ->
  (editorRef s = None <-> editorShown s = false) ->
  commit' s = s.
Proof.
  intros Hr He. unfold commit. rewrite (attachRefs_fixed s He).
  rewrite Hr. simpl. rewrite optionUser_eqb_refl, String.eqb_refl, Bool.eqb_reflx.
  simpl. apply setRendered_same, Hr.
Qed.

Lemma quiet_refl (s : State) : quiet s s.
Proof. unfold quiet; intuition. Qed.

Lemma quiet_trans (a b c : State) : quiet a b -> quiet b c -> quiet a c.
Proof.
  unfold quiet. intros (T1 & R1 & K1 & N1 & S1 & L1) (T2 & R2 & K2 & N2 & S2 & L2).
  repeat split; try congruence.
  intros e He. destruct (L2 e He) as [H|H]; auto.
Qed.

Lemma Core_quiet (s s' : State) : Core s -> quiet s s' -> Core s'.
Proof.
  intros [Ht Hc Hi Hf Hk Hl] (T & R & K & N & S & L).
  assert (F : savesInFlight s' = savesInFlight s)
    by (unfold savesInFlight; rewrite K; reflexivity).
  constructor.
  - rewrite T, R. exact Ht.
  - intros t Hin. rewrite T in Hin. destruct (Hc t Hin) as (A & B & C).
    unfold timerSound. rewrite F. auto.
  - rewrite K, N. exact Hi.
  - rewrite S, F. exact Hf.
  - rewrite K. exact Hk.
  - intros e He. destruct (L e He) as [H|H]; [auto | congruence].
Qed.

(** ** What a commit changes *)

Lemma view_loadEffect (s : State) : view (loadEffect documentId s) = view s.
Proof.
  unfold loadEffect, setupRealtime.
  destruct (user (view s)); [destruct (truthy documentId)|]; reflexivity.
Qed.

Lemma view_autoSaveEffect (s : State) : view (autoSaveEffect s) = view s.
Proof.
  unfold autoSaveEffect.
  destruct (user (view s)); trivial.
  destruct (truthy _ && negb _); trivial.
  destruct (saveTimeoutRef s); reflexivity.
Qed.

Lemma editorRef_loadEffect (s : State) :
  editorRef (loadEffect documentId s) = editorRef s.
Proof.
  unfold loadEffect, setupRealtime.
  destruct (user (view s)); [destruct (truthy documentId)|]; reflexivity.
Qed.

Lemma editorRef_autoSaveEffect (s : State) :
  editorRef (autoSaveEffect s) = editorRef s.
Proof.
  unfold autoSaveEffect.
  destruct (user (view s)); trivial.
  destruct (truthy _ && negb _); trivial.
  destruct (saveTimeoutRef s); reflexivity.
Qed.

Lemma view_attachRefs (s : State) : view (attachRefs s) = view s.
Proof.
  unfold attachRefs. destruct (editorShown s); [destruct (editorRef s)|]; reflexivity.
Qed.

Lemma attachRefs_editor (s : State) :
  editorRef (attachRefs s) = None <-> editorShown (attachRefs s) = false.
Proof.
  unfold editorShown. rewrite view_attachRefs. fold (editorShown s).
  unfold attachRefs. destruct (editorShown s) eqn:E.
  - destruct (editorRef s) eqn:R; simpl; rewrite ?R; split; discriminate.
  - simpl. tauto.
Qed.

Lemma view_commit (s : State) : view (commit' s) = view s.
Proof.
  unfold commit.
  repeat match goal with
         | |- context [if ?b then _ else _] => destruct b
         end; simpl;
    rewrite ?view_autoSaveEffect, ?view_loadEffect, ?view_attachRefs; reflexivity.
Qed.

Lemma editorRef_commit (s : State) :
  editorRef (commit' s) = editorRef (attachRefs s).
Proof.
  unfold commit.
  repeat match goal with
         | |- context [if ?b then _ else _] => destruct b
         end; simpl;
    rewrite ?editorRef_autoSaveEffect, ?editorRef_loadEffect; reflexivity.
Qed.

Lemma commit_rendered (s : State) : rendered (commit' s) = depsOf (commit' s).
Proof. reflexivity. Qed.

Lemma commit_editor (s : State) :
  editorRef (commit' s) = None <-> editorShown (commit' s) = false.
Proof.
  rewrite editorRef_commit. unfold editorShown at 1. rewrite view_commit.
  rewrite <- (view_attachRefs s). apply attachRefs_editor.
Qed.

(** ** The invariant is kept *)

Lemma savesInFlight_await (s : State) (t : Task) (call : Effect) :
  savesInFlight (await t call s)
  = (savesInFlight s ++ (if isSave t then [(nextId s, t)] else []))%list.
Proof.
  unfold savesInFlight, await. simpl. rewrite filter_app. simpl.
  destruct (isSave t); reflexivity.
Qed.

Lemma Core_await (s : State) (t : Task) (call : Effect) :
  Core s -> isSave t = false -> contentOfEffect call <> Some "" ->
  Core (await t call s).
Proof.
  intros [Ht Hc Hi Hf Hk Hl] Hs Hcall.
  assert (F : savesInFlight (await t call s) = savesInFlight s)
    by (rewrite savesInFlight_await, Hs; apply app_nil_r).
  constructor.
  - exact Ht.
  - intros x Hin. destruct (Hc x Hin) as (A & B & C).
    unfold timerSound. rewrite F. auto.
  - simpl. intros i x Hin. apply in_app_or in Hin. destruct Hin as [Hin|[Hin|[]]].
    + apply Hi in Hin. lia.
    + inversion Hin. lia.
  - rewrite F. exact Hf.
  - simpl. intros i cl u Hin. apply in_app_or in Hin. destruct Hin as [Hin|[Hin|[]]].
    + eapply Hk; eauto.
    + inversion Hin; subst. discriminate.
  - simpl. intros e Hin. apply in_app_or in Hin. destruct Hin as [Hin|[Hin|[]]].
    + auto.
    + subst. exact Hcall.
Qed.

Lemma Core_loadEffect (s : State) : Core s -> Core (loadEffect documentId s).
Proof.
  intros H. unfold loadEffect, setupRealtime, loadComments, loadDocument.
  destruct (user (view s)) eqn:U; trivial.
  destruct (truthy documentId); trivial.
  repeat apply Core_await; trivial; discriminate.
Qed.

Lemma cleared_timers (s : State) :
  Core s ->
  timers (match saveTimeoutRef s with
          | Some id => clearTimeout id s
          | None => s
          end) = [].
Proof.
  intros [[Ht|(t & Ht & Hr)] _ _ _ _ _].
  - destruct (saveTimeoutRef s); simpl; rewrite Ht; reflexivity.
  - rewrite Hr. simpl. rewrite Ht. simpl. rewrite Nat.eqb_refl. reflexivity.
Qed.

Lemma Core_autoSaveEffect (s : State) : Core s -> Core (autoSaveEffect s).
Proof.
  intros H. unfold autoSaveEffect.
  destruct (user (view s)) eqn:U; trivial.
  destruct (truthy (documentContent (view s)) && negb (isLoading (view s))) eqn:G;
    trivial.
  apply andb_true_iff in G. destruct G as [G _]. apply truthy_true in G.
  pose proof (cleared_timers s H) as Hclr.
  set (s1 := match saveTimeoutRef s with
             | Some id => clearTimeout id s
             | None => s
             end) in *.
  assert (E : view s1 = view s /\ tasks s1 = tasks s /\ nextId s1 = nextId s
              /\ log s1 = log s)
    by (subst s1; destruct (saveTimeoutRef s); simpl; auto).
  destruct E as (Ev & Ek & En & El).
  destruct H as [Ht Hc Hi Hf Hk Hl].
  assert (F : savesInFlight (setTimeout (closureOf s1) 1000 s1) = savesInFlight s)
    by (unfold savesInFlight; simpl; rewrite Ek; reflexivity).
  constructor.
  - right. eexists. simpl. rewrite Hclr. simpl. split; reflexivity.
  - simpl. rewrite Hclr. simpl. intros x [Hin|[]]. subst x.
    unfold timerSound. simpl. rewrite Ev, U. repeat split; try congruence.
    rewrite F. intros Hs. destruct Hf as [[_ Hf]|[Hf _]]; [|congruence].
    apply length_zero_iff_nil, Hf.
  - simpl. rewrite Ek, En. intros i x Hin. apply Hi in Hin. lia.
  - rewrite F. simpl. rewrite Ev. exact Hf.
  - simpl. rewrite Ek. exact Hk.
  - simpl. rewrite El. exact Hl.
Qed.

Lemma quiet_attachRefs (s : State) : quiet s (attachRefs s).
Proof.
  unfold attachRefs, quiet.
  destruct (editorShown s); [destruct (editorRef s)|]; simpl; intuition.
Qed.

Lemma quiet_setRendered (d : Deps) (s : State) : quiet s (setRendered d s).
Proof. unfold quiet; simpl; intuition. Qed.

Lemma Core_commit (s : State) : Core s -> Core (commit' s).
Proof.
  intros H. unfold commit.
  eapply Core_quiet; [|apply quiet_setRendered].
  assert (H1 : Core (attachRefs s)) by (eapply Core_quiet; eauto using quiet_attachRefs).
  repeat match goal with
         | |- context [if ?b then _ else _] => destruct b
         end; auto using Core_loadEffect, Core_autoSaveEffect.
Qed.

Lemma Inv_commit (s : State) : Core s -> Inv (commit' s).
Proof.
  intros H. constructor.
  - apply commit_rendered.
  - apply commit_editor.
  - apply Core_commit, H.
Qed.

Lemma quiet_emit (s : State) (e : Effect) :
  contentOfEffect e = None -> quiet s (emit e s).
Proof.
  intros H. unfold quiet; simpl. repeat split; trivial.
  intros x Hin. apply in_app_or in Hin. destruct Hin as [Hin|[Hin|[]]]; subst; auto.
Qed.

Lemma quiet_restoreCaret (html : string) (k : nat) (s : State) :
  quiet s (restoreCaret parseHTML html k s).
Proof.
  unfold restoreCaret.
  destruct (selection s); try apply quiet_refl.
  destruct (parseHTML html); try apply quiet_refl.
  destruct (_ <=? _)%nat; try apply quiet_refl.
  unfold quiet; simpl; intuition.
Qed.

Lemma quiet_onMessage (u : User.t) (m : Message.t) (s : State) :
  match onMessage parseHTML u m s with
  | Normal s' => quiet s s'
  | Throw _ s' => quiet s s'
  end.
Proof.
  unfold onMessage.
  destruct (Message.data m) as [c b|t b|c].
  - destruct (negb _); [|apply quiet_refl].
    destruct (editorRef s); [|apply quiet_refl].
    destruct (truthy c); [|apply quiet_refl].
    unfold applyRemoteContent.
    destruct (selection s) eqn:Sel; try apply quiet_refl;
      (eapply quiet_trans; [|apply quiet_restoreCaret]);
      unfold quiet, setInnerHTML; simpl; intuition.
  - destruct (negb _); [|apply quiet_refl]. unfold quiet; simpl; intuition.
  - unfold quiet; simpl; intuition.
Qed.

Lemma quiet_deliver (m : Message.t) (s : State) :
  quiet s (deliver parseHTML m s).
Proof.
  unfold deliver. generalize (handlers s). intros l. revert s.
  induction l as [|u l IH]; intros s; simpl.
  - apply quiet_refl.
  - eapply quiet_trans; [|apply IH].
    pose proof (quiet_onMessage u m s) as H.
    destruct (onMessage parseHTML u m s); trivial.
    eapply quiet_trans; [exact H|]. apply quiet_emit. reflexivity.
Qed.

Lemma quiet_presence (users : list CollaborativeUser.t) (s : State) :
  quiet s (presence users s).
Proof.
  unfold presence. generalize (handlers s). intros l. revert s.
  induction l as [|u l IH]; intros s; simpl.
  - apply quiet_refl.
  - eapply quiet_trans; [|apply IH]. unfold quiet; simpl; intuition.
Qed.

Lemma findTask_In (id : nat) (l : list (nat * Task)) (t : Task) :
  findTask id l = Some t -> In (id, t) l.
Proof.
  induction l as [|[i x] l IH]; simpl; [discriminate|].
  destruct (Nat.eqb_spec i id).
  - intros H. inversion H. subst. auto.
  - auto.
Qed.

Lemma dropTask_incl (id : nat) (l : list (nat * Task)) (p : nat * Task) :
  In p (dropTask id l) -> In p l.
Proof.
  induction l as [|[i x] l IH]; simpl; trivial.
  destruct (i =? id)%nat; simpl; intuition.
Qed.

Lemma dropTask_saves (id : nat) (l : list (nat * Task)) (t : Task) :
  findTask id l = Some t ->
  List.length (filter (fun p => isSave (snd p)) l)
  = List.length (filter (fun p => isSave (snd p)) (dropTask id l))
    + (if isSave t then 1 else 0).
Proof.
  induction l as [|[i x] l IH]; simpl; [discriminate|].
  destruct (i =? id)%nat.
  - intros H. inversion H. subst. destruct (isSave t); simpl; lia.
  - intros H. specialize (IH H). simpl. destruct (isSave x); simpl; lia.
Qed.

(** A state built from [s] that keeps the timers is sound once its own
    suspended calls, flag and log are. *)
Lemma Core_keep_timers (s s' : State) :
  Core s ->
  timers s' = timers s ->
  saveTimeoutRef s' = saveTimeoutRef s ->
  (savesInFlight s = [] -> savesInFlight s' = []) ->
  (forall i t, In (i, t) (tasks s') -> i < nextId s') ->
  ((isSaving (view s') = false /\ List.length (savesInFlight s') = 0)
   \/ (isSaving (view s') = true /\ List.length (savesInFlight s') = 1)) ->
  (forall i cl u, In (i, SaveUpsert cl u) (tasks s') ->
                  Closure.documentContent cl <> "") ->
  (forall e, In e (log s') -> contentOfEffect e <> Some "") ->
  Core s'.
Proof.
  intros [Ht Hc Hi Hf Hk Hl] T R F I' F' K' L'.
  constructor; trivial.
  - rewrite T, R. exact Ht.
  - intros t Hin. rewrite T in Hin. destruct (Hc t Hin) as (A & B & C).
    unfold timerSound. auto.
Qed.

Lemma Core_drop (s : State) (id : nat) (t : Task) :
  Core s -> findTask id (tasks s) = Some t -> isSave t = false ->
  Core (setTasks (dropTask id (tasks s)) s).
Proof.
  intros H Hfind Hs. pose proof (dropTask_saves id _ t Hfind) as Hlen.
  rewrite Hs, Nat.add_0_r in Hlen. fold (savesInFlight s) in Hlen.
  destruct H as [Ht Hc Hi Hf Hk Hl].
  apply (Core_keep_timers s); trivial.
  - constructor; trivial.
  - intros E. apply length_zero_iff_nil. unfold savesInFlight at 1. simpl.
    rewrite <- Hlen, E. reflexivity.
  - simpl. intros i x Hin. apply dropTask_incl in Hin. exact (Hi _ _ Hin).
  - replace (savesInFlight (setTasks (dropTask id (tasks s)) s))
      with (filter (fun p : nat * Task => isSave (snd p)) (dropTask id (tasks s)))
      by reflexivity.
    rewrite <- Hlen. exact Hf.
  - simpl. intros i cl u Hin. apply dropTask_incl in Hin. exact (Hk _ _ _ Hin).
Qed.

Lemma Core_resume_other (t : Task) (r : Response) (s s' : State) :
  isSave t = false -> Core s -> resume documentId t r s = Some s' -> Core s'.
Proof.
  intros Hs H E. destruct t; simpl in Hs; try discriminate; simpl in E.
  - (* loadDocument *)
    unfold loadDocumentResume in E.
    destruct r as [|[|doc docs]| |]; inversion E; subst; clear E; trivial.
    + eapply Core_quiet; [exact H|].
      simpl. destruct (editorRef s); unfold quiet, setInnerHTML; simpl; intuition.
    + eapply Core_quiet; [exact H|]. apply quiet_emit. reflexivity.
  - (* loadComments *)
    unfold loadCommentsResume in E.
    destruct r; inversion E; subst; clear E.
    + eapply Core_quiet; [exact H|]. unfold quiet; simpl; intuition.
    + eapply Core_quiet; [exact H|]. apply quiet_emit. reflexivity.
  - (* setupRealtime *)
    unfold setupRealtimeResume in E.
    destruct r; inversion E; subst; clear E.
    + eapply Core_quiet; [exact H|]. unfold quiet; simpl; intuition.
    + eapply Core_quiet; [exact H|]. apply quiet_emit. reflexivity.
  - (* handleTitleSave, after the upsert *)
    unfold titleUpsertResume in E.
    destruct r; inversion E; subst; clear E;
      try solve [apply Core_await; trivial; discriminate].
    eapply Core_quiet; [exact H|]. apply quiet_emit. reflexivity.
  - (* handleTitleSave, after the publish *)
    unfold titlePublishResume in E.
    destruct r; inversion E; subst; clear E; trivial.
    eapply Core_quiet; [exact H|]. apply quiet_emit. reflexivity.
  - (* addComment, after the create *)
    unfold commentCreateResume in E.
    destruct r; inversion E; subst; clear E;
      try solve [apply Core_await; [|reflexivity|discriminate];
                 eapply Core_quiet; [exact H|]; unfold quiet; simpl; intuition].
    eapply Core_quiet; [exact H|]. apply quiet_emit. reflexivity.
  - (* addComment, after the publish *)
    unfold commentPublishResume in E.
    destruct r; inversion E; subst; clear E;
      try solve [eapply Core_quiet; [exact H|]; unfold quiet; simpl; intuition].
    eapply Core_quiet; [exact H|]. apply quiet_emit. reflexivity.
Qed.

Lemma Core_resume_save (id : nat) (t : Task) (r : Response) (s s' : State) :
  Core s -> findTask id (tasks s) = Some t -> isSave t = true ->
  resume documentId t r (setTasks (dropTask id (tasks s)) s) = Some s' ->
  Core s'.
Proof.
  intros H Hfind Hs E.
  pose proof (dropTask_saves id _ t Hfind) as Hlen. rewrite Hs in Hlen.
  fold (savesInFlight s) in Hlen.
  pose proof (findTask_In _ _ _ Hfind) as Hin.
  assert (Hone : isSaving (view s) = true /\ List.length (savesInFlight s) = 1)
    by (destruct (core_flight s H) as [[_ F]|F]; [lia|exact F]).
  destruct Hone as [Hsav Hone].
  assert (Hzero : filter (fun p : nat * Task => isSave (snd p))
                    (dropTask id (tasks s)) = [])
    by (apply length_zero_iff_nil; lia).
  assert (Hne : savesInFlight s <> [])
    by (intros E0; rewrite E0 in Hone; discriminate).
  assert (Hids : forall i x, In (i, x) (dropTask id (tasks s)) -> i < nextId s)
    by (intros i x Hi; apply dropTask_incl in Hi; exact (core_ids s H _ _ Hi)).
  assert (Hup : forall i cl u, In (i, SaveUpsert cl u) (dropTask id (tasks s)) ->
                               Closure.documentContent cl <> "")
    by (intros i cl u Hi; apply dropTask_incl in Hi; exact (core_tasks s H _ _ _ Hi)).
  destruct t; simpl in Hs; try discriminate; simpl in E.
  - (* saveDocument, after the upsert *)
    pose proof (core_tasks s H _ _ _ Hin) as Hcl.
    unfold saveUpsertResume in E.
    destruct r; inversion E; subst; clear E;
      try (apply (Core_keep_timers s); trivial; try tauto;
           [ simpl; intros i x Hi; apply in_app_or in Hi;
             destruct Hi as [Hi|[Hi|[]]];
             [ apply Hids in Hi; lia | inversion Hi; lia ]
           | right; split; [exact Hsav|];
             rewrite savesInFlight_await; simpl;
             unfold savesInFlight; simpl; rewrite Hzero; reflexivity
           | simpl; intros i c x Hi; apply in_app_or in Hi;
             destruct Hi as [Hi|[Hi|[]]];
             [ exact (Hup _ _ _ Hi) | discriminate ]
           | simpl; intros e Hi; apply in_app_or in Hi;
             destruct Hi as [Hi|[Hi|[]]];
             [ exact (core_log s H _ Hi) | subst e; simpl; congruence ] ]).
    apply (Core_keep_timers s); trivial; try tauto.
    + left. split; [reflexivity|]. unfold savesInFlight; simpl.
      rewrite Hzero. reflexivity.
    + simpl. intros e Hi. apply in_app_or in Hi. destruct Hi as [Hi|[Hi|[]]].
      * exact (core_log s H _ Hi).
      * subst e. discriminate.
  - (* saveDocument, after the publish *)
    unfold savePublishResume in E.
    destruct r; inversion E; subst; clear E;
      apply (Core_keep_timers s); trivial; try tauto;
      try (left; split; [reflexivity|]; unfold savesInFlight; simpl;
           rewrite Hzero; reflexivity);
      try exact (core_log s H).
    simpl. intros e Hi. apply in_app_or in Hi. destruct Hi as [Hi|[Hi|[]]].
    + exact (core_log s H _ Hi).
    + subst e. discriminate.
Qed.

Lemma Core_settle (id : nat) (r : Response) (s : State) :
  Core s -> Core (settle documentId id r s).
Proof.
  intros H. unfold settle.
  destruct (findTask id (tasks s)) as [t|] eqn:Hfind; trivial.
  destruct (resume documentId t r _) as [s'|] eqn:E; trivial.
  destruct (isSave t) eqn:Hs.
  - eapply Core_resume_save; eauto.
  - eapply Core_resume_other; [exact Hs| |exact E].
    eapply Core_drop; eauto.
Qed.

Lemma quiet_setNow (n : nat) (s : State) : quiet s (setNow n s).
Proof. unfold quiet; simpl; intuition. Qed.

Lemma Core_saveDocument (cl : Closure.t) (s : State) :
  Core s -> timers s = [] ->
  Closure.documentContent cl <> "" ->
  (Closure.isSaving cl = false -> savesInFlight s = []) ->
  Core (saveDocument documentId cl s).
Proof.
  intros H Ht Hc Hs. unfold saveDocument.
  destruct (Closure.user cl) as [u|]; trivial.
  destruct (Closure.isSaving cl); trivial.
  specialize (Hs eq_refl).
  constructor.
  - left. exact Ht.
  - simpl. rewrite Ht. intros t [].
  - simpl. intros i x Hi. apply in_app_or in Hi. destruct Hi as [Hi|[Hi|[]]].
    + apply (core_ids s H) in Hi. lia.
    + inversion Hi. lia.
  - right. split; [reflexivity|]. rewrite savesInFlight_await. simpl.
    unfold savesInFlight in *. simpl. rewrite Hs. reflexivity.
  - simpl. intros i c x Hi. apply in_app_or in Hi. destruct Hi as [Hi|[Hi|[]]].
    + exact (core_tasks s H _ _ _ Hi).
    + inversion Hi. subst. exact Hc.
  - simpl. intros e Hi. apply in_app_or in Hi. destruct Hi as [Hi|[Hi|[]]].
    + exact (core_log s H _ Hi).
    + subst e. simpl. congruence.
Qed.

Lemma Core_fire (s : State) (t : Timer.t) :
  Core s -> timers s = [] -> timerSound s t -> Core (fire documentId s t).
Proof.
  intros H Ht (_ & Hc & Hs). unfold fire.
  apply Core_commit, Core_saveDocument; trivial.
  eapply Core_quiet; [exact H|apply quiet_setNow].
Qed.

Lemma Core_without_timers (s : State) : Core s -> Core (setTimers [] s).
Proof.
  intros [Ht Hc Hi Hf Hk Hl]. constructor; trivial.
  - left. reflexivity.
  - intros t [].
Qed.

Lemma Core_elapse (ms : nat) (s : State) : Core s -> Core (elapse documentId ms s).
Proof.
  intros H. unfold elapse.
  eapply Core_quiet; [|apply quiet_setNow].
  destruct (core_timer s H) as [Ht|(t & Ht & Hr)]; rewrite Ht; simpl.
  - apply Core_without_timers, H.
  - destruct (isDue (now s + ms) t) eqn:D; simpl.
    + apply Core_fire; trivial.
      * apply Core_without_timers, H.
      * apply (core_closure s H). rewrite Ht. left. reflexivity.
    + replace (setTimers [t] s) with s; trivial.
      unfold setTimers. rewrite <- Ht. destruct s; reflexivity.
Qed.

Lemma Core_handle (e : Event) (s : State) :
  Core s -> Core (handle documentId parseHTML e s).
Proof.
  intros H. destruct e; simpl.
  - eapply Core_quiet; [exact H|]. unfold quiet; simpl; intuition.
  - destruct (editorRef s); trivial.
    eapply Core_quiet; [exact H|].
    unfold handleContentChange, quiet; simpl; intuition.
  - eapply Core_quiet; [exact H|]. unfold quiet; simpl; intuition.
  - eapply Core_quiet; [exact H|]. unfold quiet; simpl; intuition.
  - unfold handleTitleSave. simpl.
    assert (H1 : Core (setIsEditing false s))
      by (eapply Core_quiet; [exact H|]; unfold quiet; simpl; intuition).
    destruct (user (view s)); trivial.
    apply Core_await; trivial. discriminate.
  - eapply Core_quiet; [exact H|]. unfold handleTextSelection. simpl.
    destruct sel; [|destruct (truthy (trim text))..]; unfold quiet; simpl; intuition.
  - unfold addComment.
    destruct (user (view s)); trivial.
    destruct (negb _); trivial.
    destruct (selection s); trivial.
    destruct answer as [c|]; trivial.
    destruct (negb _); trivial.
    apply Core_await; trivial. discriminate.
  - apply Core_elapse, H.
  - apply Core_settle, H.
  - eapply Core_quiet; [exact H|]. apply quiet_deliver.
  - eapply Core_quiet; [exact H|]. apply quiet_presence.
Qed.

Lemma Inv_step (e : Event) (s : State) : Inv s -> Inv (step' s e).
Proof.
  intros H. unfold step. apply Inv_commit, Core_handle, (inv_core s H).
Qed.

Lemma Inv_initial : Inv initial.
Proof.
  constructor; [reflexivity|split; reflexivity|].
  constructor; simpl; tauto.
Qed.

Lemma Inv_run (es : list Event) (s : State) : Inv s -> Inv (run' es s).
Proof.
  revert s. induction es as [|e es IH]; intros s H; simpl; trivial.
  apply IH, Inv_step, H.
Qed.

Lemma Inv_reachable (s : State) : reachable' s -> Inv s.
Proof. intros [es ->]. apply Inv_run, Inv_initial. Qed.

(** ** What single events do in a committed state *)

Lemma commit_same (s s' : State) :
  Inv s ->
  rendered s' = rendered s -> depsOf s' = depsOf s ->
  editorRef s' = editorRef s ->
  commit' s' = s'.
Proof.
  intros [Hr He _] R D E. apply commit_fixed.
  - congruence.
  - rewrite E. unfold editorShown in *. unfold depsOf in D.
    inversion D as [[Hu Hc Hl]]. rewrite Hu, Hl. exact He.
Qed.

Lemma editor_attached (s : State) (u : User.t) :
  Inv s -> user (view s) = Some u -> isLoading (view s) = false ->
  exists html, editorRef s = Some html.
Proof.
  intros [_ [He _] _] Hu Hl. destruct (editorRef s) as [html|]; eauto.
  specialize (He eq_refl). unfold editorShown in He. rewrite Hu, Hl in He.
  discriminate.
Qed.

(** An edit in an authenticated, loaded session: the content follows at once;
    the timer is replaced exactly when the content changed and is not empty. *)
Lemma step_input (s : State) (u : User.t) (c : string) :
  Inv s -> user (view s) = Some u -> isLoading (view s) = false ->
  view (step' s (Input c)) = view (setDocumentContent c s)
  /\ log (step' s (Input c)) = log s
  /\ tasks (step' s (Input c)) = tasks s
  /\ now (step' s (Input c)) = now s
  /\ if (documentContent (view s) =? c) || (c =? "") then
       timers (step' s (Input c)) = timers s
       /\ saveTimeoutRef (step' s (Input c)) = saveTimeoutRef s
       /\ nextId (step' s (Input c)) = nextId s
     else
       timers (step' s (Input c))
       = [Timer.mk (nextId s) (now s + 1000)
            (Closure.mk (Some u) (isSaving (view s)) (documentTitle (view s)) c)]
       /\ saveTimeoutRef (step' s (Input c)) = Some (nextId s)
       /\ nextId (step' s (Input c)) = S (nextId s).
Proof.
  intros H Hu Hl.
  destruct (editor_attached s u H Hu Hl) as [html He].
  pose proof (cleared_timers s (inv_core s H)) as Hclr.
  destruct H as [Hr _ _].
  destruct s as [v rd ed sel ref tm nx tk hd nw lg]. destruct v.
  unfold depsOf in Hr. simpl in *. subst.
  unfold step, handle, handleContentChange. simpl.
  unfold commit, attachRefs, editorShown. simpl.
  rewrite User_eqb_refl. simpl. rewrite orb_false_r.
  destruct (String.eqb_spec documentContent0 c) as [->|Hne]; simpl.
  - repeat split; reflexivity.
  - unfold autoSaveEffect. simpl. unfold truthy.
    destruct (String.eqb_spec c "") as [->|Hc]; simpl.
    + repeat split; reflexivity.
    + destruct ref; simpl in *; rewrite Hclr; repeat split; reflexivity.
Qed.

Lemma setTimers_same (s : State) : setTimers (timers s) s = s.
Proof. destruct s; reflexivity. Qed.

(** Time passes and no timer is due. *)
Lemma step_elapse_idle (s : State) (ms : nat) :
  Inv s ->
  (forall t, In t (timers s) -> now s + ms < Timer.deadline t) ->
  step' s (Elapse ms) = setNow (now s + ms) s.
Proof.
  intros H Hlate. unfold step, handle, elapse.
  assert (E1 : filter (isDue (now s + ms)) (timers s) = []).
  { destruct (core_timer s (inv_core s H)) as [Ht|(t & Ht & _)]; rewrite Ht; trivial.
    simpl. unfold isDue. specialize (Hlate t). rewrite Ht in Hlate.
    destruct (Nat.leb_spec (Timer.deadline t) (now s + ms)); trivial.
    specialize (Hlate (or_introl eq_refl)). lia. }
  assert (E2 : filter (fun t => negb (isDue (now s + ms) t)) (timers s) = timers s).
  { destruct (core_timer s (inv_core s H)) as [Ht|(t & Ht & _)]; rewrite Ht; trivial.
    rewrite Ht in E1. simpl in *. destruct (isDue (now s + ms) t); [discriminate|].
    reflexivity. }
  rewrite E1, E2, setTimers_same. simpl.
  apply (commit_same s); trivial.
Qed.

(** The pending timer is due and its [saveDocument] passes both guards. *)
Lemma step_elapse_fire (s : State) (t : Timer.t) (u : User.t) (ms : nat) :
  Inv s -> timers s = [t] -> Timer.deadline t <= now s + ms ->
  Closure.user (Timer.closure t) = Some u ->
  Closure.isSaving (Timer.closure t) = false ->
  step' s (Elapse ms)
  = setNow (now s + ms)
      (await (SaveUpsert (Timer.closure t) u)
         (DocumentsUpsert
            (Document.mk documentId
               (Some (Closure.documentTitle (Timer.closure t)))
               (Some (Closure.documentContent (Timer.closure t)))
               (User.id u) (Nat.max (now s) (Timer.deadline t))))
         (setIsSaving true
            (setNow (Nat.max (now s) (Timer.deadline t)) (setTimers [] s)))).
Proof.
  intros H Ht Hdue Hu Hs. unfold step, handle, elapse. rewrite Ht. simpl.
  unfold isDue. destruct (Nat.leb_spec (Timer.deadline t) (now s + ms)); [|lia].
  simpl. unfold fire, saveDocument. rewrite Hu, Hs. simpl.
  match goal with
  | |- commit' (setNow _ (commit' ?x)) = _ =>
      replace (commit' x) with x by (symmetry; apply (commit_same s); trivial)
  end.
  apply (commit_same s); trivial.
Qed.

(** While [isSaving] is set, a due timer runs a [saveDocument] that returns
    at its guard. *)
Lemma step_elapse_busy (s : State) (ms : nat) :
  Inv s -> isSaving (view s) = true ->
  step' s (Elapse ms)
  = setNow (now s + ms)
      (setTimers (filter (fun t => negb (isDue (now s + ms) t)) (timers s)) s).
Proof.
  intros H Hbusy. unfold step, handle, elapse.
  assert (Hlen : List.length (savesInFlight s) = 1)
    by (destruct (core_flight s (inv_core s H)) as [[F _]|[_ F]]; congruence).
  destruct (core_timer s (inv_core s H)) as [Ht|(t & Ht & _)].
  - rewrite Ht. simpl. apply (commit_same s); trivial.
  - destruct (core_closure s (inv_core s H) t) as (Hu & _ & Hs);
      [rewrite Ht; left; reflexivity|].
    rewrite Ht. simpl. destruct (isDue (now s + ms) t); simpl.
    + unfold fire, saveDocument.
      destruct (Closure.user (Timer.closure t)); [|congruence].
      destruct (Closure.isSaving (Timer.closure t)).
      * match goal with
        | |- commit' (setNow _ (commit' ?x)) = _ =>
            replace (commit' x) with x by (symmetry; apply (commit_same s); trivial)
        end.
        apply (commit_same s); trivial.
      * rewrite (Hs eq_refl) in Hlen. discriminate.
    + apply (commit_same s); trivial.
Qed.

(** A continuation that leaves the dependencies and the editor alone is all
    that happens when its call settles. *)
Lemma step_settle (s s' : State) (id : nat) (t : Task) (r : Response) :
  Inv s -> findTask id (tasks s) = Some t ->
  resume documentId t r (setTasks (dropTask id (tasks s)) s) = Some s' ->
  rendered s' = rendered s -> depsOf s' = depsOf s ->
  editorRef s' = editorRef s ->
  step' s (Settle id r) = s'.
Proof.
  intros H Hfind E R D Ed. unfold step, handle, settle. rewrite Hfind, E.
  apply (commit_same s); trivial.
Qed.

(** ** Remote messages and presence *)



(** The roster after the [Presence] event of a session whose handlers all
    belong to one user. *)
Lemma presence_roster (u : User.t) (users : list CollaborativeUser.t)
  (s : State) :
  handlers s <> [] ->
  (forall h, In h (handlers s) -> User.id h = User.id u) ->
  collaborators (view (step' s (Presence users)))
  = filter (fun x => negb (CollaborativeUser.userId x =? User.id u)) users.
Proof.
  intros Hne Hall. unfold step. rewrite view_commit. simpl. unfold presence.
  revert Hne Hall. generalize (handlers s) as l. intros l. revert s.
  induction l as [|h l IH]; intros s Hne Hall; [congruence|].
  simpl. destruct l as [|k l].
  - simpl. rewrite (Hall h) by (left; reflexivity). reflexivity.
  - apply IH; [discriminate|]. intros x Hx. apply Hall. right. exact Hx.
Qed.

(** C9.  The comment-added handler prepends the received comment whoever
    sent it and whatever the list holds.  So when the broadcast of a local
    create comes back to its sender, the list starts with the same comment
    twice: the entry of the local create and the entry of the echo. *)
Theorem C9_comment_added_prepends_always (u : User.t) (sender : string)
  (c comment : Comment.t) (s : State) :
  onMessage parseHTML u (Message.mk sender (CommentAdded c)) s
  = Normal (setComments (c :: comments (view s)) s)
  /\ exists s1,
       commentCreateResume documentId comment u Fulfilled s = Some s1
       /\ comments (view s1) = Comment.withAuthor comment u :: comments (view s)
       /\ log s1
          = (log s ++ [Publish (topic documentId) "comment-added"
                         (CommentAdded (Comment.withAuthor comment u))])%list
       /\ exists s2,
            onMessage parseHTML u
              (Message.mk (User.id u)
                 (CommentAdded (Comment.withAuthor comment u))) s1
            = Normal s2
            /\ comments (view s2)
               = Comment.withAuthor comment u
                   :: Comment.withAuthor comment u :: comments (view s).
Proof.
  split; [reflexivity|].
  eexists. split; [reflexivity|]. split; [reflexivity|]. split; [reflexivity|].
  eexists. split; reflexivity.
Qed.

(** C4.  When a content-update of another sender is applied (editor mounted,
    content not empty, a range in the window's selection), the handler
    returns normally with the new content on the surface and in memory and
    logs nothing.  The caret is restored at min(prior offset, length of the
    new text): the prior offset itself when it is at most that length, the
    length otherwise.  When the first child accepts that offset the
    selection is the caret there; when it does not ([setStart] throws), or
    when there is no first child, the attempt is given up and the state is
    exactly the one the replacement left. *)
Theorem C4_caret_restored_at_min (u : User.t) (m : Message.t) (s : State)
  (content updatedBy : string) (range : Range.t) :
  Message.data m = ContentUpdate content updatedBy ->
  Message.userId m <> User.id u ->
  editorRef s <> None ->
  content <> "" ->
  selection s = SelRange range ->
  let prior := Range.startOffset range in
  let len := String.length (textContent (parseHTML content)) in
  let offset := Nat.min prior len in
  let applied := setDocumentContent content (setInnerHTML content s) in
  exists s',
    onMessage parseHTML u m s = Normal s'
    /\ (prior <= len -> offset = prior)
    /\ (len < prior -> offset = len)
    /\ documentContent (view s') = content
    /\ editorRef s' = Some content
    /\ log s' = log s
    /\ match parseHTML content with
       | firstChild :: _ =>
           if (offset <=? nodeLength firstChild)%nat then
             s' = setSelection
                    (SelRange (Range.collapsedAt EditorFirstChild offset))
                    applied
           else s' = applied
       | [] => s' = applied
       end.
Proof.
  intros Hd Hid He Hc Hsel prior len offset applied.
  exists (restoreCaret parseHTML content prior applied).
  split.
  - unfold onMessage. rewrite Hd.
    apply String.eqb_neq in Hid. rewrite Hid. simpl.
    destruct (editorRef s); [|congruence].
    apply truthy_true in Hc. rewrite Hc.
    unfold applyRemoteContent. rewrite Hsel. reflexivity.
  - split; [intros; apply Nat.min_l; trivial|].
    split; [intros; apply Nat.min_r; lia|].
    unfold restoreCaret. subst applied. unfold setInnerHTML at 1 2 3 4. simpl.
    rewrite Hsel.
    fold len. fold offset.
    destruct (parseHTML content) as [|firstChild rest];
      [|destruct (offset <=? nodeLength firstChild)%nat]; repeat split; reflexivity.
Qed.

(** ** Loading *)

(** C5, as the code has it.  [loadDocument] asks the store for the records
    with this id, at most one.  When one is found, the local title is the
    record's title, or "Untitled document" when that is empty or missing,
    and the local content is the record's content, or empty when missing.
    When none is found nothing changes.  When the call fails the failure is
    logged and title, content and editor stay as they were.  The
    continuation always returns. *)
Theorem C5_load_document (s : State) :
  (log (loadDocument documentId s) = (log s ++ [DocumentsList documentId 1])%list
   /\ view (loadDocument documentId s) = view s)
  /\ (forall doc others,
        exists s',
          loadDocumentResume (FulfilledDocs (doc :: others)) s = Some s'
          /\ documentTitle (view s')
             = orDefault (Document.title doc) "Untitled document"
          /\ documentContent (view s') = orDefault (Document.content doc) ""
          /\ log s' = log s)
  /\ loadDocumentResume (FulfilledDocs []) s = Some s
  /\ exists s',
       loadDocumentResume Rejected s = Some s'
       /\ view s' = view s
       /\ editorRef s' = editorRef s
       /\ log s' = (log s ++ [ConsoleError "Failed to load document:"])%list.
Proof.
  split; [split; reflexivity|].
  split.
  - intros doc others. eexists. split; [reflexivity|].
    simpl. destruct (editorRef s); repeat split; reflexivity.
  - split; [reflexivity|]. eexists. repeat split; reflexivity.
Qed.

(** ** Comments *)

Lemma newEffects_app (s s' : State) (l : list Effect) :
  log s' = (log s ++ l)%list -> newEffects s s' = l.
Proof.
  intros E. unfold newEffects. rewrite E.
  rewrite skipn_app, skipn_all, Nat.sub_diag. reflexivity.
Qed.

Lemma findTask_fresh (l : list (nat * Task)) (n : nat) (t : Task) :
  (forall i x, In (i, x) l -> i < n) ->
  findTask n (l ++ [(n, t)]) = Some t
  /\ dropTask n (l ++ [(n, t)]) = l.
Proof.
  induction l as [|[i x] l IH]; intros Hlt; simpl.
  - rewrite Nat.eqb_refl. split; reflexivity.
  - assert (i < n) by (apply (Hlt i x); left; reflexivity).
    destruct (Nat.eqb_spec i n); [lia|].
    destruct IH as [IH1 IH2]; [intros j y Hj; apply (Hlt j y); right; exact Hj|].
    rewrite IH1, IH2. split; reflexivity.
Qed.



(** ** Flushes *)

(** C6.  In a reachable state [isSaving] is set exactly while a flush is in
    flight.  While it is set, time passing changes neither the log nor the
    suspended calls nor the view, and adds no timer: a timer that fires runs
    a [saveDocument] that returns at its guard, so there is no upsert, no
    publish and nothing queued.  When the upsert of a flush fails, the
    failure is logged, [isSaving] is cleared, and no timer and no call is
    added; when it succeeds, the publish is the one call that follows.  When
    the publish settles, either way, [isSaving] is cleared and again nothing
    is scheduled. *)
Theorem C6_busy_guard_and_cleanup (s : State) :
  reachable' s ->
  (isSaving (view s) = true <-> savesInFlight s <> [])
  /\ (forall ms,
        isSaving (view s) = true ->
        log (step' s (Elapse ms)) = log s
        /\ tasks (step' s (Elapse ms)) = tasks s
        /\ view (step' s (Elapse ms)) = view s
        /\ forall t, In t (timers (step' s (Elapse ms))) -> In t (timers s))
  /\ (forall id cl u,
        findTask id (tasks s) = Some (SaveUpsert cl u) ->
        (isSaving (view (step' s (Settle id Rejected))) = false
         /\ timers (step' s (Settle id Rejected)) = timers s
         /\ tasks (step' s (Settle id Rejected)) = dropTask id (tasks s)
         /\ log (step' s (Settle id Rejected))
            = (log s ++ [ConsoleError "Failed to save document:"])%list)
        /\ (timers (step' s (Settle id Fulfilled)) = timers s
            /\ tasks (step' s (Settle id Fulfilled))
               = (dropTask id (tasks s) ++ [(nextId s, SavePublish)])%list
            /\ log (step' s (Settle id Fulfilled))
               = (log s ++ [Publish (topic documentId) "content-update"
                              (ContentUpdate (Closure.documentContent cl)
                                 (User.id u))])%list))
  /\ (forall id r,
        findTask id (tasks s) = Some SavePublish ->
        isSaving (view (step' s (Settle id r))) = false
        /\ timers (step' s (Settle id r)) = timers s
        /\ tasks (step' s (Settle id r)) = dropTask id (tasks s)
        /\ filter isOutbound (log (step' s (Settle id r)))
           = filter isOutbound (log s)).
Proof.
  intros Hreach. pose proof (Inv_reachable s Hreach) as H.
  split.
  { destruct (core_flight s (inv_core s H)) as [[A B]|[A B]]; rewrite A.
    - apply length_zero_iff_nil in B. rewrite B. split; congruence.
    - split; trivial. intros _ E. rewrite E in B. discriminate. }
  split.
  { intros ms Hbusy. rewrite (step_elapse_busy s ms H Hbusy). simpl.
    repeat split; trivial. intros t Ht. apply filter_In in Ht. tauto. }
  split.
  { intros id cl u Hfind. split.
    - rewrite (step_settle s _ id _ Rejected H Hfind eq_refl); trivial.
      simpl. repeat split; reflexivity.
    - rewrite (step_settle s _ id _ Fulfilled H Hfind eq_refl); trivial.
      simpl. repeat split; reflexivity. }
  intros id r Hfind.
  destruct r;
    match goal with
    | |- context [Settle id ?r] =>
        rewrite (step_settle s _ id _ r H Hfind eq_refl); trivial
    end;
    simpl; repeat split; trivial.
  rewrite filter_app. simpl. apply app_nil_r.
Qed.

(** An edit that empties the surface leaves timers, suspended calls, log and
    clock alone. *)
Lemma step_input_empty (s : State) :
  Inv s ->
  timers (step' s (Input "")) = timers s
  /\ saveTimeoutRef (step' s (Input "")) = saveTimeoutRef s
  /\ nextId (step' s (Input "")) = nextId s
  /\ tasks (step' s (Input "")) = tasks s
  /\ log (step' s (Input "")) = log s
  /\ now (step' s (Input "")) = now s
  /\ (editorRef s <> None -> documentContent (view (step' s (Input ""))) = "").
Proof.
  intros H. destruct (editorRef s) as [html|] eqn:He.
  - assert (Hs : editorShown s = true).
    { destruct (editorShown s) eqn:E; trivial.
      apply (inv_editor s H) in E. congruence. }
    unfold editorShown in Hs. apply andb_true_iff in Hs. destruct Hs as [Hl Hu].
    apply negb_true_iff in Hl.
    destruct (user (view s)) as [u|] eqn:Eu; [|discriminate].
    destruct (step_input s u "" H Eu Hl) as (V & L & K & N & T).
    rewrite orb_true_r in T. destruct T as (T1 & T2 & T3).
    rewrite V. repeat split; trivial.
  - assert (E : step' s (Input "") = s).
    { unfold step, handle. rewrite He. apply (commit_same s); trivial. }
    rewrite E. repeat split; trivial. congruence.
Qed.

(** C10.  In a reachable state an edit that empties the content neither
    removes the pending timer nor sets a new one.  A timer set for earlier
    content, when its [saveDocument] passes the guards, still fires: it
    upserts the content of its own render, which is not empty, and once the
    upsert succeeds publishes that same content, while the content in memory
    is empty.  And no pending timer and no logged upsert or content-update
    carries empty content. *)
Theorem C10_empty_edit_keeps_stale_flush (s : State) :
  reachable' s ->
  (timers (step' s (Input "")) = timers s
   /\ saveTimeoutRef (step' s (Input "")) = saveTimeoutRef s)
  /\ (forall t u ms,
        editorRef s <> None ->
        timers s = [t] ->
        Closure.user (Timer.closure t) = Some u ->
        Closure.isSaving (Timer.closure t) = false ->
        Timer.deadline t <= now s + ms ->
        let stale := Closure.documentContent (Timer.closure t) in
        let s1 := step' (step' s (Input "")) (Elapse ms) in
        let s2 := step' s1 (Settle (nextId s) Fulfilled) in
        stale <> ""
        /\ documentContent (view s1) = ""
        /\ newEffects s s1
           = [DocumentsUpsert
                (Document.mk documentId
                   (Some (Closure.documentTitle (Timer.closure t)))
                   (Some stale) (User.id u)
                   (Nat.max (now s) (Timer.deadline t)))]
        /\ newEffects s1 s2
           = [Publish (topic documentId) "content-update"
                (ContentUpdate stale (User.id u))])
  /\ (forall t, In t (timers s) ->
                Closure.documentContent (Timer.closure t) <> "")
  /\ (forall e, In e (log s) -> contentOfEffect e <> Some "").
Proof.
  intros Hreach. pose proof (Inv_reachable s Hreach) as H.
  destruct (step_input_empty s H) as (T & R & N & K & L & W & C).
  split; [split; trivial|].
  split.
  - intros t u ms He Ht Hu Hs Hdue stale s1 s2.
    set (s0 := step' s (Input "")) in *.
    assert (H0 : Inv s0) by (apply Inv_step, H).
    specialize (C He). clearbody s0.
    pose proof (step_elapse_fire s0 t u ms H0) as E1. fold s1 in E1.
    specialize (E1 ltac:(congruence) ltac:(lia) Hu Hs).
    assert (H1 : Inv s1) by (apply Inv_step, H0).
    destruct (findTask_fresh (tasks s0) (nextId s0)
                (SaveUpsert (Timer.closure t) u)
                (core_ids s0 (inv_core s0 H0))) as [F1 D1].
    assert (F2 : findTask (nextId s0) (tasks s1)
                 = Some (SaveUpsert (Timer.closure t) u))
      by (rewrite E1; exact F1).
    assert (L2 : log s2
                 = (log s1 ++ [Publish (topic documentId) "content-update"
                                 (ContentUpdate stale (User.id u))])%list).
    { subst s2. rewrite <- N.
      rewrite (step_settle s1 _ (nextId s0) _ Fulfilled H1 F2 eq_refl); trivial. }
    split.
    { apply (core_closure s (inv_core s H) t). rewrite Ht. left. reflexivity. }
    split; [rewrite E1; simpl; auto|].
    split.
    + apply newEffects_app. rewrite E1. simpl. rewrite L, W. reflexivity.
    + apply newEffects_app. exact L2.
  - split.
    + intros t Hin. apply (core_closure s (inv_core s H) t Hin).
    + apply (core_log s (inv_core s H)).
Qed.

(** ** Bursts of edits *)

Lemma run_app (a b : list Event) (s : State) :
  run' (a ++ b) s = run' b (run' a s).
Proof. unfold run. apply fold_left_app. Qed.

Lemma burst_input (s0 s : State) (u : User.t) (b : bool) (c : string) :
  Burst s0 u b s ->
  Burst s0 u (b || negb (c =? documentContent (view s0))) (step' s (Input c))
  /\ documentContent (view (step' s (Input c))) = c
  /\ now (step' s (Input c)) = now s.
Proof.
  intros [Hi Htl Hu Hl Hs Hlog Htk Hnx Hnow Htm Hp].
  destruct (step_input s u c Hi Hu Hl) as (V & L & K & N & T).
  pose proof (Inv_step (Input c) s Hi) as Hi'.
  set (s' := step' s (Input c)) in *. clearbody s'.
  assert (Vc : documentContent (view s') = c) by (rewrite V; reflexivity).
  split; [|split; [exact Vc|exact N]].
  constructor; try (rewrite V; simpl; assumption); try congruence.
  - destruct ((documentContent (view s) =? c) || (c =? ""));
      destruct T as (_ & _ & T); lia.
  - rewrite N. intros t Hin.
    destruct ((documentContent (view s) =? c) || (c =? ""));
      destruct T as (T & _); rewrite T in Hin.
    + auto.
    + destruct Hin as [<-|[]]. simpl. repeat split; trivial; lia.
  - rewrite Vc. revert T.
    destruct (String.eqb_spec (documentContent (view s)) c) as [Esame|Ediff];
      simpl.
    + intros (T & _). rewrite T. rewrite <- Esame.
      destruct b; simpl.
      * exact Hp.
      * destruct Hp as [Hp1 Hp2]. rewrite Hp2, String.eqb_refl. simpl. auto.
    + destruct (String.eqb_spec c "") as [Eempty|Efull]; intros (T & _).
      * destruct b; simpl; [congruence|]. destruct Hp as [Hp1 Hp2].
        destruct (String.eqb_spec c (documentContent (view s0))); simpl;
          congruence.
      * assert (Hflag : b || negb (c =? documentContent (view s0)) = true).
        { destruct b; trivial. simpl. destruct Hp as [_ Hp2].
          destruct (String.eqb_spec c (documentContent (view s0))); trivial.
          congruence. }
        rewrite Hflag. intros _. eexists. split; [exact T|reflexivity].
Qed.

Lemma burst_elapse (s0 s : State) (u : User.t) (b : bool) (ms : nat) :
  Burst s0 u b s ->
  now s + ms < now s0 + 1000 ->
  Burst s0 u b (step' s (Elapse ms))
  /\ documentContent (view (step' s (Elapse ms))) = documentContent (view s)
  /\ now (step' s (Elapse ms)) = now s + ms.
Proof.
  intros [Hi Htl Hu Hl Hs Hlog Htk Hnx Hnow Htm Hp] Hearly.
  assert (E : step' s (Elapse ms) = setNow (now s + ms) s).
  { apply step_elapse_idle; trivial. intros t Hin. apply Htm in Hin. lia. }
  split; [|rewrite E; split; reflexivity].
  constructor; try (rewrite E; simpl; assumption).
  - apply Inv_step, Hi.
  - rewrite E. simpl. lia.
  - rewrite E. simpl. intros t Hin. apply Htm in Hin.
    destruct Hin as (A & B & C & D). repeat split; trivial; lia.
Qed.

Lemma last_cons (l : list string) (x d : string) :
  last (x :: l) d = last l x.
Proof.
  revert x d. induction l as [|y l IH]; intros x d; trivial.
  change (last (x :: y :: l) d) with (last (y :: l) d).
  rewrite !IH. reflexivity.
Qed.

Lemma burst_rest (s0 : State) (u : User.t) (rest : list (nat * string)) :
  forall (s : State) (b : bool),
    Burst s0 u b s ->
    now s + burstSpan rest < now s0 + 1000 ->
    Burst s0 u
      (b || existsb (fun c => negb (c =? documentContent (view s0)))
              (map snd rest))
      (run' (flat_map (fun p => [Elapse (fst p); Input (snd p)]) rest) s)
    /\ documentContent
         (view (run' (flat_map (fun p => [Elapse (fst p); Input (snd p)]) rest) s))
       = last (map snd rest) (documentContent (view s))
    /\ now (run' (flat_map (fun p => [Elapse (fst p); Input (snd p)]) rest) s)
       = now s + burstSpan rest.
Proof.
  induction rest as [|[gap c] rest IH]; intros s b Hb Hspan.
  - simpl. rewrite orb_false_r, Nat.add_0_r. auto.
  - unfold burstSpan in Hspan. simpl in Hspan. fold (burstSpan rest) in Hspan.
    destruct (burst_elapse s0 s u b gap Hb) as (B1 & C1 & N1); [lia|].
    destruct (burst_input s0 _ u b c B1) as (B2 & C2 & N2).
    simpl.
    destruct (IH _ _ B2) as (B3 & C3 & N3); [lia|].
    split; [|split].
    + rewrite orb_assoc. exact B3.
    + rewrite C3, C2. symmetry. apply last_cons.
    + rewrite N3, N2, N1. unfold burstSpan. simpl. lia.
Qed.

Lemma burst_start (s : State) (u : User.t) :
  Inv s -> user (view s) = Some u -> isLoading (view s) = false ->
  isSaving (view s) = false -> timers s = [] ->
  Burst s u false s.
Proof.
  intros H Hu Hl Hs Ht. constructor; trivial.
  - rewrite Ht. intros t [].
  - split; trivial.
Qed.

Lemma changed_flag (c0 : string) (l : list string) :
  (exists c, In c l /\ c <> c0) ->
  existsb (fun c => negb (c =? c0)) l = true.
Proof.
  intros (c & Hin & Hne). apply existsb_exists. exists c. split; trivial.
  apply negb_true_iff, String.eqb_neq, Hne.
Qed.

(** The timer that is pending when a burst ends fires once the quiet period
    is over, and its flush runs to the end. *)
Lemma flush_of_pending (s e : State) (u : User.t) (t : Timer.t)
  (content : string) (ms : nat) :
  Inv e -> log e = log s ->
  timers e = [t] ->
  Timer.closure t
  = Closure.mk (Some u) false (documentTitle (view s)) content ->
  now s + 1000 <= Timer.deadline t ->
  Timer.deadline t <= now e + ms ->
  flushedOnce documentId parseHTML s u content (step' e (Elapse ms)).
Proof.
  intros Hi Hlog Et Ecl Hlow Hdue.
  assert (Tu : Closure.user (Timer.closure t) = Some u) by (rewrite Ecl; reflexivity).
  assert (Ts : Closure.isSaving (Timer.closure t) = false)
    by (rewrite Ecl; reflexivity).
  pose proof (step_elapse_fire e t u ms Hi Et Hdue Tu Ts) as E1.
  exists (nextId e), (Nat.max (now e) (Timer.deadline t)).
  intros upsert publish s2.
  set (s1 := step' e (Elapse ms)) in *.
  assert (H1 : Inv s1) by (apply Inv_step, Hi).
  clearbody s1.
  assert (Hids : forall i x, In (i, x) (tasks e) -> i < nextId e)
    by exact (core_ids e (inv_core e Hi)).
  destruct (findTask_fresh (tasks e) (nextId e) (SaveUpsert (Timer.closure t) u)
              Hids) as [F1 D1].
  assert (F1' : findTask (nextId e) (tasks s1)
                = Some (SaveUpsert (Timer.closure t) u))
    by (rewrite E1; exact F1).
  assert (L1 : log s1 = (log s ++ [upsert])%list)
    by (rewrite E1; simpl; rewrite Hlog, Ecl; reflexivity).
  assert (T1 : timers s1 = []) by (rewrite E1; reflexivity).
  assert (Es2 : s2 = await SavePublish publish
                       (setLastSaved (Some (now s1))
                          (setTasks (tasks e) s1))).
  { unfold s2.
    rewrite (step_settle s1 _ (nextId e) _ Fulfilled H1 F1' eq_refl); trivial.
    replace (dropTask (nextId e) (tasks s1)) with (tasks e)
      by (rewrite E1; symmetry; exact D1).
    rewrite Ecl. reflexivity. }
  assert (H2 : Inv s2) by (apply Inv_step, H1).
  assert (L2 : log s2 = (log s ++ [upsert; publish])%list)
    by (rewrite Es2; simpl; rewrite L1, <- app_assoc; reflexivity).
  assert (T2 : timers s2 = []) by (rewrite Es2; simpl; exact T1).
  assert (F2 : findTask (S (nextId e)) (tasks s2) = Some SavePublish
               /\ dropTask (S (nextId e)) (tasks s2) = tasks e).
  { rewrite Es2. simpl. rewrite E1. simpl. apply findTask_fresh.
    intros i x Hi0. apply Hids in Hi0. lia. }
  destruct F2 as [F2 D2]. clear Es2 E1. clearbody s2.
  split; [lia|].
  split; [apply newEffects_app, L1|].
  split; [exact T1|].
  split; [apply newEffects_app, L2|].
  split; [exact T2|].
  intros r.
  destruct r;
    match goal with
    | |- context [Settle _ ?r] =>
        rewrite (step_settle s2 _ (S (nextId e)) _ r H2 F2 eq_refl); trivial
    end;
    simpl; rewrite T2;
    (split; [|split; reflexivity]);
    unfold newEffects; simpl; rewrite L2;
    rewrite <- ?app_assoc, skipn_app, skipn_all, Nat.sub_diag; reflexivity.
Qed.

Lemma chain_input (s0 s : State) (u : User.t) (c : string) :
  Inv s ->
  documentTitle (view s) = documentTitle (view s0) ->
  user (view s) = Some u -> isLoading (view s) = false ->
  isSaving (view s) = false ->
  log s = log s0 -> now s0 <= now s ->
  c <> documentContent (view s) -> c <> "" ->
  Chain s0 u 0 (step' s (Input c))
  /\ documentContent (view (step' s (Input c))) = c.
Proof.
  intros Hi Htl Hu Hl Hs Hlog Hnow Hne Hfull.
  destruct (step_input s u c Hi Hu Hl) as (V & L & K & N & T).
  pose proof (Inv_step (Input c) s Hi) as Hi'.
  set (s' := step' s (Input c)) in *. clearbody s'.
  apply not_eq_sym, String.eqb_neq in Hne. apply String.eqb_neq in Hfull.
  rewrite Hne, Hfull in T. simpl in T. destruct T as (T & _).
  split; [|rewrite V; reflexivity].
  constructor; try (rewrite V; simpl; assumption); try congruence.
  - lia.
  - eexists. split; [exact T|]. simpl. rewrite V, Hs, Htl, N. simpl.
    split; [reflexivity|lia].
Qed.

Lemma chain_elapse (s0 s : State) (u : User.t) (since ms : nat) :
  Chain s0 u since s ->
  since + ms < 1000 ->
  Chain s0 u (since + ms) (step' s (Elapse ms))
  /\ documentContent (view (step' s (Elapse ms))) = documentContent (view s).
Proof.
  intros [Hi Htl Hu Hl Hs Hlog Hnow (t & Et & Ecl & Ed)] Hearly.
  assert (E : step' s (Elapse ms) = setNow (now s + ms) s).
  { apply step_elapse_idle; trivial. intros x Hin. rewrite Et in Hin.
    destruct Hin as [<-|[]]. lia. }
  split; [|rewrite E; reflexivity].
  constructor; try (rewrite E; simpl; assumption).
  - apply Inv_step, Hi.
  - rewrite E. simpl. lia.
  - exists t. rewrite E. simpl. split; [exact Et|]. split; [exact Ecl|lia].
Qed.

Lemma chain_rest (s0 : State) (u : User.t) (rest : list (nat * string)) :
  forall s : State,
    Chain s0 u 0 s ->
    eachEditResets (documentContent (view s)) rest ->
    Chain s0 u 0
      (run' (flat_map (fun p => [Elapse (fst p); Input (snd p)]) rest) s)
    /\ documentContent
         (view (run' (flat_map (fun p => [Elapse (fst p); Input (snd p)]) rest) s))
       = last (map snd rest) (documentContent (view s)).
Proof.
  induction rest as [|[gap c] rest IH]; intros s Hc Hr.
  - simpl. auto.
  - destruct Hr as (Hgap & Hfull & Hne & Hr).
    destruct (chain_elapse s0 s u 0 gap Hc Hgap) as (C1 & V1).
    destruct C1 as [Hi Htl Hu Hl Hs Hlog Hnow _].
    rewrite <- V1 in Hne.
    destruct (chain_input s0 _ u c Hi Htl Hu Hl Hs Hlog ltac:(lia) Hne Hfull)
      as (C2 & V2).
    rewrite <- V2 in Hr.
    destruct (IH _ C2 Hr) as (C3 & V3).
    simpl. split; [exact C3|].
    rewrite V3, V2. symmetry. apply last_cons.
Qed.

(** C1, as the code has it.  Take a reachable state with a user, loaded,
    with no flush in flight and no timer pending, and a burst of edits of
    one of two kinds: all edits fall within one second, at least one of them
    changes the content and the last one leaves content that is not empty;
    or every edit changes the content to something that is not empty and
    comes less than a second after the edit before it.  Once a second has
    passed after the burst, exactly one upsert has been issued, carrying the
    title and the content of the last edit, not earlier than one second
    after the burst began, and no timer is left.  When that upsert succeeds,
    one content-update publish with the same content follows; and when the
    publish has settled, these two are still the only store writes and
    publishes, [isSaving] is cleared and no timer is pending. *)
Theorem C1_burst_flushes_once (s : State) (u : User.t) (first : string)
  (rest : list (nat * string)) (ms : nat) :
  reachable' s ->
  user (view s) = Some u ->
  isLoading (view s) = false ->
  isSaving (view s) = false ->
  timers s = [] ->
  withinOneSecond (documentContent (view s)) first rest
  \/ resettingBurst (documentContent (view s)) first rest ->
  1000 <= ms ->
  exists id t,
    let upsert :=
      DocumentsUpsert
        (Document.mk documentId (Some (documentTitle (view s)))
           (Some (lastEdit first rest)) (User.id u) t) in
    let publish :=
      Publish (topic documentId) "content-update"
        (ContentUpdate (lastEdit first rest) (User.id u)) in
    let s1 := run' (burstEvents first rest ++ [Elapse ms]) s in
    let s2 := step' s1 (Settle id Fulfilled) in
    now s + 1000 <= t
    /\ newEffects s s1 = [upsert]
    /\ timers s1 = []
    /\ newEffects s s2 = [upsert; publish]
    /\ timers s2 = []
    /\ forall r,
         filter isOutbound (newEffects s (step' s2 (Settle (S id) r)))
         = [upsert; publish]
         /\ timers (step' s2 (Settle (S id) r)) = []
         /\ isSaving (view (step' s2 (Settle (S id) r))) = false.
Proof.
  intros Hreach Hu Hl Hs Ht Hburst Hms.
  pose proof (Inv_reachable s Hreach) as H.
  assert (Erun : run' (burstEvents first rest ++ [Elapse ms]) s
                 = step' (run' (flat_map (fun p => [Elapse (fst p); Input (snd p)])
                                  rest)
                            (step' s (Input first)))
                     (Elapse ms))
    by (rewrite run_app; reflexivity).
  rewrite Erun. clear Erun.
  destruct Hburst as [(Hspan & Hlast & Hchg)|(Hfull & Hne & Hres)].
  - (* the burst falls within one second *)
    pose proof (burst_start s u H Hu Hl Hs Ht) as B0.
    destruct (burst_input s s u false first B0) as (B1 & C1 & N1).
    destruct (burst_rest s u rest _ _ B1) as (B2 & C2 & N2); [lia|].
    rewrite C1 in C2. fold (lastEdit first rest) in C2.
    assert (Hflag : false || negb (first =? documentContent (view s))
                    || existsb (fun c => negb (c =? documentContent (view s)))
                         (map snd rest) = true)
      by (apply (changed_flag _ (first :: map snd rest)), Hchg).
    rewrite Hflag in B2. clear Hflag B0 B1.
    rewrite N1 in N2.
    set (e := run' (flat_map (fun p => [Elapse (fst p); Input (snd p)]) rest)
                (step' s (Input first))) in *.
    clearbody e.
    destruct B2 as [Hi _ _ _ _ Hlog _ _ _ Htm Hp].
    rewrite C2 in Hp. destruct (Hp Hlast) as (t & Et & Ec).
    destruct (Htm t) as (Tu & Ts & Tt & Td); [rewrite Et; left; reflexivity|].
    assert (Ecl : Timer.closure t
                  = Closure.mk (Some u) false (documentTitle (view s))
                      (lastEdit first rest))
      by (destruct (Timer.closure t); simpl in *; congruence).
    exact (flush_of_pending s e u t (lastEdit first rest) ms Hi Hlog Et Ecl
             ltac:(lia) ltac:(lia)).
  - (* every edit resets the timer *)
    destruct (chain_input s s u first H eq_refl Hu Hl Hs eq_refl (le_n _)
                Hne Hfull) as (K1 & V1).
    rewrite <- V1 in Hres.
    destruct (chain_rest s u rest _ K1 Hres) as (K2 & V2).
    rewrite V1 in V2. fold (lastEdit first rest) in V2.
    set (e := run' (flat_map (fun p => [Elapse (fst p); Input (snd p)]) rest)
                (step' s (Input first))) in *.
    clearbody e.
    destruct K2 as [Hi _ _ _ _ Hlog Hnow (t & Et & Ecl & Ed)].
    rewrite V2 in Ecl.
    exact (flush_of_pending s e u t (lastEdit first rest) ms Hi Hlog Et Ecl
             ltac:(lia) ltac:(lia)).
Qed.


End Properties.

(** * The properties on the sample session *)

(** Facts about the sample session are settled by running the model. *)
Ltac run_model :=
  try (let H := fresh in intro H; vm_compute in H; discriminate H);
  vm_compute; (reflexivity || lia).

Lemma session_reachable (es : list Event) :
  reachable "doc-1" plainText (session es).
Proof. exists es. reflexivity. Qed.

(** C1: Ann types "Hello" one letter every 50 ms and then pauses. *)
Lemma C1_burst_flushes_once_witness :
  exists id t,
    newEffects signedIn
      (run "doc-1" plainText
         (burstEvents "H" [(50, "He"); (50, "Hel"); (50, "Hell"); (50, "Hello")]
            ++ [Elapse 1000]) signedIn)
    = [DocumentsUpsert
         (Document.mk "doc-1" (Some "Untitled document") (Some "Hello") "u1" t)]
    /\ newEffects signedIn
         (step "doc-1" plainText
            (run "doc-1" plainText
               (burstEvents "H"
                  [(50, "He"); (50, "Hel"); (50, "Hell"); (50, "Hello")]
                  ++ [Elapse 1000]) signedIn)
            (Settle id Fulfilled))
       = [DocumentsUpsert
            (Document.mk "doc-1" (Some "Untitled document") (Some "Hello") "u1" t);
          Publish "document-doc-1" "content-update" (ContentUpdate "Hello" "u1")].
Proof.
  destruct (C1_burst_flushes_once "doc-1" plainText signedIn ann "H"
              [(50, "He"); (50, "Hel"); (50, "Hell"); (50, "Hello")] 1000)
    as (id & t & _ & A & _ & B & _).
  - apply session_reachable.
  - run_model.
  - run_model.
  - run_model.
  - run_model.
  - left. split; [apply Nat.ltb_lt; vm_compute; reflexivity|].
    split; [run_model|].
    exists "H". split; [left; reflexivity|run_model].
  - apply le_n.
  - exists id, t. split; [exact A|exact B].
Defined.

(** C1 read literally fails: Ann types "a", clears the surface 100 ms later
    and pauses; the upsert that follows carries "a", not the empty content
    of the last edit. *)
Lemma C1_counterexample : ~ oneFlushPerBurst "doc-1" plainText.
Proof.
  intros Hclaim.
  destruct (Hclaim signedIn ann "a" [(100, "")]) as [t E].
  - apply session_reachable.
  - run_model.
  - run_model.
  - run_model.
  - apply Nat.ltb_lt. vm_compute. reflexivity.
  - vm_compute in E. discriminate E.
Qed.


(** C4: a peer's update arrives while Ann's caret is at offset 10; the new
    text has 8 characters. *)
Lemma C4_caret_restored_at_min_witness :
  exists s',
    onMessage plainText ann (Message.mk "peerA" (ContentUpdate "<p>X</p>" "peerA"))
      selecting
    = Normal s'
    /\ documentContent (view s') = "<p>X</p>"
    /\ selection s' = SelRange (Range.collapsedAt EditorFirstChild 8).
Proof.
  destruct (C4_caret_restored_at_min plainText ann
              (Message.mk "peerA" (ContentUpdate "<p>X</p>" "peerA")) selecting
              "<p>X</p>" "peerA"
              (Range.mk EditorFirstChild 10 EditorFirstChild 14))
    as (s' & A & _ & _ & B & _ & _ & C).
  - run_model.
  - run_model.
  - run_model.
  - run_model.
  - run_model.
  - exists s'. split; [exact A|]. split; [exact B|].
    simpl in C. rewrite C. reflexivity.
Defined.

(** C5 read literally fails: the record found has an empty title; the local
    title becomes "Untitled document". *)
Lemma C5_counterexample : ~ loadCopiesRecord.
Proof.
  intros Hclaim.
  destruct (Hclaim (setDocumentTitle "Draft" signedIn)
              (Document.mk "doc-1" (Some "") (Some "<p>x</p>") "u1" 0) []
              "" "<p>x</p>" eq_refl eq_refl)
    as (s' & E & T & _).
  inversion E; subst. vm_compute in T. discriminate T.
Qed.

(** C6: the timer set while the flush of "a" is in flight comes due. *)
Lemma C6_busy_guard_and_cleanup_witness :
  isSaving (view busy) = true
  /\ timers busy <> []
  /\ log (step "doc-1" plainText busy (Elapse 1000)) = log busy
  /\ tasks (step "doc-1" plainText busy (Elapse 1000)) = tasks busy.
Proof.
  destruct (C6_busy_guard_and_cleanup "doc-1" plainText busy
              (session_reachable _)) as (_ & Skip & _).
  destruct (Skip 1000 eq_refl) as (A & B & _).
  split; [run_model|]. split; [run_model|]. split; [exact A|exact B].
Defined.

(** C7 fails on the code: the timer set before Ann signed out fires after,
    and its [saveDocument], which still sees Ann, writes to the store; when
    the store answers it publishes. *)
Theorem C7_flush_after_sign_out :
  user (view signedOut) = None
  /\ newEffects signedOut (step "doc-1" plainText signedOut (Elapse 500))
     = [DocumentsUpsert
          (Document.mk "doc-1" (Some "Untitled document") (Some "a") "u1" 1000)]
  /\ newEffects signedOut
       (run "doc-1" plainText [Elapse 500; Settle 4 Fulfilled] signedOut)
     = [DocumentsUpsert
          (Document.mk "doc-1" (Some "Untitled document") (Some "a") "u1" 1000);
        Publish "document-doc-1" "content-update" (ContentUpdate "a" "u1")].
Proof. vm_compute. repeat split. Qed.


(** C10: Ann types "a", clears the surface, and the timer of "a" fires. *)
Lemma C10_empty_edit_keeps_stale_flush_witness :
  timers (step "doc-1" plainText typedA (Input "")) = timers typedA
  /\ documentContent
       (view (run "doc-1" plainText [Input ""; Elapse 1000] typedA)) = ""
  /\ newEffects typedA (run "doc-1" plainText [Input ""; Elapse 1000] typedA)
     = [DocumentsUpsert
          (Document.mk "doc-1" (Some "Untitled document") (Some "a") "u1" 1000)].
Proof.
  destruct (C10_empty_edit_keeps_stale_flush "doc-1" plainText typedA
              (session_reachable _)) as ((A & _) & Stale & _).
  split; [exact A|].
  destruct (Stale (Timer.mk 3 1000
                     (Closure.mk (Some ann) false "Untitled document" "a"))
              ann 1000)
    as (_ & B & C & _).
  - run_model.
  - run_model.
  - run_model.
  - run_model.
  - apply Nat.leb_le. vm_compute. reflexivity.
  - split; [exact B|exact C].
Defined.

(** ** Further runs of the model *)

(** Ann types "a", clears the surface 100 ms later and pauses: the one
    upsert carries "a" while the content in memory is empty. *)
Example cleared_surface_flushes_earlier_content :
  let s := run "doc-1" plainText
             (burstEvents "a" [(100, "")] ++ [Elapse 1000]) signedIn in
  documentContent (view s) = ""
  /\ newEffects signedIn s
     = [DocumentsUpsert
          (Document.mk "doc-1" (Some "Untitled document") (Some "a") "u1" 1000)].
Proof. vm_compute. split; reflexivity. Qed.

(** A burst of the second kind: five edits 600 ms apart, each changing the
    content; one upsert, a second after the last edit. *)
Example slow_typing_flushes_once :
  newEffects signedIn
    (run "doc-1" plainText
       (burstEvents "H" [(600, "He"); (600, "Hel"); (600, "Hell"); (600, "Hello")]
          ++ [Elapse 1000]) signedIn)
  = [DocumentsUpsert
       (Document.mk "doc-1" (Some "Untitled document") (Some "Hello") "u1" 3400)].
Proof. vm_compute. reflexivity. Qed.

(** An edit that leaves the content as it is does not reset the timer: with
    "a", "a" again after 900 ms and "b" after another 900 ms, the timer of
    the first edit fires inside the burst. *)
Example unchanged_edit_does_not_reset :
  newEffects signedIn
    (run "doc-1" plainText (burstEvents "a" [(900, "a"); (900, "b")]) signedIn)
  = [DocumentsUpsert
       (Document.mk "doc-1" (Some "Untitled document") (Some "a") "u1" 1000)].
Proof. vm_compute. reflexivity. Qed.

(** A burst typed while a flush is in flight: the flush of "a" ends after
    200 ms, yet the timer of "ab", set while [isSaving] was true, skips when
    it fires, and "ab" is not written. *)
Example edit_during_flush_is_not_saved :
  let s := run "doc-1" plainText
             [Settle 4 Fulfilled; Settle 6 Fulfilled; Elapse 1000] busy in
  isSaving (view s) = false
  /\ documentContent (view s) = "ab"
  /\ timers s = []
  /\ filter isOutbound (newEffects busy s)
     = [Publish "document-doc-1" "content-update" (ContentUpdate "a" "u1")].
Proof. vm_compute. repeat split; reflexivity. Qed.

(** A record with an empty title, loaded over a local title "Draft". *)
Example empty_title_loads_default :
  option_map (fun s => documentTitle (view s))
    (loadDocumentResume
       (FulfilledDocs [Document.mk "doc-1" (Some "") (Some "<p>x</p>") "u1" 0])
       (setDocumentTitle "Draft" signedIn))
  = Some "Untitled document".
Proof. reflexivity. Qed.

(** A restoration that fails: the first child is a paragraph with one child,
    and offset 8 is beyond it.  The content is applied, nothing is logged,
    and the selection is where the replacement left it. *)
Example caret_restoration_given_up :
  onMessage paragraph ann
    (Message.mk "peerA" (ContentUpdate "<p>X</p>" "peerA")) selecting
  = Normal (setDocumentContent "<p>X</p>" (setInnerHTML "<p>X</p>" selecting)).
Proof. vm_compute. reflexivity. Qed.

(** A remote update that arrives while the window's selection has no range:
    [getRangeAt(0)] throws before anything is applied. *)
Example remote_update_without_range :
  onMessage plainText ann
    (Message.mk "peerA" (ContentUpdate "<p>X</p>" "peerA")) signedIn
  = Throw "IndexSizeError" signedIn.
Proof. vm_compute. reflexivity. Qed.

(** * Further properties of the component *)

Section Coverage.

Variable documentId : string.
Variable parseHTML : string -> list Node.

Local Abbreviation commit' := (commit documentId).
Local Abbreviation step' := (step documentId parseHTML).
Local Abbreviation run' := (run documentId parseHTML).
Local Abbreviation reachable' := (reachable documentId parseHTML).

(** ** Timers and flushes *)

(** X1.  In every reachable state at most one debounce timer is pending, it
    is the one [saveTimeoutRef] names, and at most one flush is in
    flight. *)
Theorem X1_one_timer_one_flush (s : State) :
  reachable' s ->
  List.length (timers s) <= 1
  /\ List.length (savesInFlight s) <= 1
  /\ forall t, In t (timers s) -> saveTimeoutRef s = Some (Timer.id t).
Proof.
  intros Hreach. pose proof (Inv_reachable documentId parseHTML s Hreach) as H.
  destruct (core_timer s (inv_core s H)) as [Ht|(t & Ht & Hr)]; rewrite Ht;
    (split; [simpl; lia|]);
    (split; [destruct (core_flight s (inv_core s H)) as [[_ F]|[_ F]]; lia|]).
  - intros t [].
  - intros x [<-|[]]. exact Hr.
Qed.

(** ** Channel handlers *)

Lemma handlers_commit (s : State) : handlers (commit' s) = handlers s.
Proof.
  unfold commit, loadEffect, autoSaveEffect, setupRealtime, attachRefs.
  repeat match goal with
         | |- context [if ?b then _ else _] => destruct b
         | |- context [match ?x with _ => _ end] => destruct x
         end; reflexivity.
Qed.

Lemma handlers_saveDocument (cl : Closure.t) (s : State) :
  handlers (saveDocument documentId cl s) = handlers s.
Proof.
  unfold saveDocument.
  destruct (Closure.user cl); [destruct (Closure.isSaving cl)|]; reflexivity.
Qed.

Lemma handlers_elapse (ms : nat) (s : State) :
  handlers (elapse documentId ms s) = handlers s.
Proof.
  assert (G : forall due x, handlers (fold_left (fire documentId) due x)
                            = handlers x).
  { induction due as [|t due IH]; intros x; simpl; trivial.
    rewrite IH. unfold fire. rewrite handlers_commit, handlers_saveDocument.
    reflexivity. }
  unfold elapse. simpl. rewrite G. reflexivity.
Qed.

Lemma handlers_restoreCaret (html : string) (k : nat) (s : State) :
  handlers (restoreCaret parseHTML html k s) = handlers s.
Proof.
  unfold restoreCaret.
  destruct (selection s); trivial.
  destruct (parseHTML html); trivial.
  destruct (_ <=? _)%nat; reflexivity.
Qed.

Lemma handlers_onMessage (u : User.t) (m : Message.t) (s : State) :
  handlers (match onMessage parseHTML u m s with
            | Normal s' => s'
            | Throw exn s' => emit (Uncaught exn) s'
            end) = handlers s.
Proof.
  unfold onMessage.
  destruct (Message.data m) as [c b|t b|c]; try reflexivity.
  - destruct (negb _); trivial.
    destruct (editorRef s); trivial.
    destruct (truthy c); trivial.
    unfold applyRemoteContent.
    destruct (selection s); trivial; rewrite handlers_restoreCaret; reflexivity.
  - destruct (negb _); reflexivity.
Qed.

Lemma handlers_fold {A : Type} (f : State -> A -> State) (l : list A) :
  (forall x a, handlers (f x a) = handlers x) ->
  forall s, handlers (fold_left f l s) = handlers s.
Proof.
  intros Hf. induction l as [|a l IH]; intros s; simpl; trivial.
  rewrite IH. apply Hf.
Qed.

Lemma handlers_resume (t : Task) (r : Response) (s s' : State) :
  resume documentId t r s = Some s' ->
  exists l, handlers s' = (handlers s ++ l)%list.
Proof.
  intros E.
  destruct t; simpl in E;
    [ unfold loadDocumentResume in E; destruct r as [|[|doc docs]| |]
    | unfold loadCommentsResume in E; destruct r
    | unfold setupRealtimeResume in E; destruct r
    | unfold saveUpsertResume in E; destruct r
    | unfold savePublishResume in E; destruct r
    | unfold titleUpsertResume in E; destruct r
    | unfold titlePublishResume in E; destruct r
    | unfold commentCreateResume in E; destruct r
    | unfold commentPublishResume in E; destruct r ];
    inversion E; subst; clear E;
    try (exists []; rewrite app_nil_r; simpl;
         try destruct (editorRef s); reflexivity).
  exists [u]. reflexivity.
Qed.

(** X7.  No event removes a channel handler: the handlers registered after
    an event are those registered before it, followed by those the event
    added.  Signing out, in particular, leaves every handler in place. *)
Theorem X7_handlers_are_never_removed (s : State) (e : Event) :
  exists added, handlers (step' s e) = (handlers s ++ added)%list.
Proof.
  unfold step. rewrite handlers_commit.
  destruct e; simpl;
    try (exists []; rewrite app_nil_r; reflexivity).
  - exists []. rewrite app_nil_r.
    destruct (editorRef s); reflexivity.
  - exists []. rewrite app_nil_r. unfold handleTitleSave. simpl.
    destruct (user (view s)); reflexivity.
  - exists []. rewrite app_nil_r. unfold handleTextSelection. simpl.
    destruct sel; [|destruct (truthy (trim text))..]; reflexivity.
  - exists []. rewrite app_nil_r. unfold addComment.
    destruct (user (view s)); trivial.
    destruct (negb _); trivial.
    destruct (selection s); trivial.
    destruct answer; trivial.
    destruct (negb _); reflexivity.
  - exists []. rewrite app_nil_r. apply handlers_elapse.
  - unfold settle. destruct (findTask task (tasks s)) as [t|];
      [|exists []; rewrite app_nil_r; reflexivity].
    destruct (resume documentId t r _) as [s'|] eqn:E;
      [|exists []; rewrite app_nil_r; reflexivity].
    apply handlers_resume in E. exact E.
  - exists []. rewrite app_nil_r. unfold deliver.
    apply handlers_fold. intros x a. apply handlers_onMessage.
  - exists []. rewrite app_nil_r. unfold presence.
    apply handlers_fold. reflexivity.
Qed.

Lemma repeat_snoc (c : Comment.t) (n : nat) (l : list Comment.t) :
  (repeat c n ++ c :: l = c :: repeat c n ++ l)%list.
Proof. induction n as [|n IH]; simpl; [reflexivity|]. rewrite IH. reflexivity. Qed.

(** X6.  A comment-added message is prepended once by every registered
    handler: after the delivery the list begins with as many copies of the
    comment as there are handlers. *)
Theorem X6_comment_prepended_per_handler (m : Message.t) (c : Comment.t)
  (s : State) :
  Message.data m = CommentAdded c ->
  comments (view (step' s (Deliver m)))
  = (repeat c (List.length (handlers s)) ++ comments (view s))%list.
Proof.
  intros Hd. unfold step. rewrite view_commit. simpl. unfold deliver.
  generalize (handlers s) as l. intros l. revert s.
  induction l as [|u l IH]; intros s; simpl; trivial.
  rewrite IH. unfold onMessage. rewrite Hd. simpl.
  rewrite repeat_snoc. reflexivity.
Qed.

(** ** The comment list *)

Lemma fold_keeps {A B : Type} (g : State -> B) (f : State -> A -> State)
  (l : list A) :
  (forall x a, g (f x a) = g x) ->
  forall s, g (fold_left f l s) = g s.
Proof.
  intros Hf. induction l as [|a l IH]; intros s; simpl; trivial.
  rewrite IH. apply Hf.
Qed.

Lemma view_restoreCaret (html : string) (k : nat) (s : State) :
  view (restoreCaret parseHTML html k s) = view s.
Proof.
  unfold restoreCaret.
  destruct (selection s); trivial.
  destruct (parseHTML html); trivial.
  destruct (_ <=? _)%nat; reflexivity.
Qed.

Lemma comments_saveDocument (cl : Closure.t) (s : State) :
  comments (view (saveDocument documentId cl s)) = comments (view s).
Proof.
  unfold saveDocument.
  destruct (Closure.user cl); [destruct (Closure.isSaving cl)|]; reflexivity.
Qed.

Lemma comments_elapse (ms : nat) (s : State) :
  comments (view (elapse documentId ms s)) = comments (view s).
Proof.
  unfold elapse. simpl.
  rewrite (fold_keeps (fun x => comments (view x))); trivial.
  intros x t. unfold fire. rewrite view_commit, comments_saveDocument.
  reflexivity.
Qed.

Lemma comments_onMessage_other (u : User.t) (m : Message.t) (s : State) :
  (forall c, Message.data m <> CommentAdded c) ->
  comments (view (match onMessage parseHTML u m s with
                  | Normal s' => s'
                  | Throw exn s' => emit (Uncaught exn) s'
                  end)) = comments (view s).
Proof.
  intros Hd. unfold onMessage.
  destruct (Message.data m) as [c b|t b|c].
  - destruct (negb _); trivial.
    destruct (editorRef s); trivial.
    destruct (truthy c); trivial.
    unfold applyRemoteContent.
    destruct (selection s); trivial; rewrite view_restoreCaret; reflexivity.
  - destruct (negb _); reflexivity.
  - exfalso. exact (Hd c eq_refl).
Qed.

Lemma comments_onMessage (u : User.t) (m : Message.t) (s : State) :
  exists l,
    comments (view (match onMessage parseHTML u m s with
                    | Normal s' => s'
                    | Throw exn s' => emit (Uncaught exn) s'
                    end)) = (l ++ comments (view s))%list.
Proof.
  destruct (Message.data m) as [c b|t b|c] eqn:Hd.
  - exists []. apply comments_onMessage_other. intros c0. congruence.
  - exists []. apply comments_onMessage_other. intros c0. congruence.
  - exists [c]. unfold onMessage. rewrite Hd. reflexivity.
Qed.

Lemma comments_resume (t : Task) (r : Response) (s s' : State) :
  resume documentId t r s = Some s' ->
  (forall cs, r <> FulfilledComments cs) ->
  exists l, comments (view s') = (l ++ comments (view s))%list.
Proof.
  intros E Hr.
  destruct t; simpl in E;
    [ unfold loadDocumentResume in E; destruct r as [|[|doc docs]| |]
    | unfold loadCommentsResume in E; destruct r
    | unfold setupRealtimeResume in E; destruct r
    | unfold saveUpsertResume in E; destruct r
    | unfold savePublishResume in E; destruct r
    | unfold titleUpsertResume in E; destruct r
    | unfold titlePublishResume in E; destruct r
    | unfold commentCreateResume in E; destruct r
    | unfold commentPublishResume in E; destruct r ];
    inversion E; subst; clear E;
    try (exfalso; eapply Hr; reflexivity);
    try (exists []; simpl; try destruct (editorRef s); reflexivity);
    try (eexists [_]; reflexivity).
Qed.

(** X8.  The comment list changes only when a comment arrives or a call
    settles: edits, timers, title and selection events, sign-in and
    sign-out, presence and the other messages leave it as it is, so the
    offsets of a comment are never touched.  And short of the answer of the
    comment load, which replaces the list, every event keeps the list as a
    suffix: comments are only ever put in front. *)
Theorem X8_comments_only_grow (s : State) (e : Event) :
  (touchesComments e = false ->
   comments (view (step' s e)) = comments (view s))
  /\ ((forall id cs, e <> Settle id (FulfilledComments cs)) ->
      exists l, comments (view (step' s e)) = (l ++ comments (view s))%list).
Proof.
  assert (Quiet : touchesComments e = false ->
                  comments (view (step' s e)) = comments (view s)).
  { intros Ht. unfold step. rewrite view_commit.
    destruct e; simpl in *; try discriminate; trivial.
    - destruct (editorRef s); reflexivity.
    - unfold handleTitleSave. simpl. destruct (user (view s)); reflexivity.
    - unfold handleTextSelection. simpl.
      destruct sel; [|destruct (truthy (trim text))..]; reflexivity.
    - unfold addComment.
      destruct (user (view s)); trivial.
      destruct (negb _); trivial.
      destruct (selection s); trivial.
      destruct answer; trivial.
      destruct (negb _); reflexivity.
    - apply comments_elapse.
    - unfold deliver.
      apply (fold_keeps (fun x => comments (view x))).
      intros x a. apply comments_onMessage_other.
      intros c Hc. rewrite Hc in Ht. discriminate.
    - unfold presence.
      apply (fold_keeps (fun x => comments (view x))). reflexivity. }
  split; [exact Quiet|].
  intros Hload.
  destruct (touchesComments e) eqn:Ht;
    [|exists []; apply Quiet; reflexivity].
  unfold step. rewrite view_commit.
  destruct e; simpl in Ht; try discriminate; simpl.
  - unfold settle. destruct (findTask task (tasks s)) as [t|];
      [|exists []; reflexivity].
    destruct (resume documentId t r _) as [s'|] eqn:E; [|exists []; reflexivity].
    apply comments_resume in E; [exact E|].
    intros cs Hcs. apply (Hload task cs). congruence.
  - unfold deliver. clear Quiet. generalize (handlers s) as l. intros l.
    revert s.
    induction l as [|u l IH]; intros s; simpl.
    + exists []. reflexivity.
    + destruct (comments_onMessage u m s) as [l1 E1].
      destruct (IH (match onMessage parseHTML u m s with
                    | Normal s' => s'
                    | Throw exn s' => emit (Uncaught exn) s'
                    end)) as [l2 E2].
      exists (l2 ++ l1)%list. rewrite E2, E1, app_assoc. reflexivity.
Qed.

(** ** Selection and comments *)






(** X10.  The comment that [addComment] sends to the store has no author
    line, so the sidebar names it "Anonymous"; the copy kept in the list and
    published carries the author's email, and the sidebar names it as the
    author's presence entry does. *)
Theorem X10_author_line_is_not_stored (s : State) (answer : option string)
  (c : Comment.t) (u : User.t) :
  commentAuthorName (Comment.withAuthor c u) = displayNameOf u
  /\ forall stored,
       In (CommentsCreate stored)
         (newEffects s (addComment documentId answer s)) ->
       Comment.user stored = None /\ commentAuthorName stored = "Anonymous".
Proof using.
  split; [reflexivity|].
  intros stored Hin.
  assert (Same : newEffects s s = []).
  { unfold newEffects. apply skipn_all. }
  unfold addComment in Hin.
  destruct (user (view s)); [|rewrite Same in Hin; destruct Hin].
  destruct (negb _); [rewrite Same in Hin; destruct Hin|].
  destruct (selection s); try (rewrite Same in Hin; destruct Hin).
  destruct answer as [body|]; [|rewrite Same in Hin; destruct Hin].
  destruct (negb _); [rewrite Same in Hin; destruct Hin|].
  erewrite newEffects_app in Hin; [|reflexivity].
  destruct Hin as [Hin|[]]. inversion Hin. split; reflexivity.
Qed.

(** ** Remote content at the edges *)

Lemma deliver_unchanged (m : Message.t) (s : State) :
  (forall u x, editorRef x = editorRef s ->
               onMessage parseHTML u m x = Normal x) ->
  deliver parseHTML m s = s.
Proof.
  intros Hn. unfold deliver. generalize (handlers s) as l.
  induction l as [|u l IH]; simpl; trivial.
  rewrite Hn; trivial.
Qed.

(** X11.  A content-update that carries empty content, or that arrives
    while the editor is not on the page (no user, or still loading), leaves
    the whole state as it is, whoever sent it. *)
Theorem X11_update_without_content_or_editor (s : State) (m : Message.t)
  (c sender : string) :
  reachable' s ->
  Message.data m = ContentUpdate c sender ->
  c = "" \/ user (view s) = None \/ isLoading (view s) = true ->
  step' s (Deliver m) = s.
Proof.
  intros Hreach Hd Hcase.
  pose proof (Inv_reachable documentId parseHTML s Hreach) as H.
  unfold step, handle.
  rewrite deliver_unchanged; [apply (commit_same documentId s); trivial|].
  intros u x Hx. unfold onMessage. rewrite Hd.
  destruct (negb _); trivial.
  destruct Hcase as [Hc|Hcase].
  - subst c. destruct (editorRef x); reflexivity.
  - assert (He : editorRef s = None).
    { apply (inv_editor s H). unfold editorShown.
      destruct Hcase as [Hu|Hl]; [rewrite Hu; apply andb_false_r|].
      rewrite Hl. reflexivity. }
    rewrite Hx, He. reflexivity.
Qed.

(** X12.  A content-update of another sender that arrives while the window's
    selection has no range is not applied: [getRangeAt(0)] throws before
    the surface is touched, the exception leaves the handler, and content,
    surface and selection stay as they were. *)
Theorem X12_update_without_range_is_lost (u : User.t) (m : Message.t)
  (s : State) (c sender : string) :
  Message.data m = ContentUpdate c sender ->
  Message.userId m <> User.id u ->
  editorRef s <> None ->
  c <> "" ->
  selection s = SelEmpty ->
  onMessage parseHTML u m s = Throw "IndexSizeError" s.
Proof using.
  intros Hd Hid He Hc Hsel. unfold onMessage. rewrite Hd.
  apply String.eqb_neq in Hid. rewrite Hid. simpl.
  destruct (editorRef s); [|congruence].
  apply truthy_true in Hc. rewrite Hc.
  unfold applyRemoteContent. rewrite Hsel. reflexivity.
Qed.

(** ** Title *)

(** X13.  A title commit by a signed-in user ends the editing, sends one
    upsert with the title and without content, and does not set
    [isSaving].  When the upsert succeeds the title is published once, with
    the user as sender; when it fails only the console hears of it.  A peer
    that receives the message shows that title; the user's own handler
    ignores it. *)
Theorem X13_title_commit_round_trip (s : State) (u : User.t) :
  reachable' s ->
  user (view s) = Some u ->
  let title := documentTitle (view s) in
  let message := Message.mk (User.id u) (TitleUpdate title (User.id u)) in
  let s1 := step' s TitleCommit in
  isEditing (view s1) = false
  /\ isSaving (view s1) = isSaving (view s)
  /\ newEffects s s1
     = [DocumentsUpsert
          (Document.mk documentId (Some title) None (User.id u) (now s))]
  /\ newEffects s1 (step' s1 (Settle (nextId s) Fulfilled))
     = [Publish (topic documentId) "title-update"
          (TitleUpdate title (User.id u))]
  /\ newEffects s1 (step' s1 (Settle (nextId s) Rejected))
     = [ConsoleError "Failed to save title:"]
  /\ (forall peer x,
        User.id peer <> User.id u ->
        onMessage parseHTML peer message x = Normal (setDocumentTitle title x))
  /\ forall x, onMessage parseHTML u message x = Normal x.
Proof.
  intros Hreach Hu title message s1.
  pose proof (Inv_reachable documentId parseHTML s Hreach) as H.
  assert (E1 : s1 = await (TitleUpsert title u)
                      (DocumentsUpsert
                         (Document.mk documentId (Some title) None (User.id u)
                            (now s)))
                      (setIsEditing false s)).
  { unfold s1, step, handle, handleTitleSave. simpl. rewrite Hu.
    apply (commit_same documentId s); trivial. }
  assert (H1 : Inv s1) by (apply Inv_step, H).
  destruct (findTask_fresh (tasks s) (nextId s) (TitleUpsert title u)
              (core_ids s (inv_core s H))) as [F1 D1].
  assert (F1' : findTask (nextId s) (tasks s1) = Some (TitleUpsert title u))
    by (rewrite E1; exact F1).
  assert (V1 : isEditing (view s1) = false /\ isSaving (view s1) = isSaving (view s)
               /\ log s1
                  = (log s ++ [DocumentsUpsert
                                 (Document.mk documentId (Some title) None
                                    (User.id u) (now s))])%list)
    by (rewrite E1; repeat split; reflexivity).
  destruct V1 as (V1 & V2 & L1).
  clear E1 D1 F1. clearbody s1.
  split; [exact V1|]. split; [exact V2|].
  split; [apply newEffects_app, L1|].
  split.
  { rewrite (step_settle documentId parseHTML s1 _ (nextId s) _ Fulfilled H1 F1'
               eq_refl); trivial.
    apply newEffects_app. reflexivity. }
  split.
  { rewrite (step_settle documentId parseHTML s1 _ (nextId s) _ Rejected H1 F1'
               eq_refl); trivial.
    apply newEffects_app. reflexivity. }
  split.
  - intros peer x Hne. unfold onMessage, message. simpl.
    apply not_eq_sym, String.eqb_neq in Hne. rewrite Hne. reflexivity.
  - intros x. unfold onMessage, message. simpl.
    rewrite String.eqb_refl. reflexivity.
Qed.

(** ** The header *)


(** ** Sharing *)

(** X17.  [shareDocument] calls the store exactly when an email has been
    typed and a user is signed in, and then grants the typed email the
    selected permission on this document.  After a share that succeeded the
    dialog is closed and the email cleared, so a further click sends
    nothing; after one that failed the dialog is as it was, and a further
    click sends the same grant again. *)
Theorem X17_share_once (user0 : option User.t) (clock later : nat)
  (d : ShareDialog.t) :
  (shareDocument documentId user0 clock d = None
   <-> ShareDialog.shareEmail d = "" \/ user0 = None)
  /\ (forall grant,
        shareDocument documentId user0 clock d = Some grant ->
        Collaborator.documentId grant = documentId
        /\ Collaborator.userId grant = ShareDialog.shareEmail d
        /\ Collaborator.permission grant = ShareDialog.sharePermission d
        /\ Collaborator.id grant = "collab-" ++ decimal clock)
  /\ ShareDialog.isShareDialogOpen (fst (shareDocumentResume Fulfilled d)) = false
  /\ shareDocument documentId user0 later (fst (shareDocumentResume Fulfilled d))
     = None
  /\ shareDocumentResume Rejected d = (d, [ConsoleError "Failed to share document:"])
  /\ shareDocument documentId user0 later (fst (shareDocumentResume Rejected d))
     = shareDocument documentId user0 later d.
Proof using.
  unfold shareDocument. split.
  - destruct (truthy (ShareDialog.shareEmail d)) eqn:T; simpl.
    + apply truthy_true in T. destruct user0; split; intros G;
        try discriminate; auto; destruct G; congruence.
    + apply truthy_false in T. split; auto.
  - split.
    + intros grant G.
      destruct (negb _); [discriminate|].
      destruct user0; [|discriminate].
      inversion G. repeat split; reflexivity.
    + repeat split; reflexivity.
Qed.

(** ** Content that comes from elsewhere is written back *)

(** A commit that finds new, non-empty content in an authenticated, loaded
    render replaces the timer and changes nothing else. *)
Lemma commit_new_content (s1 : State) (u : User.t) (old : string) :
  Core s1 ->
  rendered s1 = mkDeps (Some u) old false ->
  user (view s1) = Some u -> isLoading (view s1) = false ->
  editorRef s1 <> None ->
  documentContent (view s1) <> old -> documentContent (view s1) <> "" ->
  view (commit' s1) = view s1
  /\ log (commit' s1) = log s1
  /\ tasks (commit' s1) = tasks s1
  /\ now (commit' s1) = now s1
  /\ timers (commit' s1)
     = [Timer.mk (nextId s1) (now s1 + 1000) (closureOf s1)].
Proof.
  intros Hc Hr Hu Hl He Hne Hfull.
  pose proof (cleared_timers s1 Hc) as Hclr.
  apply not_eq_sym, String.eqb_neq in Hne. apply truthy_true in Hfull.
  destruct s1 as [v rd ed sel ref tm nx tk hd nw lg]. destruct v.
  simpl in *. subst.
  destruct ed as [html|]; [|congruence].
  unfold commit, attachRefs, editorShown. simpl.
  rewrite User_eqb_refl, Hne. simpl.
  unfold autoSaveEffect. simpl. rewrite Hfull. simpl.
  destruct ref; simpl in *; rewrite Hclr; repeat split; reflexivity.
Qed.

Lemma frame_restoreCaret (html : string) (k : nat) (s : State) :
  view (restoreCaret parseHTML html k s) = view s
  /\ rendered (restoreCaret parseHTML html k s) = rendered s
  /\ editorRef (restoreCaret parseHTML html k s) = editorRef s.
Proof.
  unfold restoreCaret.
  destruct (selection s); auto.
  destruct (parseHTML html); auto.
  destruct (_ <=? _)%nat; auto.
Qed.


(** X3.  The same happens when a stored document is loaded: content that is
    not empty and differs from the content in memory sets the timer, and a
    second later the session upserts the document it has just read, with
    the loaded title, under the user id of the session and not of the
    record, and then publishes it. *)
Theorem X3_loaded_document_is_written_back (s : State) (u : User.t)
  (id : nat) (doc : Document.t) (others : list Document.t) (ms : nat) :
  reachable' s ->
  findTask id (tasks s) = Some LoadDocumentList ->
  user (view s) = Some u ->
  isLoading (view s) = false ->
  isSaving (view s) = false ->
  orDefault (Document.content doc) "" <> "" ->
  orDefault (Document.content doc) "" <> documentContent (view s) ->
  1000 <= ms ->
  let s1 := step' s (Settle id (FulfilledDocs (doc :: others))) in
  documentTitle (view s1) = orDefault (Document.title doc) "Untitled document"
  /\ documentContent (view s1) = orDefault (Document.content doc) ""
  /\ flushedOnce documentId parseHTML s1 u (orDefault (Document.content doc) "")
       (step' s1 (Elapse ms)).
Proof.
  intros Hreach Hfind Hu Hl Hs Hc Hne Hms s1.
  pose proof (Inv_reachable documentId parseHTML s Hreach) as H.
  assert (H1 : Inv s1) by (apply Inv_step, H).
  destruct (editor_attached s u H Hu Hl) as [html He].
  set (c := orDefault (Document.content doc) "") in *.
  set (title := orDefault (Document.title doc) "Untitled document") in *.
  assert (Eh : handle documentId parseHTML
                 (Settle id (FulfilledDocs (doc :: others))) s
               = setInnerHTML
                   (orDefault (Document.content doc)
                      "<div>Start typing your document...</div>")
                   (setDocumentContent c
                      (setDocumentTitle title
                         (setTasks (dropTask id (tasks s)) s)))).
  { simpl. unfold settle. rewrite Hfind. simpl. rewrite He. reflexivity. }
  pose proof (Core_handle documentId parseHTML
                (Settle id (FulfilledDocs (doc :: others))) s (inv_core s H))
    as Hcore.
  destruct (commit_new_content
              (handle documentId parseHTML
                 (Settle id (FulfilledDocs (doc :: others))) s) u
              (documentContent (view s)))
    as (V & L & K & N & T); trivial;
    try (rewrite Eh; simpl; trivial; congruence).
  { rewrite Eh. simpl. rewrite (inv_rendered s H). unfold depsOf.
    rewrite Hu, Hl. reflexivity. }
  fold (step' s (Settle id (FulfilledDocs (doc :: others)))) in V, L, K, N, T.
  fold s1 in V, L, K, N, T. clearbody s1.
  assert (Vt : documentTitle (view s1) = title) by (rewrite V, Eh; reflexivity).
  assert (Vc : documentContent (view s1) = c) by (rewrite V, Eh; reflexivity).
  split; [exact Vt|]. split; [exact Vc|].
  apply (flush_of_pending documentId parseHTML s1 s1 u _ c ms H1 eq_refl T).
  - unfold closureOf. rewrite Eh. simpl. rewrite Hu, Hs.
    f_equal. rewrite Vt. reflexivity.
  - simpl in N |- *. rewrite N. lia.
  - simpl in N |- *. rewrite N. lia.
Qed.

(** ** A pending flush and a title commit *)

(** X4.  The pending flush carries the title of the render that set its
    timer.  When the title is changed and committed after the last edit, the
    store is first sent the new title, and then, when the timer fires, an
    upsert with the content and the title as it was before. *)
Theorem X4_pending_flush_reverts_title (s : State) (t : Timer.t)
  (author user1 : User.t) (value : string) (ms : nat) :
  reachable' s ->
  timers s = [t] ->
  Closure.user (Timer.closure t) = Some author ->
  Closure.isSaving (Timer.closure t) = false ->
  user (view s) = Some user1 ->
  Timer.deadline t <= now s + ms ->
  newEffects s (run' [TitleInput value; TitleCommit; Elapse ms] s)
  = [DocumentsUpsert
       (Document.mk documentId (Some value) None (User.id user1) (now s));
     DocumentsUpsert
       (Document.mk documentId
          (Some (Closure.documentTitle (Timer.closure t)))
          (Some (Closure.documentContent (Timer.closure t)))
          (User.id author) (Nat.max (now s) (Timer.deadline t)))].
Proof.
  intros Hreach Ht Hu Hs Hu1 Hdue.
  pose proof (Inv_reachable documentId parseHTML s Hreach) as H.
  assert (E1 : step' s (TitleInput value) = setDocumentTitle value s)
    by (unfold step, handle; apply (commit_same documentId s); trivial).
  assert (H1 : Inv (step' s (TitleInput value))) by (apply Inv_step, H).
  assert (E2 : step' (step' s (TitleInput value)) TitleCommit
               = await (TitleUpsert value user1)
                   (DocumentsUpsert
                      (Document.mk documentId (Some value) None
                         (User.id user1) (now s)))
                   (setIsEditing false (setDocumentTitle value s))).
  { set (s1 := step' s (TitleInput value)) in *. clearbody s1.
    unfold step, handle, handleTitleSave. simpl.
    replace (user (view s1)) with (Some user1) by (rewrite E1; auto).
    rewrite (commit_same documentId s1); trivial.
    rewrite E1. reflexivity. }
  assert (H2 : Inv (step' (step' s (TitleInput value)) TitleCommit))
    by (apply Inv_step, H1).
  unfold run. simpl.
  set (s2 := step' (step' s (TitleInput value)) TitleCommit) in *.
  clearbody s2.
  rewrite (step_elapse_fire documentId parseHTML s2 t author ms H2);
    trivial; try (rewrite E2; simpl; trivial).
  apply newEffects_app. simpl. rewrite <- app_assoc. reflexivity.
Qed.

(** ** Comments that arrive while the list is loading *)

Lemma frame_onMessage (u : User.t) (m : Message.t) (s : State) :
  let s' := match onMessage parseHTML u m s with
            | Normal x => x
            | Throw exn x => emit (Uncaught exn) x
            end in
  rendered s' = rendered s
  /\ user (view s') = user (view s)
  /\ isLoading (view s') = isLoading (view s)
  /\ tasks s' = tasks s.
Proof.
  unfold onMessage.
  destruct (Message.data m) as [c b|t b|c]; simpl; auto.
  - destruct (negb _); auto.
    destruct (editorRef s); auto.
    destruct (truthy c); auto.
    unfold applyRemoteContent.
    destruct (selection s); simpl; auto;
      match goal with
      | |- context [restoreCaret parseHTML ?h ?k ?x] =>
          destruct (frame_restoreCaret h k x) as (Fv & Fr & _);
          pose proof (quiet_restoreCaret documentId parseHTML h k x)
            as (_ & _ & Fk & _)
      end;
      rewrite Fv, Fr, Fk; auto.
  - destruct (negb _); auto.
Qed.

Lemma tasks_commit (s : State) :
  optionUser_eqb (depUser (rendered s)) (user (view s)) = true ->
  tasks (commit' s) = tasks s.
Proof.
  intros Hu. unfold commit. rewrite view_attachRefs, Hu. simpl.
  assert (A : forall x, tasks (autoSaveEffect x) = tasks x).
  { intros x. unfold autoSaveEffect.
    destruct (user (view x)); trivial.
    destruct (truthy _ && negb _); trivial.
    destruct (saveTimeoutRef x); reflexivity. }
  assert (B : tasks (attachRefs s) = tasks s).
  { unfold attachRefs.
    destruct (editorShown s); [destruct (editorRef s)|]; reflexivity. }
  destruct (_ || _); simpl; rewrite ?A; exact B.
Qed.

(** X5.  The answer of the comment load replaces the list.  A comment that
    a peer announces while the load is in flight is in the list for a
    moment and gone when the load settles, unless the store's answer has
    it. *)
Theorem X5_load_replaces_live_comments (s : State) (id : nat)
  (m : Message.t) (cs : list Comment.t) :
  reachable' s ->
  findTask id (tasks s) = Some LoadCommentsList ->
  comments (view (run' [Deliver m; Settle id (FulfilledComments cs)] s)) = cs.
Proof.
  intros Hreach Hfind.
  pose proof (Inv_reachable documentId parseHTML s Hreach) as H.
  assert (F : rendered (deliver parseHTML m s) = rendered s
              /\ user (view (deliver parseHTML m s)) = user (view s)
              /\ tasks (deliver parseHTML m s) = tasks s).
  { unfold deliver. generalize (handlers s) as l. intros l.
    assert (G : forall x,
               rendered (fold_left
                           (fun s0 u => match onMessage parseHTML u m s0 with
                                        | Normal s' => s'
                                        | Throw exn s' => emit (Uncaught exn) s'
                                        end) l x) = rendered x
               /\ user (view (fold_left
                           (fun s0 u => match onMessage parseHTML u m s0 with
                                        | Normal s' => s'
                                        | Throw exn s' => emit (Uncaught exn) s'
                                        end) l x)) = user (view x)
               /\ tasks (fold_left
                           (fun s0 u => match onMessage parseHTML u m s0 with
                                        | Normal s' => s'
                                        | Throw exn s' => emit (Uncaught exn) s'
                                        end) l x) = tasks x).
    { induction l as [|u l IH]; intros x; simpl; auto.
      destruct (IH (match onMessage parseHTML u m x with
                    | Normal s' => s'
                    | Throw exn s' => emit (Uncaught exn) s'
                    end)) as (A & B & C).
      destruct (frame_onMessage u m x) as (A' & B' & _ & C').
      rewrite A, B, C. auto. }
    apply G. }
  destruct F as (Fr & Fu & Fk).
  assert (K1 : tasks (step' s (Deliver m)) = tasks s).
  { unfold step, handle. rewrite tasks_commit; trivial.
    rewrite Fr, Fu, (inv_rendered s H). apply optionUser_eqb_refl. }
  unfold run. simpl fold_left.
  set (s1 := step' s (Deliver m)) in *. clearbody s1.
  unfold step at 1. rewrite view_commit. simpl. unfold settle.
  rewrite K1, Hfind. reflexivity.
Qed.

(** ** A render without a user *)

Lemma footprint_step (s s' : State) :
  Inv s -> footprint s' = footprint s ->
  log (commit' s') = log s /\ tasks (commit' s') = tasks s
  /\ timers (commit' s') = timers s.
Proof.
  intros H F.
  assert (Fr : rendered s' = rendered s)
    by exact (f_equal (fun p => fst (fst (fst (fst (fst p))))) F).
  assert (Fd : depsOf s' = depsOf s)
    by exact (f_equal (fun p => snd (fst (fst (fst (fst p))))) F).
  assert (Fe : editorRef s' = editorRef s)
    by exact (f_equal (fun p => snd (fst (fst (fst p)))) F).
  assert (Fl : log s' = log s)
    by exact (f_equal (fun p => snd (fst (fst p))) F).
  assert (Fk : tasks s' = tasks s)
    by exact (f_equal (fun p => snd (fst p)) F).
  assert (Ft : timers s' = timers s)
    by exact (f_equal (fun p => snd p) F).
  rewrite (commit_same documentId s s' H Fr Fd Fe). auto.
Qed.

Lemma footprint_onMessage_unmounted (u : User.t) (m : Message.t) (x : State) :
  editorRef x = None ->
  exists x', onMessage parseHTML u m x = Normal x'
             /\ footprint x' = footprint x.
Proof.
  intros He. unfold onMessage.
  destruct (Message.data m) as [c b|t b|c].
  - destruct (negb _); [rewrite He|]; eauto.
  - destruct (negb _); eauto.
  - eauto.
Qed.

(** X18.  In a reachable state without a user, the handlers that run in the
    current render (edit, title edit and commit, selection, click on
    Comment, channel message, presence) make no call, suspend nothing and
    set no timer. *)
Theorem X18_render_without_user_is_inert (s : State) (e : Event) :
  reachable' s ->
  user (view s) = None ->
  handledNow e = true ->
  log (step' s e) = log s
  /\ tasks (step' s e) = tasks s
  /\ timers (step' s e) = timers s.
Proof.
  intros Hreach Hu He.
  pose proof (Inv_reachable documentId parseHTML s Hreach) as H.
  assert (Hed : editorRef s = None).
  { apply (inv_editor s H). unfold editorShown. rewrite Hu. apply andb_false_r. }
  unfold step. apply footprint_step; trivial.
  destruct e; simpl in He; try discriminate; simpl.
  - rewrite Hed. reflexivity.
  - reflexivity.
  - reflexivity.
  - unfold handleTitleSave. simpl. rewrite Hu. reflexivity.
  - unfold handleTextSelection. simpl.
    destruct sel; [|destruct (truthy (trim text))..]; reflexivity.
  - unfold addComment. rewrite Hu. reflexivity.
  - unfold deliver. generalize (handlers s) as l. intros l.
    assert (G : forall x, editorRef x = None ->
                          footprint
                            (fold_left
                               (fun s0 u =>
                                  match onMessage parseHTML u m s0 with
                                  | Normal s' => s'
                                  | Throw exn s' => emit (Uncaught exn) s'
                                  end) l x) = footprint x).
    { induction l as [|u l IH]; intros x Hx; simpl; trivial.
      destruct (footprint_onMessage_unmounted u m x Hx) as (x' & E & F).
      rewrite E, IH, F; trivial.
      rewrite (f_equal (fun p => snd (fst (fst (fst p)))) F : editorRef x' = editorRef x).
      exact Hx. }
    apply G, Hed.
  - unfold presence. apply (fold_keeps footprint). reflexivity.
Qed.

(** ** Store first, channel second *)

Lemma logged_app (l l' : list Effect) (t : Task) :
  logged l t -> logged (l ++ l') t.
Proof.
  destruct t; simpl; trivial.
  - intros (d & I & E). exists d. split; [apply in_or_app|]; auto.
  - intros (d & I & E). exists d. split; [apply in_or_app|]; auto.
  - intros (I & E). split; [apply in_or_app|]; auto.
Qed.

Lemma persistedFirst_snoc (l : list Effect) (e : Effect) :
  persistedFirst l -> backedBy l e -> persistedFirst (l ++ [e]).
Proof.
  intros P B before x after E.
  induction after as [|a after' _] using rev_ind.
  - apply app_inj_tail in E. destruct E as [-> ->]. exact B.
  - change (before ++ x :: after' ++ [a])%list
      with (before ++ (x :: after') ++ [a])%list in E.
    rewrite app_assoc in E. apply app_inj_tail in E. destruct E as [E _].
    exact (P before x after' E).
Qed.

Lemma Ledger_frame (s s' : State) :
  Ledger s ->
  incl (tasks s') (tasks s) ->
  log s' = log s ->
  lastSaved (view s') = lastSaved (view s) ->
  now s <= now s' ->
  Ledger s'.
Proof.
  intros [T L S] Ht Hl Hv Hn. split.
  - intros i t I. rewrite Hl. exact (T i t (Ht _ I)).
  - rewrite Hl. exact L.
  - intros t E. rewrite Hv in E. destruct (S t E) as (Le & d & I & C).
    split; [lia|]. exists d. rewrite Hl. auto.
Qed.

Lemma Ledger_emit (e : Effect) (s : State) :
  Ledger s -> backedBy (log s) e -> Ledger (emit e s).
Proof.
  intros [T L S] B. split; simpl.
  - intros i t I. apply logged_app. exact (T i t I).
  - apply persistedFirst_snoc; trivial.
  - intros t E. destruct (S t E) as (Le & d & I & C).
    split; trivial. exists d. split; [apply in_or_app|]; auto.
Qed.

Lemma Ledger_await (t : Task) (call : Effect) (s : State) :
  Ledger s ->
  backedBy (log s) call ->
  logged (log s ++ [call]) t ->
  Ledger (await t call s).
Proof.
  intros [T L S] B G. split; simpl.
  - intros i x I. apply in_app_or in I. destruct I as [I|[I|[]]].
    + apply logged_app. exact (T i x I).
    + inversion I. subst. exact G.
  - apply persistedFirst_snoc; trivial.
  - intros x E. destruct (S x E) as (Le & d & I & C).
    split; trivial. exists d. split; [apply in_or_app|]; auto.
Qed.

Ltac ledger_frame H :=
  refine (Ledger_frame _ _ H _ _ _ _); simpl;
  [apply incl_refl || (intros ? ?; eauto using dropTask_incl)
  | reflexivity | reflexivity | lia].

Lemma Ledger_saveDocument (cl : Closure.t) (s : State) :
  Ledger s -> Ledger (saveDocument documentId cl s).
Proof.
  intros H. unfold saveDocument.
  destruct (Closure.user cl) as [u|]; trivial.
  destruct (Closure.isSaving cl); trivial.
  apply Ledger_await; simpl; trivial.
  - ledger_frame H.
  - eexists. split; [apply in_or_app; right; left; reflexivity|]. auto.
Qed.

Lemma Ledger_loadEffect (s : State) :
  Ledger s -> Ledger (loadEffect documentId s).
Proof.
  intros H. unfold loadEffect.
  destruct (user (view s)) as [u|]; trivial.
  destruct (truthy documentId); trivial.
  unfold setupRealtime, loadComments, loadDocument.
  repeat (apply Ledger_await; simpl; trivial).
Qed.

Lemma Ledger_autoSaveEffect (s : State) :
  Ledger s -> Ledger (autoSaveEffect s).
Proof.
  intros H. unfold autoSaveEffect.
  destruct (user (view s)); trivial.
  destruct (truthy _ && negb _); trivial.
  destruct (saveTimeoutRef s); ledger_frame H.
Qed.

Lemma Ledger_commit (s : State) : Ledger s -> Ledger (commit' s).
Proof.
  intros H. unfold commit. cbv zeta.
  assert (A : Ledger (attachRefs s)).
  { unfold attachRefs. destruct (editorShown s); [destruct (editorRef s)|];
      trivial; ledger_frame H. }
  revert A. generalize (attachRefs s). intros a A.
  match goal with
  | |- context [if ?b then loadEffect documentId a else a] =>
      assert (B : Ledger (if b then loadEffect documentId a else a))
        by (destruct b; auto using Ledger_loadEffect);
      revert B; generalize (if b then loadEffect documentId a else a)
  end.
  intros b B.
  match goal with
  | |- context [if ?c then autoSaveEffect b else b] =>
      assert (C : Ledger (if c then autoSaveEffect b else b))
        by (destruct c; auto using Ledger_autoSaveEffect);
      revert C; generalize (if c then autoSaveEffect b else b)
  end.
  intros c C. ledger_frame C.
Qed.

Lemma now_commit (s : State) : now (commit' s) = now s.
Proof.
  unfold commit. cbv zeta. simpl.
  assert (L : forall x, now (loadEffect documentId x) = now x).
  { intros x. unfold loadEffect. destruct (user (view x)) as [u|]; trivial.
    destruct (truthy documentId); trivial. }
  assert (A : forall x, now (autoSaveEffect x) = now x).
  { intros x. unfold autoSaveEffect. destruct (user (view x)); trivial.
    destruct (truthy _ && negb _); trivial.
    destruct (saveTimeoutRef x); reflexivity. }
  assert (R : now (attachRefs s) = now s).
  { unfold attachRefs. destruct (editorShown s); [destruct (editorRef s)|];
      reflexivity. }
  repeat match goal with
         | |- context [if ?b then _ else _] => destruct b
         end;
    rewrite ?A, ?L, ?R; reflexivity.
Qed.

Lemma now_saveDocument (cl : Closure.t) (s : State) :
  now (saveDocument documentId cl s) = now s.
Proof.
  unfold saveDocument. destruct (Closure.user cl); trivial.
  destruct (Closure.isSaving cl); reflexivity.
Qed.

Lemma Ledger_fires (target : nat) (due : list Timer.t) (s : State) :
  Ledger s ->
  now s <= target ->
  (forall t, In t due -> Timer.deadline t <= target) ->
  Ledger (fold_left (fire documentId) due s)
  /\ now (fold_left (fire documentId) due s) <= target.
Proof.
  revert s. induction due as [|t due IH]; intros s H N D; simpl; auto.
  apply IH.
  - unfold fire. apply Ledger_commit, Ledger_saveDocument. ledger_frame H.
  - unfold fire. rewrite now_commit, now_saveDocument. simpl.
    specialize (D t (or_introl eq_refl)). lia.
  - intros x I. apply D. right. exact I.
Qed.

Lemma Ledger_elapse (ms : nat) (s : State) :
  Ledger s -> Ledger (elapse documentId ms s).
Proof.
  intros H. unfold elapse. cbv zeta.
  match goal with
  | |- Ledger (setNow ?n (fold_left _ ?due ?x)) =>
      destruct (Ledger_fires n due x) as [F N]
  end.
  - ledger_frame H.
  - simpl. lia.
  - intros t I. apply filter_In in I. destruct I as [_ I].
    unfold isDue in I. apply Nat.leb_le in I. exact I.
  - ledger_frame F.
Qed.

Lemma Ledger_resume (t : Task) (r : Response) (s x : State) :
  Ledger s ->
  logged (log s) t ->
  resume documentId t r s = Some x ->
  Ledger x.
Proof.
  intros H G E. destruct t; simpl in E.
  - unfold loadDocumentResume in E.
    destruct r as [|[|doc docs]| |]; inversion E; subst; clear E.
    + exact H.
    + simpl. destruct (editorRef s); ledger_frame H.
    + apply Ledger_emit; simpl; trivial.
  - unfold loadCommentsResume in E.
    destruct r; inversion E; subst; clear E.
    + ledger_frame H.
    + apply Ledger_emit; simpl; trivial.
  - unfold setupRealtimeResume in E.
    destruct r; inversion E; subst; clear E.
    + ledger_frame H.
    + apply Ledger_emit; simpl; trivial.
  - assert (Ok : Ledger
                   (await SavePublish
                      (Publish (topic documentId) "content-update"
                         (ContentUpdate (Closure.documentContent cl) (User.id u)))
                      (setLastSaved (Some (now s)) s))).
    { simpl in G. destruct G as (d & I & C & U).
      apply Ledger_await; simpl; trivial.
      - destruct H as [T L S]. split; simpl; trivial.
        intros t0 E0. inversion E0. subst. split; [lia|].
        exists d. split; trivial. rewrite C. discriminate.
      - exists d. auto. }
    assert (No : Ledger
                   (setIsSaving false
                      (emit (ConsoleError "Failed to save document:") s))).
    { assert (M : Ledger (emit (ConsoleError "Failed to save document:") s))
        by (apply Ledger_emit; simpl; trivial).
      ledger_frame M. }
    unfold saveUpsertResume in E.
    destruct r; inversion E; subst; clear E; assumption.
  - unfold savePublishResume in E.
    assert (No : Ledger
                   (setIsSaving false
                      (emit (ConsoleError "Failed to save document:") s))).
    { assert (M : Ledger (emit (ConsoleError "Failed to save document:") s))
        by (apply Ledger_emit; simpl; trivial).
      ledger_frame M. }
    destruct r; inversion E; subst; clear E; trivial; ledger_frame H.
  - unfold titleUpsertResume in E.
    assert (Ok : Ledger
                   (await TitlePublish
                      (Publish (topic documentId) "title-update"
                         (TitleUpdate title (User.id u))) s)).
    { simpl in G. destruct G as (d & I & C & U).
      apply Ledger_await; simpl; trivial. exists d. auto. }
    destruct r; inversion E; subst; clear E; trivial.
    apply Ledger_emit; simpl; trivial.
  - unfold titlePublishResume in E.
    destruct r; inversion E; subst; clear E; trivial.
    apply Ledger_emit; simpl; trivial.
  - unfold commentCreateResume in E.
    assert (Ok : Ledger
                   (await CommentPublish
                      (Publish (topic documentId) "comment-added"
                         (CommentAdded (Comment.withAuthor c u)))
                      (setComments
                         (Comment.withAuthor c u :: comments (view s)) s))).
    { simpl in G. destruct G as (I & U).
      apply Ledger_await; simpl; trivial.
      - ledger_frame H.
      - exists c, u. auto. }
    destruct r; inversion E; subst; clear E; trivial.
    apply Ledger_emit; simpl; trivial.
  - unfold commentPublishResume in E.
    destruct r; inversion E; subst; clear E;
      try (apply Ledger_emit; simpl; trivial); ledger_frame H.
Qed.

Lemma Ledger_onMessage (u : User.t) (m : Message.t) (s : State) :
  Ledger s ->
  Ledger match onMessage parseHTML u m s with
         | Normal s' => s'
         | Throw exn s' => emit (Uncaught exn) s'
         end.
Proof.
  intros H.
  assert (R : forall html k x, Ledger x ->
                               Ledger (restoreCaret parseHTML html k x)).
  { intros html k x Hx. unfold restoreCaret.
    destruct (selection x); trivial.
    destruct (parseHTML html); trivial.
    destruct (_ <=? _)%nat; trivial. ledger_frame Hx. }
  unfold onMessage. destruct (Message.data m) as [c b|t b|c].
  - destruct (negb _); trivial. destruct (editorRef s); trivial.
    destruct (truthy c); trivial. unfold applyRemoteContent.
    destruct (selection s) eqn:Sel.
    + apply R. unfold setInnerHTML. rewrite Sel. ledger_frame H.
    + apply Ledger_emit; simpl; trivial.
    + apply R. unfold setInnerHTML. rewrite Sel. ledger_frame H.
  - destruct (negb _); trivial. ledger_frame H.
  - ledger_frame H.
Qed.

Lemma Ledger_handle (e : Event) (s : State) :
  Ledger s -> Ledger (handle documentId parseHTML e s).
Proof.
  intros H. destruct e; simpl.
  - ledger_frame H.
  - destruct (editorRef s); trivial. ledger_frame H.
  - ledger_frame H.
  - ledger_frame H.
  - unfold handleTitleSave. simpl. destruct (user (view s)) as [u|].
    + apply Ledger_await; simpl; trivial; [ledger_frame H|].
      eexists. split; [apply in_or_app; right; left; reflexivity|]. auto.
    + ledger_frame H.
  - unfold handleTextSelection. simpl.
    destruct sel; [|destruct (truthy (trim text))..]; ledger_frame H.
  - unfold addComment. destruct (user (view s)) as [u|]; trivial.
    destruct (negb _); trivial. destruct (selection s); trivial.
    destruct answer as [a|]; trivial. destruct (negb _); trivial.
    apply Ledger_await; simpl; trivial.
    split; [apply in_or_app; right; left|]; reflexivity.
  - apply Ledger_elapse, H.
  - unfold settle. destruct (findTask task (tasks s)) as [t|] eqn:F; trivial.
    destruct (resume _ _ _ _) as [x|] eqn:E; trivial.
    refine (Ledger_resume t r _ x _ _ E).
    + ledger_frame H.
    + simpl. exact (led_tasks s H task t (findTask_In _ _ _ F)).
  - unfold deliver. generalize (handlers s). intros l. revert s H.
    induction l as [|u l IH]; intros s H; simpl; trivial.
    apply IH, Ledger_onMessage, H.
  - unfold presence. generalize (handlers s). intros l. revert s H.
    induction l as [|u l IH]; intros s H; simpl; trivial.
    apply IH. unfold onPresence. ledger_frame H.
Qed.

Lemma Ledger_reachable (s : State) : reachable' s -> Ledger s.
Proof.
  intros [es ->].
  assert (G : forall x, Ledger x -> Ledger (run' es x)).
  { induction es as [|e es IH]; intros x Hx; simpl; trivial.
    apply IH. unfold step. apply Ledger_commit, Ledger_handle, Hx. }
  apply G. split; simpl.
  - intros i t [].
  - intros before e after E. destruct before; discriminate.
  - discriminate.
Qed.

(** X14.  In every reachable state each publish on the channel comes after
    the store write it announces: a content or title update after an upsert
    of the same content or title by the same user, a comment after the
    creation of that comment without its author line. *)
Theorem X14_store_before_channel (s : State) :
  reachable' s -> persistedFirst (log s).
Proof.
  intros H. exact (led_log s (Ledger_reachable s H)).
Qed.

(** X15.  In every reachable state in which the header shows "Saved" with a
    time, no flush is in flight, the time is not later than the clock, and
    an upsert that carries content has been sent to the store. *)
Theorem X15_saved_indicator (s : State) (t : nat) :
  reachable' s ->
  saveStatus (view s) = ShowsSaved t ->
  savesInFlight s = []
  /\ t <= now s
  /\ exists d, In (DocumentsUpsert d) (log s) /\ Document.content d <> None.
Proof.
  intros H E. unfold saveStatus in E.
  destruct (isSaving (view s)) eqn:B; [discriminate|].
  destruct (lastSaved (view s)) as [t'|] eqn:L; [|discriminate].
  inversion E. subst t'. split.
  - pose proof (core_flight s (inv_core s (Inv_reachable documentId parseHTML s H)))
      as [[_ F]|[F _]]; [|congruence].
    destruct (savesInFlight s); [reflexivity|discriminate].
  - exact (led_saved s (Ledger_reachable s H) t L).
Qed.

(** ** Signing in *)

Lemma sign_in_commit (s : State) (u : User.t) :
  Inv s ->
  user (view s) = None ->
  documentId <> "" ->
  documentContent (view s) <> "" ->
  let s1 := step' s (AuthStateChanged (Some u) false) in
  view s1 = view (setIsLoading false (setUser (Some u) s))
  /\ now s1 = now s
  /\ editorRef s1 = Some placeholder
  /\ log s1
     = (log s
        ++ [DocumentsList documentId 1; CommentsList documentId;
            ChannelSubscribe (topic documentId) (User.id u)
              (CollaborativeUser.mkMetadata (displayNameOf u)
                 (orDefault (User.email u) "") (Some 0))])%list
  /\ tasks s1
     = (tasks s
        ++ [(nextId s, LoadDocumentList); (S (nextId s), LoadCommentsList);
            (S (S (nextId s)), SetupSubscribe u)])%list
  /\ timers s1
     = [Timer.mk (S (S (S (nextId s)))) (now s + 1000)
          (Closure.mk (Some u) (isSaving (view s)) (documentTitle (view s))
             (documentContent (view s)))]
  /\ handlers s1 = handlers s.
Proof.
  intros H Hu Hd Hc s1. subst s1.
  assert (He : editorRef s = None).
  { apply (inv_editor s H). unfold editorShown. rewrite Hu. apply andb_false_r. }
  pose proof (inv_rendered s H) as Hr.
  pose proof (cleared_timers s (inv_core s H)) as Hclr.
  apply truthy_true in Hd. apply truthy_true in Hc.
  destruct s as [v rd ed sel ref tm nx tk hd nw lg]. destruct v.
  unfold depsOf in Hr. simpl in *. subst.
  unfold step, commit, attachRefs, editorShown. simpl.
  unfold loadEffect. simpl. rewrite Hd. simpl.
  unfold autoSaveEffect. simpl. rewrite Hc. simpl.
  rewrite String.eqb_refl. simpl.
  unfold setTimeout, closureOf, clearTimeout, await, loadComments, loadDocument.
  destruct ref; simpl in *; rewrite Hclr; simpl;
    rewrite <- !app_assoc; repeat split; reflexivity.
Qed.

(** X19.  When a user signs in while the component holds non-empty content
    (kept from before a sign-out), the load effect lists the document and
    the comments and subscribes to the channel, in this order; the handlers
    are registered only later; the editor is mounted with the placeholder;
    and after a second without events the kept content is upserted once and
    published once under the new user's id. *)
Theorem X19_sign_in_writes_kept_content (s : State) (u : User.t) (ms : nat) :
  reachable' s ->
  user (view s) = None ->
  isSaving (view s) = false ->
  documentId <> "" ->
  documentContent (view s) <> "" ->
  1000 <= ms ->
  let s1 := step' s (AuthStateChanged (Some u) false) in
  newEffects s s1
  = [DocumentsList documentId 1; CommentsList documentId;
     ChannelSubscribe (topic documentId) (User.id u)
       (CollaborativeUser.mkMetadata (displayNameOf u)
          (orDefault (User.email u) "") (Some 0))]
  /\ handlers s1 = handlers s
  /\ editorRef s1 = Some placeholder
  /\ documentContent (view s1) = documentContent (view s)
  /\ flushedOnce documentId parseHTML s1 u (documentContent (view s))
       (step' s1 (Elapse ms)).
Proof.
  intros Hreach Hu Hs Hd Hc Hms s1.
  pose proof (Inv_reachable documentId parseHTML s Hreach) as H.
  assert (H1 : Inv s1) by (apply Inv_step, H).
  destruct (sign_in_commit s u H Hu Hd Hc) as (V & N & E & L & K & T & Hh).
  fold s1 in V, N, E, L, K, T, Hh. clearbody s1.
  split; [apply newEffects_app, L|].
  split; [exact Hh|]. split; [exact E|].
  split; [rewrite V; reflexivity|].
  apply (flush_of_pending documentId parseHTML s1 s1 u _
           (documentContent (view s)) ms H1 eq_refl T).
  - simpl. rewrite Hs, V. reflexivity.
  - simpl. rewrite N. lia.
  - simpl. rewrite N. lia.
Qed.

(** X20.  When the document list answers while the auth state is still
    loading, the content goes into the state only: no editor is mounted to
    receive it, no timer is set and nothing is sent.  The editor that mounts
    once loading ends shows the placeholder, not the loaded content. *)
Theorem X20_answer_while_loading_is_not_shown (s : State) (id : nat)
  (doc : Document.t) (others : list Document.t) :
  reachable' s ->
  findTask id (tasks s) = Some LoadDocumentList ->
  isLoading (view s) = true ->
  let s1 := step' s (Settle id (FulfilledDocs (doc :: others))) in
  let s2 := step' s1 (AuthStateChanged (user (view s)) false) in
  documentContent (view s1) = orDefault (Document.content doc) ""
  /\ editorRef s1 = None
  /\ timers s1 = timers s
  /\ log s1 = log s
  /\ documentContent (view s2) = orDefault (Document.content doc) ""
  /\ (user (view s) <> None -> editorRef s2 = Some placeholder).
Proof.
  intros Hreach Hfind Hl s1 s2.
  pose proof (Inv_reachable documentId parseHTML s Hreach) as H.
  assert (He : editorRef s = None).
  { apply (inv_editor s H). unfold editorShown. rewrite Hl. reflexivity. }
  pose proof (inv_rendered s H) as Hr.
  set (c := orDefault (Document.content doc) "") in *.
  set (title := orDefault (Document.title doc) "Untitled document") in *.
  assert (Eh : handle documentId parseHTML
                 (Settle id (FulfilledDocs (doc :: others))) s
               = setDocumentContent c
                   (setDocumentTitle title
                      (setTasks (dropTask id (tasks s)) s))).
  { simpl. unfold settle. rewrite Hfind. simpl. rewrite He. reflexivity. }
  assert (V1 : view s1
               = view (setDocumentContent c (setDocumentTitle title s))).
  { subst s1. unfold step. rewrite view_commit, Eh. reflexivity. }
  assert (E1 : editorRef s1 = None).
  { subst s1. unfold step. rewrite editorRef_commit, Eh.
    unfold attachRefs, editorShown. simpl. rewrite Hl. reflexivity. }
  assert (F1 : timers s1 = timers s /\ log s1 = log s).
  { subst s1. unfold step. rewrite Eh. clear Eh V1.
    destruct s as [v rd ed sel ref tm nx tk hd nw lg]. destruct v.
    unfold depsOf in Hr. simpl in *. subst.
    unfold commit, attachRefs, editorShown. simpl.
    rewrite optionUser_eqb_refl. simpl.
    unfold autoSaveEffect. simpl. rewrite andb_false_r.
    destruct user0; simpl;
      repeat match goal with
             | |- context [if ?b then _ else _] => destruct b
             end;
      split; reflexivity. }
  clearbody s1.
  split; [rewrite V1; reflexivity|]. split; [exact E1|].
  split; [apply F1|]. split; [apply F1|]. split.
  - subst s2. unfold step. rewrite view_commit. simpl. rewrite V1. reflexivity.
  - intros Hu. subst s2. unfold step. rewrite editorRef_commit.
    unfold attachRefs, editorShown. simpl.
    destruct (user (view s)); [|congruence]. simpl. rewrite E1. reflexivity.
Qed.

(** ** An empty [documentId] *)

Lemma Unloaded_frame (s s' : State) :
  Unloaded s ->
  handlers s' = handlers s ->
  incl (tasks s') (tasks s) ->
  log s' = log s ->
  Unloaded s'.
Proof.
  intros [Hh Ht Hl] Eh Et El. split.
  - rewrite Eh. exact Hh.
  - intros i t I. exact (Ht i t (Et _ I)).
  - rewrite El. exact Hl.
Qed.

Lemma Unloaded_emit (e : Effect) (s : State) :
  Unloaded s -> isLoadCall e = false -> Unloaded (emit e s).
Proof.
  intros [Hh Ht Hl] He. split; simpl; trivial.
  intros x I. apply in_app_or in I. destruct I as [I|[<-|[]]]; auto.
Qed.

Lemma Unloaded_await (t : Task) (call : Effect) (s : State) :
  Unloaded s -> isLoadCall call = false -> isLoadTask t = false ->
  Unloaded (await t call s).
Proof.
  intros [Hh Ht Hl] Hc Hk. split; simpl; trivial.
  - intros i x I. apply in_app_or in I. destruct I as [I|[I|[]]].
    + exact (Ht i x I).
    + inversion I. subst. exact Hk.
  - intros x I. apply in_app_or in I. destruct I as [I|[<-|[]]]; auto.
Qed.

Ltac unloaded_frame H :=
  refine (Unloaded_frame _ _ H _ _ _); simpl;
  [reflexivity
  | apply incl_refl || (intros ? ?; eauto using dropTask_incl)
  | reflexivity].

Lemma Unloaded_saveDocument (cl : Closure.t) (s : State) :
  Unloaded s -> Unloaded (saveDocument documentId cl s).
Proof.
  intros H. unfold saveDocument.
  destruct (Closure.user cl) as [u|]; trivial.
  destruct (Closure.isSaving cl); trivial.
  apply Unloaded_await; trivial. unloaded_frame H.
Qed.

Lemma Unloaded_commit (s : State) :
  documentId = "" -> Unloaded s -> Unloaded (commit' s).
Proof.
  intros Hd H. unfold commit. cbv zeta.
  assert (A : Unloaded (attachRefs s)).
  { unfold attachRefs. destruct (editorShown s); [destruct (editorRef s)|];
      trivial; unloaded_frame H. }
  revert A. generalize (attachRefs s). intros a A.
  assert (L : loadEffect documentId a = a).
  { unfold loadEffect. rewrite Hd. destruct (user (view a)); reflexivity. }
  rewrite L.
  assert (S : forall x, Unloaded x -> Unloaded (autoSaveEffect x)).
  { intros x Hx. unfold autoSaveEffect. destruct (user (view x)); trivial.
    destruct (truthy _ && negb _); trivial.
    destruct (saveTimeoutRef x); unloaded_frame Hx. }
  match goal with
  | |- context [if ?b then a else a] =>
      replace (if b then a else a) with a by (destruct b; reflexivity)
  end.
  match goal with
  | |- context [if ?c then autoSaveEffect a else a] =>
      assert (C : Unloaded (if c then autoSaveEffect a else a))
        by (destruct c; auto);
      revert C; generalize (if c then autoSaveEffect a else a)
  end.
  intros c C. unloaded_frame C.
Qed.

Lemma Unloaded_resume (t : Task) (r : Response) (s x : State) :
  Unloaded s -> isLoadTask t = false ->
  resume documentId t r s = Some x ->
  Unloaded x.
Proof.
  intros H G E. destruct t; try discriminate G; simpl in E.
  - unfold saveUpsertResume in E.
    assert (Ok : Unloaded
                   (await SavePublish
                      (Publish (topic documentId) "content-update"
                         (ContentUpdate (Closure.documentContent cl) (User.id u)))
                      (setLastSaved (Some (now s)) s)))
      by (apply Unloaded_await; trivial; unloaded_frame H).
    assert (No : Unloaded
                   (setIsSaving false
                      (emit (ConsoleError "Failed to save document:") s))).
    { assert (M : Unloaded (emit (ConsoleError "Failed to save document:") s))
        by (apply Unloaded_emit; trivial).
      unloaded_frame M. }
    destruct r; inversion E; subst; assumption.
  - unfold savePublishResume in E.
    assert (No : Unloaded
                   (setIsSaving false
                      (emit (ConsoleError "Failed to save document:") s))).
    { assert (M : Unloaded (emit (ConsoleError "Failed to save document:") s))
        by (apply Unloaded_emit; trivial).
      unloaded_frame M. }
    destruct r; inversion E; subst; trivial; unloaded_frame H.
  - unfold titleUpsertResume in E.
    destruct r; inversion E; subst;
      (apply Unloaded_await || apply Unloaded_emit); trivial.
  - unfold titlePublishResume in E.
    destruct r; inversion E; subst; trivial.
    apply Unloaded_emit; trivial.
  - unfold commentCreateResume in E.
    destruct r; inversion E; subst;
      try (apply Unloaded_emit; trivial; fail);
      apply Unloaded_await; trivial; unloaded_frame H.
  - unfold commentPublishResume in E.
    destruct r; inversion E; subst;
      try (apply Unloaded_emit; trivial; fail); unloaded_frame H.
Qed.

Lemma Unloaded_handle (e : Event) (s : State) :
  documentId = "" -> Unloaded s ->
  Unloaded (handle documentId parseHTML e s).
Proof.
  intros Hd H. destruct e; simpl.
  - unloaded_frame H.
  - destruct (editorRef s); trivial. unloaded_frame H.
  - unloaded_frame H.
  - unloaded_frame H.
  - unfold handleTitleSave. simpl. destruct (user (view s)) as [u|].
    + apply Unloaded_await; trivial. unloaded_frame H.
    + unloaded_frame H.
  - unfold handleTextSelection. simpl.
    destruct sel; [|destruct (truthy (trim text))..]; unloaded_frame H.
  - unfold addComment. destruct (user (view s)) as [u|]; trivial.
    destruct (negb _); trivial. destruct (selection s); trivial.
    destruct answer as [a|]; trivial. destruct (negb _); trivial.
    apply Unloaded_await; trivial.
  - unfold elapse. cbv zeta.
    match goal with
    | |- Unloaded (setNow ?n (fold_left _ ?due ?x)) =>
        assert (F : Unloaded (fold_left (fire documentId) due x))
    end.
    { match goal with
      | |- Unloaded (fold_left _ ?due ?x) =>
          assert (X : Unloaded x) by unloaded_frame H;
          revert X; generalize x; generalize due
      end.
      intros due. induction due as [|t due IH]; intros x X; simpl; trivial.
      apply IH. unfold fire.
      apply Unloaded_commit, Unloaded_saveDocument; trivial.
      unloaded_frame X. }
    unloaded_frame F.
  - unfold settle. destruct (findTask task (tasks s)) as [t|] eqn:F; trivial.
    destruct (resume _ _ _ _) as [x|] eqn:E; trivial.
    refine (Unloaded_resume t r _ x _ _ E).
    + unloaded_frame H.
    + exact (unl_tasks s H task t (findTask_In _ _ _ F)).
  - unfold deliver. rewrite (unl_handlers s H). exact H.
  - unfold presence. rewrite (unl_handlers s H). exact H.
Qed.

(** X21.  With an empty [documentId] prop the load effect never passes its
    guard: in every reachable state no list or subscribe call has been made
    and no channel handler is registered, so channel messages and presence
    reports change nothing. *)
Theorem X21_empty_document_id_never_loads (s : State) :
  documentId = "" ->
  reachable' s ->
  handlers s = []
  /\ filter isLoadCall (log s) = []
  /\ (forall m, step' s (Deliver m) = s)
  /\ (forall users, step' s (Presence users) = s).
Proof.
  intros Hd Hreach.
  pose proof (Inv_reachable documentId parseHTML s Hreach) as H.
  assert (U : Unloaded s).
  { clear H. destruct Hreach as [es ->].
    assert (G : forall x, Unloaded x -> Unloaded (run' es x)).
    { induction es as [|e es IH]; intros x Hx; simpl; trivial.
      apply IH. unfold step. apply Unloaded_commit, Unloaded_handle; trivial. }
    apply G. split; simpl; trivial; intros; contradiction. }
  destruct U as [Hh Ht Hl].
  split; [exact Hh|]. split.
  - clear H Hh Ht. induction (log s) as [|e l IH]; simpl; trivial.
    rewrite (Hl e (or_introl eq_refl)). apply IH.
    intros x I. apply Hl. right. exact I.
  - split.
    + intros m. unfold step. simpl. unfold deliver. rewrite Hh. simpl.
      apply commit_fixed; [apply (inv_rendered s H)|apply (inv_editor s H)].
    + intros users. unfold step. simpl. unfold presence. rewrite Hh. simpl.
      apply commit_fixed; [apply (inv_rendered s H)|apply (inv_editor s H)].
Qed.

End Coverage.

(** * The further properties at concrete inputs *)

(** X1 in the state in which a flush is in flight and Ann has typed on. *)
Lemma X1_one_timer_one_flush_witness :
  List.length (timers busy) <= 1
  /\ List.length (savesInFlight busy) <= 1
  /\ forall t, In t (timers busy) -> saveTimeoutRef busy = Some (Timer.id t).
Proof.
  apply (X1_one_timer_one_flush "doc-1" plainText busy).
  apply session_reachable.
Defined.


(** X3: the stored document arrives after Ann signed in. *)
Lemma X3_loaded_document_is_written_back_witness :
  flushedOnce "doc-1" plainText
    (step "doc-1" plainText signedIn
       (Settle 0
          (FulfilledDocs [Document.mk "doc-1" (Some "Plan") (Some "body") "u1" 0])))
    ann "body"
    (step "doc-1" plainText
       (step "doc-1" plainText signedIn
          (Settle 0
             (FulfilledDocs
                [Document.mk "doc-1" (Some "Plan") (Some "body") "u1" 0])))
       (Elapse 1000)).
Proof.
  apply (X3_loaded_document_is_written_back "doc-1" plainText signedIn ann 0
           (Document.mk "doc-1" (Some "Plan") (Some "body") "u1" 0) [] 1000).
  - apply session_reachable.
  - run_model.
  - run_model.
  - run_model.
  - run_model.
  - run_model.
  - run_model.
  - apply le_n.
Defined.

(** X4: Ann types "a", renames the document to "Plan" and pauses. *)
Lemma X4_pending_flush_reverts_title_witness :
  newEffects typedA
    (run "doc-1" plainText [TitleInput "Plan"; TitleCommit; Elapse 1000] typedA)
  = [DocumentsUpsert (Document.mk "doc-1" (Some "Plan") None "u1" 0);
     DocumentsUpsert
       (Document.mk "doc-1" (Some "Untitled document") (Some "a") "u1" 1000)].
Proof.
  apply (X4_pending_flush_reverts_title "doc-1" plainText typedA
           (Timer.mk 3 1000
              (Closure.mk (Some ann) false "Untitled document" "a"))
           ann ann "Plan" 1000).
  - apply session_reachable.
  - run_model.
  - reflexivity.
  - reflexivity.
  - run_model.
  - run_model.
Defined.

(** X5: Bob's comment arrives before the answer to Ann's first
    [loadComments]. *)
Lemma X5_load_replaces_live_comments_witness :
  comments
    (view (run "doc-1" plainText
             [Deliver (Message.mk "u2" (CommentAdded remark));
              Settle 1 (FulfilledComments [])] joined))
  = [].
Proof.
  apply (X5_load_replaces_live_comments "doc-1" plainText joined 1
           (Message.mk "u2" (CommentAdded remark)) []).
  - apply session_reachable.
  - run_model.
Defined.

(** X6: one registered handler, one copy. *)
Lemma X6_comment_prepended_per_handler_witness :
  comments
    (view (step "doc-1" plainText joined
             (Deliver (Message.mk "u2" (CommentAdded remark)))))
  = (repeat remark (List.length (handlers joined)) ++ comments (view joined))%list.
Proof.
  apply (X6_comment_prepended_per_handler "doc-1" plainText
           (Message.mk "u2" (CommentAdded remark)) remark joined).
  reflexivity.
Defined.

(** X8: typing does not touch the comment list. *)
Lemma X8_comments_only_grow_witness :
  comments (view (step "doc-1" plainText joined (Input "a")))
  = comments (view joined).
Proof.
  apply (X8_comments_only_grow "doc-1" plainText joined (Input "a")).
  reflexivity.
Defined.


(** X10: the record Ann's comment on her selection sends to the store. *)
Lemma X10_author_line_is_not_stored_witness :
  commentAuthorName (Comment.withAuthor remark ann) = displayNameOf ann
  /\ commentAuthorName
       (Comment.mk "comment-0" "doc-1" "u1" "why?" 10 14 0 false None)
     = "Anonymous".
Proof.
  destruct (X10_author_line_is_not_stored "doc-1" selecting (Some "why?")
              remark ann) as [A B].
  split; [exact A|].
  apply B. vm_compute. left. reflexivity.
Defined.

(** X11: an update with empty content. *)
Lemma X11_update_without_content_or_editor_witness :
  step "doc-1" plainText joined (Deliver (Message.mk "u2" (ContentUpdate "" "u2")))
  = joined.
Proof.
  apply (X11_update_without_content_or_editor "doc-1" plainText joined
           (Message.mk "u2" (ContentUpdate "" "u2")) "" "u2").
  - apply session_reachable.
  - reflexivity.
  - left. reflexivity.
Defined.

(** X12: Ann has not clicked into the page yet. *)
Lemma X12_update_without_range_is_lost_witness :
  onMessage plainText ann (Message.mk "u2" (ContentUpdate "hello" "u2")) signedIn
  = Throw "IndexSizeError" signedIn.
Proof.
  apply (X12_update_without_range_is_lost plainText ann
           (Message.mk "u2" (ContentUpdate "hello" "u2")) signedIn "hello" "u2").
  - reflexivity.
  - run_model.
  - run_model.
  - run_model.
  - run_model.
Defined.

(** X13: Ann commits the title she has. *)
Lemma X13_title_commit_round_trip_witness :
  newEffects signedIn (step "doc-1" plainText signedIn TitleCommit)
  = [DocumentsUpsert
       (Document.mk "doc-1" (Some "Untitled document") None "u1" 0)].
Proof.
  pose proof (X13_title_commit_round_trip "doc-1" plainText signedIn ann
                (session_reachable _)) as P.
  apply P. run_model.
Defined.

(** X14 after a finished flush. *)
Lemma X14_store_before_channel_witness : persistedFirst (log saved).
Proof.
  apply (X14_store_before_channel "doc-1" plainText saved).
  apply session_reachable.
Defined.

(** X15 after a finished flush. *)
Lemma X15_saved_indicator_witness :
  savesInFlight saved = []
  /\ 1000 <= now saved
  /\ exists d, In (DocumentsUpsert d) (log saved) /\ Document.content d <> None.
Proof.
  apply (X15_saved_indicator "doc-1" plainText saved 1000).
  - apply session_reachable.
  - run_model.
Defined.


(** X17: Ann has shared with Bob and clicks Share again. *)
Lemma X17_share_once_witness :
  shareDocument "doc-1" (Some ann) 9
    (fst (shareDocumentResume Fulfilled
            (ShareDialog.mk "bob@example.org" CanEdit true)))
  = None.
Proof.
  apply (X17_share_once "doc-1" (Some ann) 5 9
           (ShareDialog.mk "bob@example.org" CanEdit true)).
Defined.

(** X18: the surface receives input after Ann signed out. *)
Lemma X18_render_without_user_is_inert_witness :
  log (step "doc-1" plainText signedOut (Input "b")) = log signedOut
  /\ tasks (step "doc-1" plainText signedOut (Input "b")) = tasks signedOut
  /\ timers (step "doc-1" plainText signedOut (Input "b")) = timers signedOut.
Proof.
  apply (X18_render_without_user_is_inert "doc-1" plainText signedOut (Input "b")).
  - apply session_reachable.
  - run_model.
  - reflexivity.
Defined.

(** X19: Bob signs in on the page Ann left with "a" typed. *)
Lemma X19_sign_in_writes_kept_content_witness :
  flushedOnce "doc-1" plainText
    (step "doc-1" plainText signedOut (AuthStateChanged (Some bob) false))
    bob "a"
    (step "doc-1" plainText
       (step "doc-1" plainText signedOut (AuthStateChanged (Some bob) false))
       (Elapse 1000)).
Proof.
  destruct (X19_sign_in_writes_kept_content "doc-1" plainText signedOut bob 1000)
    as (_ & _ & _ & _ & F).
  - apply session_reachable.
  - run_model.
  - run_model.
  - run_model.
  - run_model.
  - apply le_n.
  - exact F.
Defined.

(** X20: the stored document arrives while Ann's auth state is loading. *)
Lemma X20_answer_while_loading_is_not_shown_witness :
  documentContent
    (view (run "doc-1" plainText
             [Settle 0 (FulfilledDocs [stored]);
              AuthStateChanged (Some ann) false] loading))
  = "body"
  /\ editorRef
       (run "doc-1" plainText
          [Settle 0 (FulfilledDocs [stored]);
           AuthStateChanged (Some ann) false] loading)
     = Some placeholder.
Proof.
  destruct (X20_answer_while_loading_is_not_shown "doc-1" plainText loading 0
              stored [])
    as (_ & _ & _ & _ & A & B).
  - apply session_reachable.
  - run_model.
  - run_model.
  - split; [exact A|]. apply B. run_model.
Defined.

(** X21: a session of a component with an empty [documentId]. *)
Lemma X21_empty_document_id_never_loads_witness :
  handlers unnamed = [] /\ filter isLoadCall (log unnamed) = [].
Proof.
  destruct (X21_empty_document_id_never_loads "" plainText unnamed)
    as (A & B & _).
  - reflexivity.
  - exists [AuthStateChanged (Some ann) false; Input "a"; Elapse 1000].
    reflexivity.
  - split; [exact A|exact B].
Defined.
